(** * vibin: device resolution, adapter dispatch and state synchronisation

    A shallow embedding of

    - [vibin/amplifiers/streammagic.py]  (the StreamMagic amplifier adapter),
    - [vibin/base.py]                    (the transport verbs of [Vibin]),
    - [vibin/device_resolution.py]       (role resolution and adapter classes),

    followed by the properties established about them.

    Python values are modelled by [Py.pyval], exceptions by [Py.exn], and
    a call that may raise returns a [Py.result].  Everything that lives
    outside the repository (the network, the UPnP stack, [json.loads],
    [urlparse]) is a field of the [World] record. *)

From Stdlib Require Import ZArith Floats.
From stdpp Require Import gmap strings list fin_maps pretty.

(* ===================================================================== *)
(** * Python values, exceptions and the operators the code uses           *)
(* ===================================================================== *)

Module Py.

(** The values [json.loads] produces; also used for exception arguments. *)
#[warnings="-register-all"]
Inductive pyval :=
| PNone
| PBool (b : bool)
| PInt (z : Z)
| PFloat (f : float)
| PStr (s : string)
| PList (l : list pyval)
| PDict (m : gmap string pyval).

(** Exceptions, by class.  [VibinError] is the repository's own error
    (declared in [vibin/__init__.py]).  [Timeout] is a subclass of
    [requests.RequestException]; every other class here is unrelated to the
    others as far as the [except] clauses of the code can tell. *)
Inductive exn :=
| VibinError (msg : string)
| RequestException (msg : string)
| Timeout (msg : string)
| JSONDecodeError (msg : string)
| KeyError (key : string)
| IndexError (msg : string)
| TypeError (msg : string)
| ValueError (msg : string)
| OverflowError (msg : string)
| ZeroDivisionError (msg : string)
| AttributeError (msg : string)
| SOAPError (args : list pyval)
| OtherException (cls msg : string).

Inductive result (A : Type) :=
| Ok (a : A)
| Raise (e : exn).
Arguments Ok {A} a.
Arguments Raise {A} e.

#[export] Instance result_ret : MRet result := fun A a => Ok a.
#[export] Instance result_bind : MBind result := fun A B f m =>
  match m with Ok a => f a | Raise e => Raise e end.

(** [try: body / except ...: handler] for code without other effects. *)
Definition try_result {A} (body : result A) (handler : exn → option (result A)) : result A :=
  match body with
  | Raise e =>
      match handler e with
      | Some h => h
      | None => Raise e
      end
  | r => r
  end.

(** [except requests.RequestException] also catches [requests.Timeout]. *)
Definition is_RequestException (e : exn) : bool :=
  match e with RequestException _ | Timeout _ => true | _ => false end.

Definition is_Timeout (e : exn) : bool :=
  match e with Timeout _ => true | _ => false end.

Definition is_JSONDecodeError (e : exn) : bool :=
  match e with JSONDecodeError _ => true | _ => false end.

Definition is_KeyError (e : exn) : bool :=
  match e with KeyError _ => true | _ => false end.

Definition is_IndexError (e : exn) : bool :=
  match e with IndexError _ => true | _ => false end.

(** [v[key]] for a [str] key. *)
Definition getitem (v : pyval) (key : string) : result pyval :=
  match v with
  | PDict m =>
      match m !! key with
      | Some x => Ok x
      | None => Raise (KeyError key)
      end
  | PList _ => Raise (TypeError "list indices must be integers or slices, not str")
  | PStr _ => Raise (TypeError "string indices must be integers, not 'str'")
  | PNone => Raise (TypeError "'NoneType' object is not subscriptable")
  | PBool _ => Raise (TypeError "'bool' object is not subscriptable")
  | PInt _ => Raise (TypeError "'int' object is not subscriptable")
  | PFloat _ => Raise (TypeError "'float' object is not subscriptable")
  end.

(** [l[0]] on a list built by a comprehension. *)
Definition head0 {A : Type} (l : list A) : result A :=
  match l with
  | x :: _ => Ok x
  | [] => Raise (IndexError "list index out of range")
  end.

(** Truth value of [v] in an [if] or a conditional expression. *)
Definition truthy (v : pyval) : bool :=
  match v with
  | PNone => false
  | PBool b => b
  | PInt z => negb (z =? 0)%Z
  | PFloat f => negb (PrimFloat.eqb f PrimFloat.zero)
  | PStr s => negb (String.eqb s "")
  | PList l => match l with [] => false | _ => true end
  | PDict m => negb (bool_decide (m = ∅))
  end.

(** [v == s] for a [str] literal [s]: only an equal [str] compares equal. *)
Definition eq_str (v : pyval) (s : string) : bool :=
  match v with
  | PStr t => String.eqb t s
  | _ => false
  end.

(** [v != s]. *)
Definition ne_str (v : pyval) (s : string) : bool := negb (eq_str v s).

(** [v in [s1, s2, ...]] for a list of [str] literals. *)
Definition in_strs (v : pyval) (l : list string) : bool :=
  existsb (eq_str v) l.

(** [needle in hay] for two [str]: substring test. *)
Fixpoint str_in (needle hay : string) : bool :=
  String.prefix needle hay ||
  match hay with
  | EmptyString => false
  | String _ rest => str_in needle rest
  end.

Fixpoint chars (s : string) : list pyval :=
  match s with
  | EmptyString => []
  | String c rest => PStr (String c EmptyString) :: chars rest
  end.

(** The elements a [for] loop or a comprehension visits.  A dictionary
    yields its keys; [gmap] does not remember insertion order, and the code
    never depends on it (every key is a [str], and subscripting a [str] with
    a [str] raises whatever the key is). *)
Definition iter (v : pyval) : result (list pyval) :=
  match v with
  | PList l => Ok l
  | PDict m => Ok (PStr <$> (map_to_list m).*1)
  | PStr s => Ok (chars s)
  | PNone => Raise (TypeError "'NoneType' object is not iterable")
  | PBool _ => Raise (TypeError "'bool' object is not iterable")
  | PInt _ => Raise (TypeError "'int' object is not iterable")
  | PFloat _ => Raise (TypeError "'float' object is not iterable")
  end.

(** [[x for x in l if p(x)]] where the condition may raise. *)
Fixpoint filterM {A : Type} (p : A → result bool) (l : list A) : result (list A) :=
  match l with
  | [] => Ok []
  | x :: rest =>
      b ← p x;
      keep ← filterM p rest;
      Ok (if b : bool then x :: keep else keep)
  end.

(** ** Numbers *)

Definition Z2SF (z : Z) : spec_float :=
  match z with
  | Z0 => S754_zero false
  | Zpos p => S754_finite false p 0
  | Zneg p => S754_finite true p 0
  end.

(** [float(z)]: the nearest double, ties to even. *)
Definition int_to_float (z : Z) : result float :=
  match binary_normalize prec emax z 0 false with
  | S754_infinity _ => Raise (OverflowError "int too large to convert to float")
  | f => Ok (SF2Prim f)
  end.

(** [a / b] on two [int]: the correctly rounded quotient. *)
Definition int_truediv (a b : Z) : result float :=
  if (b =? 0)%Z then Raise (ZeroDivisionError "division by zero")
  else
    match SFdiv prec emax (Z2SF a) (Z2SF b) with
    | S754_infinity _ =>
        Raise (OverflowError "integer division result too large for a float")
    | q => Ok (SF2Prim q)
    end.

(** [v / b] for an [int] literal [b]. *)
Definition truediv (v : pyval) (b : Z) : result float :=
  match v with
  | PInt a => int_truediv a b
  | PBool a => int_truediv (if a then 1 else 0) b
  | PFloat f =>
      fb ← int_to_float b;
      if (b =? 0)%Z then Raise (ZeroDivisionError "float division by zero")
      else Ok (PrimFloat.div f fb)
  | PNone => Raise (TypeError "unsupported operand type(s) for /: 'NoneType' and 'int'")
  | PStr _ => Raise (TypeError "unsupported operand type(s) for /: 'str' and 'int'")
  | PList _ => Raise (TypeError "unsupported operand type(s) for /: 'list' and 'int'")
  | PDict _ => Raise (TypeError "unsupported operand type(s) for /: 'dict' and 'int'")
  end.

(** [round(f)] for a [float]: nearest integer, ties to even. *)
Definition round (f : float) : result Z :=
  match Prim2SF f with
  | S754_nan => Raise (ValueError "cannot convert float NaN to integer")
  | S754_infinity _ => Raise (OverflowError "cannot convert float infinity to integer")
  | S754_zero _ => Ok 0%Z
  | S754_finite s m e =>
      let n :=
        match e with
        | Zneg k =>
            let d := Z.pow_pos 2 k in
            let q := (Zpos m / d)%Z in
            let r := (Zpos m mod d)%Z in
            match (2 * r ?= d)%Z with
            | Lt => q
            | Gt => (q + 1)%Z
            | Eq => if Z.even q then q else (q + 1)%Z
            end
        | _ => (Zpos m * 2 ^ e)%Z
        end in
      Ok (if s then (- n)%Z else n)
  end.

(** [str(z)] for an [int]. *)
Definition str_int (z : Z) : string := pretty z.

(** [str(v)], as an f-string renders [{v}].  The renderings of floats and
    of containers are left to [repr], which the caller supplies. *)
Definition str (repr : pyval → string) (v : pyval) : string :=
  match v with
  | PStr s => s
  | PInt z => str_int z
  | PBool true => "True"
  | PBool false => "False"
  | PNone => "None"
  | _ => repr v
  end.

(** [a, b = args]. *)
Definition unpack2 {A B : Type} (args : list A) (k : A → A → result B) : result B :=
  match args with
  | [a; b] => k a b
  | _ :: _ :: _ :: _ => Raise (ValueError "too many values to unpack (expected 2)")
  | l =>
      Raise (ValueError ("not enough values to unpack (expected 2, got "
                         +:+ pretty (length l) +:+ ")"))
  end.

(** ** Statements with effects

    A method or function body: it reads and updates a state [S] and either
    returns or raises.  The state reached when an exception is raised is
    kept, as it is in Python. *)
Definition Eff (S A : Type) : Type := S → S * result A.

#[export] Instance eff_ret {S} : MRet (Eff S) := fun A a s => (s, Ok a).
#[export] Instance eff_bind {S} : MBind (Eff S) := fun A B f m s =>
  match m s with
  | (s', Ok a) => f a s'
  | (s', Raise e) => (s', Raise e)
  end.

Definition raise {S A} (e : exn) : Eff S A := fun s => (s, Raise e).

Definition lift {S A} (r : result A) : Eff S A := fun s => (s, r).

Definition get {S} : Eff S S := fun s => (s, Ok s).

(** [try: body / except ...: handler].  [handler e] is [None] when no
    [except] clause matches [e], which then propagates. *)
Definition try_except {S A} (body : Eff S A) (handler : exn → option (Eff S A)) : Eff S A :=
  fun s =>
    match body s with
    | (s', Raise e) =>
        match handler e with
        | Some h => h s'
        | None => (s', Raise e)
        end
    | r => r
    end.

End Py.

(* ===================================================================== *)
(** * External collaborators                                              *)
(* ===================================================================== *)

Module upnpclient.

(** A [upnpclient.Device] object.  The class defines no [__eq__], so [==]
    and [!=] on devices compare object identity, here [ident]. *)
Record Device := {
  ident : nat;
  manufacturer : string;
  device_type : string;
  friendly_name : string;
  model_name : string;
  location : string;
  udn : string;
}.

Definition ne (a b : Device) : bool := negb (ident a =? ident b).

End upnpclient.

Module requests.

(** What the code reads of a [requests.Response]; [json] is the outcome of
    calling [response.json()]. *)
Record Response := {
  status_code : Z;
  json : Py.result Py.pyval;
}.

End requests.

(** Everything outside the repository that the code calls.  A world fixes
    the answer to each call for the duration of one run: asking twice gets
    the same answer.  [urlparse] is taken to return (the [ValueError] it
    raises on a malformed bracketed host is left out), and so is a
    discovery scan.  Each [upnpclient.Device(location)] builds a new
    object; the [ident] of the record the world returns stands for it. *)
Record World := {
  (** [urlparse(s).hostname] *)
  urlparse_hostname : string → option string;
  (** [json.loads(message)] *)
  json_loads : string → Py.result Py.pyval;
  (** [requests.get(url, timeout=...)] *)
  requests_get : string → option Z → Py.result requests.Response;
  (** [upnpclient.Device(location)] *)
  upnpclient_Device : Py.pyval → Py.result upnpclient.Device;
  (** [upnpclient.discover(timeout=...)] *)
  upnpclient_discover : Z → list upnpclient.Device;
  (** [repr(v)], used for the values [Py.str] does not render itself *)
  py_repr : Py.pyval → string;
}.

(** An optional [str] inside an f-string: [None] renders as its name. *)
Definition fmt_opt (o : option string) : string :=
  match o with
  | Some s => s
  | None => "None"
  end.

(* ===================================================================== *)
(** * vibin/models.py, as far as the adapter uses it                      *)
(* ===================================================================== *)

Module models.

(** Modelled from the spec: [vibin.models.AudioSources] is not among the
    sources.  The spec calls it an optional audio-source selection; the
    adapter below only ever stores [None] in the field of this type, so the
    object is kept opaque. *)
Inductive AudioSources :=
| AudioSourcesObject (v : Py.pyval).

(** Modelled from the spec: [vibin.models.AmplifierState] is not among the
    sources.  Its fields are the keyword arguments the adapter passes to
    its constructor, which are those of the spec's canonical device state:
    device name, capability set, power, mute, volume, audio sources.
    [actions], [power] and [mute] hold the string literals the code
    writes. *)
Record AmplifierState := {
  name : string;
  actions : list string;
  power : option string;
  mute : option string;
  volume : option float;
  sources : option AudioSources;
}.

End models.

(* ===================================================================== *)
(** * vibin/amplifiers/streammagic.py                                      *)
(* ===================================================================== *)

Module streammagic.
Import Py upnpclient models.

(** The type of the [on_update] callback ([vibin.types]): it is called with
    a channel name and a state, and returns or raises. *)
Definition UpdateMessageHandler : Type := string → AmplifierState → result unit.

(** What the adapter does to the outside: the HTTP requests it issues and
    the calls of its update callback, oldest first. *)
Inductive event :=
| HttpGet (url : string)
| OnUpdate (channel : string) (st : AmplifierState).

(** The attributes of a [StreamMagic] instance that its methods use. *)
Record StreamMagic := {
  _device : Device;
  _on_update : option UpdateMessageHandler;
  _device_hostname : option string;
  _device_state : AmplifierState;
}.

(** The adapter together with the trace of its effects. *)
Record Sys := {
  self : StreamMagic;
  trace : list event;
}.

Definition emit (ev : event) : Eff Sys unit :=
  fun s => ({| self := self s; trace := trace s ++ [ev] |}, Ok ()).

(** [self._device_state = st] *)
Definition set_device_state (st : AmplifierState) : Eff Sys unit :=
  fun s =>
    ({| self := {| _device := _device (self s);
                   _on_update := _on_update (self s);
                   _device_hostname := _device_hostname (self s);
                   _device_state := st |};
        trace := trace s |}, Ok ()).

Section Adapter.
Context (w : World).

(** [StreamMagic.__init__], without the websocket thread it starts. *)
Definition __init__ (device : Device) (on_update : option UpdateMessageHandler) : StreamMagic :=
  {| _device := device;
     _on_update := on_update;
     _device_hostname := urlparse_hostname w (location device);
     _device_state :=
       {| name := friendly_name device;
          actions := [];
          power := None;
          mute := None;
          volume := None;
          sources := None |} |}.

Definition _send_state_request (param value : string) : Eff Sys unit :=
  s ← get;
  let url := "http://" +:+ fmt_opt (_device_hostname (self s))
             +:+ "/smoip/zone/state?" +:+ param +:+ "=" +:+ value in
  _ ← emit (HttpGet url);
  _ ← lift (requests_get w url None);
  mret ().

(** The [power] setter and [power_toggle]: not supported. *)
Definition power_setter (state : string) : Eff Sys unit := mret ().

Definition power_toggle : Eff Sys unit := mret ().

(** The [volume] setter. *)
Definition volume_setter (volume : float) : Eff Sys unit :=
  s ← get;
  if bool_decide ("volume" ∈ actions (_device_state (self s))) then
    n ← lift (round (PrimFloat.mul volume 100%float));
    _send_state_request "volume_percent" (str_int n)
  else mret ().

Definition volume_up : Eff Sys unit :=
  s ← get;
  if bool_decide ("volume_up_down" ∈ actions (_device_state (self s))) then
    _send_state_request "volume_step_change" "1"
  else mret ().

Definition volume_down : Eff Sys unit :=
  s ← get;
  if bool_decide ("volume_up_down" ∈ actions (_device_state (self s))) then
    _send_state_request "volume_step_change" "-1"
  else mret ().

(** The [mute] setter. *)
Definition mute_setter (state : string) : Eff Sys unit :=
  s ← get;
  if bool_decide ("mute" ∈ actions (_device_state (self s))) then
    _send_state_request "mute" (if String.eqb state "on" then "true" else "false")
  else mret ().

Definition mute_toggle : Eff Sys unit :=
  s ← get;
  if bool_decide ("mute" ∈ actions (_device_state (self s))) then
    _send_state_request "mute"
      (if bool_decide (mute (_device_state (self s)) = Some "on")
       then "false" else "true")
  else mret ().

(** ["on" if v else "off"] *)
Definition on_off (v : pyval) : string := if truthy v then "on" else "off".

(** [self._on_update("System", self._device_state)] *)
Definition call_on_update : Eff Sys unit :=
  s ← get;
  match _on_update (self s) with
  | None => raise (TypeError "'NoneType' object is not callable")
  | Some handler =>
      _ ← emit (OnUpdate "System" (_device_state (self s)));
      lift (handler "System" (_device_state (self s)))
  end.

Definition _handle_state_message (message : string) : Eff Sys unit :=
  match json_loads w message with
  | Raise e =>
      if is_KeyError e || is_JSONDecodeError e then mret () else raise e
  | Ok parsed =>
      (* if parsed["path"] != "/zone/state" or parsed["type"] != "update": pass *)
      path ← lift (getitem parsed "path");
      _ ← (if ne_str path "/zone/state" then mret ()
           else
             type ← lift (getitem parsed "type");
             if ne_str type "update" then mret () else mret ());
      params ← lift (getitem parsed "params");
      data ← lift (getitem params "data");
      s ← get;
      let friendly := friendly_name (_device (self s)) in
      pre_amp_mode ← lift (getitem data "pre_amp_mode");
      _ ← (if truthy pre_amp_mode then
             p ← lift (getitem data "power");
             m ← lift (getitem data "mute");
             volume_percent ← lift (getitem data "volume_percent");
             v ← lift (truediv volume_percent 100);
             set_device_state
               {| name := friendly;
                  actions := ["volume"; "mute"; "volume_up_down"];
                  power := Some (on_off p);
                  mute := Some (on_off m);
                  volume := Some v;
                  sources := None |}
           else
             cbus ← lift (getitem data "cbus");
             if in_strs cbus ["amplifier"; "receiver"] then
               p ← lift (getitem data "power");
               set_device_state
                 {| name := friendly;
                    actions := ["volume_up_down"];
                    power := Some (on_off p);
                    mute := None;
                    volume := None;
                    sources := None |}
             else
               p ← lift (getitem data "power");
               set_device_state
                 {| name := friendly;
                    actions := [];
                    power := Some (on_off p);
                    mute := None;
                    volume := None;
                    sources := None |});
      call_on_update
  end.

End Adapter.

End streammagic.

(* ===================================================================== *)
(** * vibin/base.py: the transport verbs of [Vibin]                       *)
(* ===================================================================== *)

Module base.
Import Py.

(** The methods of the abstract [Streamer] ([vibin.streamers], not among
    the sources) that the verbs call, over the streamer's own state [S]. *)
Class Streamer (S : Type) := {
  streamer_pause : Eff S unit;
  streamer_play : Eff S unit;
  streamer_next_track : Eff S unit;
  streamer_previous_track : Eff S unit;
  streamer_repeat : option bool → Eff S unit;
  streamer_shuffle : option bool → Eff S unit;
  streamer_seek : pyval → Eff S unit;
}.

Section Vibin.
Context (w : World) {S : Type} `{Streamer S}.

(** [except SOAPError as e: code, err = e.args; raise VibinError(f"{what}: [{code}] {err}")] *)
Definition on_SOAPError (what : string) (e : exn) : option (Eff S unit) :=
  match e with
  | SOAPError args =>
      Some (lift (unpack2 args (fun code err =>
        Raise (VibinError (what +:+ ": [" +:+ str (py_repr w) code +:+ "] "
                           +:+ str (py_repr w) err)))))
  | _ => None
  end.

Definition pause : Eff S unit :=
  try_except streamer_pause (on_SOAPError "Unable to perform Pause transition").

Definition play : Eff S unit :=
  try_except streamer_play (on_SOAPError "Unable to perform Play transition").

Definition next_track : Eff S unit :=
  try_except streamer_next_track (on_SOAPError "Unable to perform Next transition").

Definition previous_track : Eff S unit :=
  try_except streamer_previous_track
    (on_SOAPError "Unable to perform Previous transition").

Definition repeat (enabled : option bool) : Eff S unit :=
  try_except (streamer_repeat enabled)
    (on_SOAPError "Unable to interact with Repeat setting").

Definition shuffle (enabled : option bool) : Eff S unit :=
  try_except (streamer_shuffle enabled)
    (on_SOAPError "Unable to interact with Shuffle setting").

Definition seek (target : pyval) : Eff S unit :=
  streamer_seek target.

End Vibin.

End base.

(* ===================================================================== *)
(** * vibin/device_resolution.py                                           *)
(* ===================================================================== *)

Module device_resolution.
Import Py upnpclient requests.

Inductive level := INFO | WARNING.

(** The module's global [_upnp_devices] and the records handed to
    [logger], oldest first. *)
Record Globals := {
  _upnp_devices : option (list Device);
  logger : list (level * string);
}.

(** The globals once one more record has been logged. *)
Definition logged (lv : level) (msg : string) (g : Globals) : Globals :=
  {| _upnp_devices := _upnp_devices g; logger := logger g ++ [(lv, msg)] |}.

Definition log (lv : level) (msg : string) : Eff Globals unit :=
  fun g => (logged lv msg g, Ok ()).

Definition logger_info : string → Eff Globals unit := log INFO.

Definition logger_warning : string → Eff Globals unit := log WARNING.

(** [_upnp_devices = devices] *)
Definition set_upnp_devices (devices : list Device) : Eff Globals unit :=
  fun g => ({| _upnp_devices := Some devices; logger := logger g |}, Ok ()).

(** [for x in l: body(x)] *)
Fixpoint for_each {S A} (l : list A) (body : A → Eff S unit) : Eff S unit :=
  match l with
  | [] => mret ()
  | x :: rest => _ ← body x; for_each rest body
  end.

(** [x is None or x == ""] *)
Definition is_blank (x : option string) : bool :=
  match x with
  | None => true
  | Some s => String.eqb s ""
  end.

(** The value of a [str | None] argument inside an f-string. *)
Definition input_str (x : option string) : string := fmt_opt x.

(** A [str | bool | None] argument of [determine_devices]. *)
Inductive hint :=
| HNone
| HBool (b : bool)
| HStr (s : string).

(** [device["manufacturer"] == "Cambridge Audio"], the condition of the
    comprehension over the devices a probed host lists. *)
Definition made_by_cambridge (device : pyval) : result bool :=
  m ← getitem device "manufacturer";
  Ok (eq_str m "Cambridge Audio").

Section Resolution.
Context (w : World).

Definition _discover_upnp_devices (timeout : Z) : Eff Globals (list Device) :=
  g ← get;
  match _upnp_devices g with
  | Some devices => mret devices
  | None =>
      _ ← logger_info "Discovering UPnP devices...";
      let devices := upnpclient_discover w timeout in
      _ ← for_each devices (fun device =>
             logger_info ("Found: " +:+ model_name device +:+ " ('"
                          +:+ friendly_name device +:+ "') from "
                          +:+ manufacturer device));
      _ ← set_upnp_devices devices;
      mret devices
  end.

(** [except IndexError: handler] *)
Definition on_IndexError {A} (handler : Eff Globals A) (e : exn) : option (Eff Globals A) :=
  if is_IndexError e then Some handler else None.

(** [except requests.RequestException: handler] *)
Definition on_RequestException {A} (handler : Eff Globals A) (e : exn)
  : option (Eff Globals A) :=
  if is_RequestException e then Some handler else None.

(** [return l[0]] *)
Definition return_first (l : list Device) : Eff Globals (option Device) :=
  d ← lift (head0 l);
  mret (Some d).

(** [return upnpclient.Device(location)] *)
Definition return_Device (location : pyval) : Eff Globals (option Device) :=
  d ← lift (upnpclient_Device w location);
  mret (Some d).

Definition _determine_streamer_device
    (streamer_input : option string) (discovery_timeout : Z)
  : Eff Globals (option Device) :=
  if is_blank streamer_input then
    _ ← logger_info
          "No streamer specified, attempting to auto-discover a Cambridge Audio device";
    devices ← _discover_upnp_devices discovery_timeout;
    try_except
      (return_first
         (List.filter
            (fun device =>
               String.eqb (manufacturer device) "Cambridge Audio"
               && str_in "MediaRenderer" (device_type device))
            devices))
      (on_IndexError
         (raise (VibinError "Could not find a Cambridge Audio MediaRenderer UPnP device")))
  else
    let input := input_str streamer_input in
    match urlparse_hostname w input with
    | Some _ =>
        _ ← logger_info
              ("Attempting to find streamer at provided UPnP location URL: " +:+ input);
        try_except
          (return_Device (PStr input))
          (on_RequestException
             (raise (VibinError
                ("Could not find a UPnP device at the provided streamer URL: "
                 +:+ input))))
    | None =>
        try_except
          (_ ← logger_info
                 ("Attempting to find streamer at provided hostname: " +:+ input);
           response ← lift (requests_get w
                              ("http://" +:+ input +:+ ":80/smoip/system/upnp")
                              (Some 10%Z));
           if (status_code response =? 200)%Z then
             try_except
               (body ← lift (json response);
                data ← lift (getitem body "data");
                listed ← lift (getitem data "devices");
                items ← lift (iter listed);
                matching ← lift (filterM made_by_cambridge items);
                streamer ← lift (head0 matching);
                try_except
                  (description_url ← lift (getitem streamer "description_url");
                   return_Device description_url)
                  (fun e =>
                     if is_KeyError e then
                       Some (raise (VibinError
                         ("Cambridge Audio device found at " +:+ input +:+ ", "
                          +:+ "but it did not have a description_url")))
                     else if is_RequestException e then
                       Some (description_url ← lift (getitem streamer "description_url");
                             raise (VibinError
                               ("Cambridge Audio device found at " +:+ input +:+ ", "
                                +:+ "but its description_url was unsuccessful: "
                                +:+ str (py_repr w) description_url)))
                     else None))
               (fun e =>
                  if is_JSONDecodeError e || is_KeyError e then
                    Some (raise (VibinError
                      ("A host was found at " +:+ input +:+ ", but it does not "
                       +:+ "appear to be a Cambridge Audio device.")))
                  else if is_IndexError e then
                    Some (raise (VibinError
                      ("Cambridge Audio device found at " +:+ input +:+ ", but "
                       +:+ "it did oddly not specify any devices manufactured by "
                       +:+ "Cambridge Audio")))
                  else None)
           else
             (* no [else] in the source: control leaves the [try] and the
                function ends, returning [None] *)
             mret None)
          (fun e =>
             if is_Timeout e then
               Some (raise (VibinError
                 ("Timed out attempting to connect to " +:+ input)))
             else if is_RequestException e then
               Some (
                 _ ← logger_info
                       ("Attempting to find streamer by UPnP friendly name: " +:+ input);
                 devices ← _discover_upnp_devices discovery_timeout;
                 try_except
                   (return_first
                      (List.filter
                         (fun device => String.eqb (friendly_name device) input)
                         devices))
                   (on_IndexError
                      (raise (VibinError
                         ("Could not find a UPnP device with friendly name '"
                          +:+ input +:+ "'")))))
             else None)
    end.

(** [streamer_device.attr] when [streamer_device] may be [None]. *)
Definition attr_of (streamer_device : option Device) (attr : string)
  : Eff Globals Device :=
  match streamer_device with
  | Some d => mret d
  | None =>
      raise (AttributeError
               ("'NoneType' object has no attribute '" +:+ attr +:+ "'"))
  end.

Definition _determine_media_server_device
    (media_server_input : option string) (discovery_timeout : Z)
    (streamer_device : option Device)
  : Eff Globals (option Device) :=
  if is_blank media_server_input then
    sd ← attr_of streamer_device "manufacturer";
    if String.eqb (manufacturer sd) "Cambridge Audio" then
      _ ← logger_info
            ("No media server specified; looking to the Cambridge Audio "
             +:+ "device '" +:+ friendly_name sd +:+ "' for its media server");
      try_except
        (response ← lift (requests_get w
                            ("http://" +:+ fmt_opt (urlparse_hostname w (location sd))
                             +:+ ":80/smoip/system/upnp")
                            None);
         try_except
           (body ← lift (json response);
            data ← lift (getitem body "data");
            listed ← lift (getitem data "devices");
            items ← lift (iter listed);
            matching ← lift (filterM
              (fun cambridge_device =>
                 description_url ← getitem cambridge_device "description_url";
                 d ← upnpclient_Device w description_url;
                 Ok (str_in "MediaServer" (device_type d)))
              items);
            media_server ← lift (head0 matching);
            description_url ← lift (getitem media_server "description_url");
            return_Device description_url)
           (on_IndexError
              (_ ← logger_warning
                     ("Cambridge Audio device '" +:+ friendly_name sd +:+ "' "
                      +:+ "did not specify a media server device");
               mret None)))
        (fun e =>
           let failed (detail : string) : option (Eff Globals (option Device)) :=
             Some (raise (VibinError
               ("Could not determine media server from Cambridge Audio device: "
                +:+ detail))) in
           match e with
           | RequestException msg | Timeout msg => failed msg
           | JSONDecodeError msg => failed msg
           | KeyError key => failed ("'" +:+ key +:+ "'")
           | IndexError msg => failed msg
           | _ => None
           end)
    else
      _ ← logger_info "No media server specified, attempting auto-discovery";
      devices ← _discover_upnp_devices discovery_timeout;
      try_except
        (return_first
           (List.filter
              (fun device => str_in "MediaServer" (device_type device))
              devices))
        (on_IndexError
           (_ ← logger_warning "Could not find a MediaServer UPnP device";
            mret None))
  else
    let input := input_str media_server_input in
    match urlparse_hostname w input with
    | Some _ =>
        _ ← logger_info
              ("Attempting to find media server at provided URL: " +:+ input);
        try_except
          (return_Device (PStr input))
          (on_RequestException
             (raise (VibinError
                ("Could not find a UPnP device at the provided media server URL: "
                 +:+ input))))
    | None =>
        _ ← logger_info
              ("Attempting to find media server by UPnP friendly name: " +:+ input);
        devices ← _discover_upnp_devices discovery_timeout;
        try_except
          (return_first
             (List.filter
                (fun device => String.eqb (friendly_name device) input)
                devices))
          (on_IndexError
             (raise (VibinError
                ("Could not find a UPnP device with friendly name '"
                 +:+ input +:+ "'"))))
    end.

(** [device != streamer_device]; no device is [None]. *)
Definition ne_streamer (streamer_device : option Device) (device : Device) : bool :=
  match streamer_device with
  | Some sd => ne device sd
  | None => true
  end.

Definition _determine_amplifier_device
    (amplifier_input : option string) (discovery_timeout : Z)
    (streamer_device : option Device)
  : Eff Globals (option Device) :=
  if is_blank amplifier_input then
    _ ← logger_info
          "No amplifier specified, attempting to auto-discover a UPnP MediaRenderer";
    devices ← _discover_upnp_devices discovery_timeout;
    try_except
      (let media_renderers :=
         List.filter
           (fun device => str_in "MediaRenderer" (device_type device))
           devices in
       if length media_renderers =? 1 then
         return_first media_renderers
       else
         return_first (List.filter (ne_streamer streamer_device) media_renderers))
      (on_IndexError (mret None))
  else
    let input := input_str amplifier_input in
    match urlparse_hostname w input with
    | Some _ =>
        _ ← logger_info
              ("Attempting to find amplifier at provided URL: " +:+ input);
        try_except
          (return_Device (PStr input))
          (on_RequestException
             (raise (VibinError
                ("Could not find a UPnP device at the provided amplifier URL: "
                 +:+ input))))
    | None =>
        _ ← logger_info
              ("Attempting to find amplifier by UPnP friendly name: " +:+ input);
        devices ← _discover_upnp_devices discovery_timeout;
        try_except
          (return_first
             (List.filter
                (fun device => String.eqb (friendly_name device) input)
                devices))
          (on_IndexError
             (raise (VibinError
                ("Could not find a UPnP device with friendly name '"
                 +:+ input +:+ "'"))))
    end.

(** [None if x is True else x], for an [x] that is not [False]. *)
Definition hint_input (x : hint) : option string :=
  match x with
  | HStr s => Some s
  | _ => None
  end.

(** [x is not False] *)
Definition is_not_False (x : hint) : bool :=
  match x with
  | HBool false => false
  | _ => true
  end.

Definition determine_devices
    (streamer_input : option string) (media_server_input amplifier_input : hint)
    (discovery_timeout : Z)
  : Eff Globals (option Device * option Device * option Device) :=
  streamer_device ← _determine_streamer_device streamer_input discovery_timeout;
  media_server_device ←
    (if is_not_False media_server_input then
       _determine_media_server_device
         (hint_input media_server_input) discovery_timeout streamer_device
     else mret None);
  amplifier_device ←
    (if is_not_False amplifier_input then
       _determine_amplifier_device
         (hint_input amplifier_input) discovery_timeout streamer_device
     else mret None);
  mret (streamer_device, media_server_device, amplifier_device).

End Resolution.

(** ** Adapter classes *)

Inductive Role := Streamer | MediaServer | Amplifier.

(** A class object: its [__name__], its [model_name] attribute, and the
    outcome of [issubclass] against each role's base class. *)
Record PyClass := {
  __name__ : string;
  cls_model_name : string;
  issubclass : Role → bool;
}.

(** A member of a package as [inspect.getmembers] lists it. *)
Inductive member :=
| AClass (c : PyClass)
| NotAClass.

(** The three adapter packages and their override tables, neither of which
    is among the sources: [inspect.getmembers(vibin.streamers)] and
    [vibin.streamers.model_to_streamer], and likewise for the other roles. *)
Record Packages := {
  streamers : list (string * member);
  model_to_streamer : gmap string PyClass;
  mediaservers : list (string * member);
  model_to_media_server : gmap string PyClass;
  amplifiers : list (string * member);
  model_to_amplifier : gmap string PyClass;
}.

(** The loop over [inspect.getmembers(package)]: the list of known
    implementations, in order, and the map from model name to
    implementation, where a later member replaces an earlier one. *)
Definition known (role : Role) (members : list (string * member))
  : list PyClass * gmap string PyClass :=
  foldl
    (fun acc entry =>
       match entry.2 with
       | AClass obj =>
           if issubclass obj role
           then (acc.1 ++ [obj], <[cls_model_name obj := obj]> acc.2)
           else acc
       | NotAClass => acc
       end)
    ([], ∅) members.

(** [by_model[model]] *)
Definition lookup_model (by_model : gmap string PyClass) (model : string)
  : result PyClass :=
  match by_model !! model with
  | Some c => Ok c
  | None => Raise (KeyError model)
  end.

(** [next((c for c in classes if c.__name__ == type_name), None)] *)
Definition next_named (classes : list PyClass) (type_name : string) : option PyClass :=
  List.find (fun c => String.eqb (__name__ c) type_name) classes.

(** [except KeyError: raise VibinError(msg)] *)
Definition on_KeyError (msg : string) (e : exn) : option (result PyClass) :=
  if is_KeyError e then Some (Raise (VibinError msg)) else None.

Section Classes.
Context (pk : Packages).

Definition determine_streamer_class
    (streamer_device : Device) (streamer_type : option string) : result PyClass :=
  let known_streamers := (known Streamer (streamers pk)).1 in
  let known_streamers_by_model :=
    model_to_streamer pk ∪ (known Streamer (streamers pk)).2 in
  try_result
    (match streamer_type with
     | None => lookup_model known_streamers_by_model (model_name streamer_device)
     | Some type_name =>
         match next_named known_streamers type_name with
         | Some streamer_class => Ok streamer_class
         | None =>
             Raise (VibinError
               ("Could not find Vibin implementation for requested "
                +:+ "streamer type: " +:+ type_name))
         end
     end)
    (on_KeyError
       ("Could not find Vibin implementation for streamer model "
        +:+ "'" +:+ model_name streamer_device +:+ "'")).

Definition determine_media_server_class
    (media_server_device : Device) (media_server_type : option string)
  : result PyClass :=
  let known_media_servers := (known MediaServer (mediaservers pk)).1 in
  let known_media_servers_by_model :=
    model_to_media_server pk ∪ (known MediaServer (mediaservers pk)).2 in
  try_result
    (match media_server_type with
     | None =>
         lookup_model known_media_servers_by_model (model_name media_server_device)
     | Some type_name =>
         match next_named known_media_servers type_name with
         | Some media_server_class => Ok media_server_class
         | None =>
             Raise (VibinError
               ("Could not find Vibin implementation for requested "
                +:+ "media server type: " +:+ type_name))
         end
     end)
    (on_KeyError
       ("Could not find Vibin implementation for media server model "
        +:+ "'" +:+ model_name media_server_device +:+ "'")).

Definition determine_amplifier_class
    (amplifier_device : Device) (amplifier_type : option string) : result PyClass :=
  let known_amplifiers := (known Amplifier (amplifiers pk)).1 in
  let known_amplifiers_by_model :=
    model_to_amplifier pk ∪ (known Amplifier (amplifiers pk)).2 in
  try_result
    (match amplifier_type with
     | None => lookup_model known_amplifiers_by_model (model_name amplifier_device)
     | Some type_name =>
         match next_named known_amplifiers type_name with
         | Some amplifier_class => Ok amplifier_class
         | None =>
             Raise (VibinError
               ("Could not find Vibin implementation for requested "
                +:+ "amplifier type: " +:+ type_name))
         end
     end)
    (on_KeyError
       ("Could not find Vibin implementation for amplifier model "
        +:+ "'" +:+ model_name amplifier_device +:+ "'")).

End Classes.

End device_resolution.

(* ===================================================================== *)
(** * vibin/base.py: construction, playback, events and state of [Vibin]  *)
(* ===================================================================== *)

Module orchestrator.
Import Py upnpclient.

(** The double quote, for the messages that quote a name. *)
Definition dq : string := String (Ascii.ascii_of_nat 34) EmptyString.

(** An adapter object: the class it was built from and the device it was
    built for. *)
Record Instance := {
  instance_class : device_resolution.PyClass;
  instance_device : Device;
}.

(** A [lyricsgenius.Genius] client. *)
Inductive Genius := GeniusClient.

(** What [Vibin] calls on its streamer, on its media source and on the
    libraries, over the state [O] of everything outside [Vibin] itself.
    The classes behind them ([vibin.streamers], [vibin.mediasources]) are
    not among the sources. *)
Class Collaborators (O : Type) := {
  (** [streamer_class(device=..., subscribe_callback_base=..., updates_handler=...)] *)
  new_streamer : device_resolution.PyClass → Device → option string → Eff O unit;
  (** [media_source_class(device=...)] *)
  new_media_source : device_resolution.PyClass → Device → Eff O unit;
  (** [lyricsgenius.Genius()] *)
  new_Genius : Eff O unit;
  (** [streamer.name] *)
  streamer_name : Eff O string;
  (** [streamer.state_vars] *)
  streamer_state_vars : Eff O pyval;
  (** [streamer.vibin_vars] *)
  streamer_vibin_vars : Eff O pyval;
  (** [streamer.play_metadata] with the given arguments *)
  streamer_play_metadata : list pyval → Eff O unit;
  (** [streamer.register_media_source(media_source)] *)
  streamer_register_media_source : option Instance → Eff O unit;
  (** [media.name] *)
  media_name : Eff O string;
  (** [media.get_metadata(id)] *)
  media_get_metadata : string → Eff O pyval;
}.

(** The two adapter packages as [inspect.getmembers] lists them, and
    [issubclass(obj, MediaSource)]. *)
Record Repo := {
  streamers_package : list (string * device_resolution.member);
  mediasources_package : list (string * device_resolution.member);
  issubclass_MediaSource : device_resolution.PyClass → bool;
}.

(** The attributes of a [Vibin] object.  An attribute that has not been
    assigned yet holds the value [__init__] first gives it. *)
Record Vibin (O : Type) := {
  _current_streamer : option Instance;
  _current_media_source : option Instance;
  _on_state_vars_update_handlers : list (string → Eff O unit);
  _on_websocket_update_handlers : list (string → string → Eff O unit);
  _last_played_id : option string;
  _genius : option Genius;
  _lyrics_cache : gmap string pyval;
}.
Arguments _current_streamer {O} _.
Arguments _current_media_source {O} _.
Arguments _on_state_vars_update_handlers {O} _.
Arguments _on_websocket_update_handlers {O} _.
Arguments _last_played_id {O} _.
Arguments _genius {O} _.
Arguments _lyrics_cache {O} _.

(** The object, the world outside it, and the records logged at level
    INFO, oldest first. *)
Record Sys (O : Type) := {
  this : Vibin O;
  outside : O;
  logger : list string;
}.
Arguments this {O} _.
Arguments outside {O} _.
Arguments logger {O} _.

Section Object.
Context {O : Type}.

Definition blank : Vibin O :=
  {| _current_streamer := None;
     _current_media_source := None;
     _on_state_vars_update_handlers := [];
     _on_websocket_update_handlers := [];
     _last_played_id := None;
     _genius := None;
     _lyrics_cache := ∅ |}.

Definition with_this (f : Vibin O → Vibin O) : Eff (Sys O) unit :=
  fun s => ({| this := f (this s); outside := outside s; logger := logger s |}, Ok ()).

Definition logger_info (msg : string) : Eff (Sys O) unit :=
  fun s => ({| this := this s; outside := outside s; logger := logger s ++ [msg] |},
            Ok ()).

(** A call on something outside the object. *)
Definition call {A} (m : Eff O A) : Eff (Sys O) A :=
  fun s =>
    ({| this := this s; outside := (m (outside s)).1; logger := logger s |},
     (m (outside s)).2).

Definition set_current_streamer (x : option Instance) (v : Vibin O) : Vibin O :=
  {| _current_streamer := x;
     _current_media_source := _current_media_source v;
     _on_state_vars_update_handlers := _on_state_vars_update_handlers v;
     _on_websocket_update_handlers := _on_websocket_update_handlers v;
     _last_played_id := _last_played_id v;
     _genius := _genius v;
     _lyrics_cache := _lyrics_cache v |}.

Definition set_current_media_source (x : option Instance) (v : Vibin O) : Vibin O :=
  {| _current_streamer := _current_streamer v;
     _current_media_source := x;
     _on_state_vars_update_handlers := _on_state_vars_update_handlers v;
     _on_websocket_update_handlers := _on_websocket_update_handlers v;
     _last_played_id := _last_played_id v;
     _genius := _genius v;
     _lyrics_cache := _lyrics_cache v |}.

Definition set_on_state_vars_update_handlers
    (x : list (string → Eff O unit)) (v : Vibin O) : Vibin O :=
  {| _current_streamer := _current_streamer v;
     _current_media_source := _current_media_source v;
     _on_state_vars_update_handlers := x;
     _on_websocket_update_handlers := _on_websocket_update_handlers v;
     _last_played_id := _last_played_id v;
     _genius := _genius v;
     _lyrics_cache := _lyrics_cache v |}.

Definition set_on_websocket_update_handlers
    (x : list (string → string → Eff O unit)) (v : Vibin O) : Vibin O :=
  {| _current_streamer := _current_streamer v;
     _current_media_source := _current_media_source v;
     _on_state_vars_update_handlers := _on_state_vars_update_handlers v;
     _on_websocket_update_handlers := x;
     _last_played_id := _last_played_id v;
     _genius := _genius v;
     _lyrics_cache := _lyrics_cache v |}.

Definition set_last_played_id (x : option string) (v : Vibin O) : Vibin O :=
  {| _current_streamer := _current_streamer v;
     _current_media_source := _current_media_source v;
     _on_state_vars_update_handlers := _on_state_vars_update_handlers v;
     _on_websocket_update_handlers := _on_websocket_update_handlers v;
     _last_played_id := x;
     _genius := _genius v;
     _lyrics_cache := _lyrics_cache v |}.

Definition set_genius (x : option Genius) (v : Vibin O) : Vibin O :=
  {| _current_streamer := _current_streamer v;
     _current_media_source := _current_media_source v;
     _on_state_vars_update_handlers := _on_state_vars_update_handlers v;
     _on_websocket_update_handlers := _on_websocket_update_handlers v;
     _last_played_id := _last_played_id v;
     _genius := x;
     _lyrics_cache := _lyrics_cache v |}.

Definition set_lyrics_cache (x : gmap string pyval) (v : Vibin O) : Vibin O :=
  {| _current_streamer := _current_streamer v;
     _current_media_source := _current_media_source v;
     _on_state_vars_update_handlers := _on_state_vars_update_handlers v;
     _on_websocket_update_handlers := _on_websocket_update_handlers v;
     _last_played_id := _last_played_id v;
     _genius := _genius v;
     _lyrics_cache := x |}.

(** The loop over [inspect.getmembers(package)] that maps each model name
    to the implementation declaring it; a later member replaces an earlier
    one. *)
Definition known_by_model (is_implementation : device_resolution.PyClass → bool)
    (members : list (string * device_resolution.member))
  : gmap string device_resolution.PyClass :=
  foldl
    (fun by_model entry =>
       match entry.2 with
       | device_resolution.AClass obj =>
           if is_implementation obj
           then <[device_resolution.cls_model_name obj := obj]> by_model
           else by_model
       | device_resolution.NotAClass => by_model
       end)
    ∅ members.

(** The device the two [_determine] methods settle on: among the devices
    whose model is known, the first with the given friendly name when a
    name is given, the first of all otherwise. *)
Definition choose (by_model : gmap string device_resolution.PyClass)
    (devices : list Device) (wanted : option string) : option Device :=
  let candidates :=
    List.filter (fun device => bool_decide (is_Some (by_model !! model_name device)))
      devices in
  if negb (device_resolution.is_blank wanted) then
    List.find
      (fun device => String.eqb (friendly_name device) (device_resolution.input_str wanted))
      candidates
  else if 0 <? length candidates then head candidates
  else None.

Section Methods.
Context (w : World) (repo : Repo) `{Collaborators O}.

(** [self.streamer.attr] and [self.media.attr]: the attribute of an adapter
    that may not have been built. *)
Definition on_streamer {A} (attr : string) (m : Eff O A) : Eff (Sys O) A :=
  s ← get;
  match _current_streamer (this s) with
  | Some _ => call m
  | None =>
      raise (AttributeError ("'NoneType' object has no attribute '" +:+ attr +:+ "'"))
  end.

Definition on_media {A} (attr : string) (m : Eff O A) : Eff (Sys O) A :=
  s ← get;
  match _current_media_source (this s) with
  | Some _ => call m
  | None =>
      raise (AttributeError ("'NoneType' object has no attribute '" +:+ attr +:+ "'"))
  end.

Definition _determine_streamer
    (devices : list Device) (streamer_name_wanted : option string)
    (subscribe_callback_base : option string) : Eff (Sys O) unit :=
  let known_streamers_by_model :=
    known_by_model
      (fun obj => device_resolution.issubclass obj device_resolution.Streamer)
      (streamers_package repo) in
  match choose known_streamers_by_model devices streamer_name_wanted with
  | None =>
      raise (VibinError
        (if negb (device_resolution.is_blank streamer_name_wanted)
         then "Could not find streamer " +:+ dq
              +:+ device_resolution.input_str streamer_name_wanted +:+ dq
         else "Could not find any known streamer devices"))
  | Some streamer_device =>
      streamer_class ← lift (device_resolution.lookup_model
                               known_streamers_by_model (model_name streamer_device));
      _ ← call (new_streamer streamer_class streamer_device subscribe_callback_base);
      _ ← with_this (set_current_streamer
             (Some {| instance_class := streamer_class;
                      instance_device := streamer_device |}));
      name ← on_streamer "name" streamer_name;
      logger_info ("Using streamer: " +:+ dq +:+ name +:+ dq)
  end.

Definition _determine_media_source
    (devices : list Device) (media_name_wanted : option string) : Eff (Sys O) unit :=
  let known_media_by_model :=
    known_by_model (issubclass_MediaSource repo) (mediasources_package repo) in
  let media_device := choose known_media_by_model devices media_name_wanted in
  if bool_decide (media_device = None)
     && negb (device_resolution.is_blank media_name_wanted) then
    raise (VibinError
      ("Could not find media source "
       +:+ device_resolution.input_str media_name_wanted))
  else
    match media_device with
    | None =>
        raise (AttributeError "'NoneType' object has no attribute 'model_name'")
    | Some media_device =>
        media_source_class ← lift (device_resolution.lookup_model
                                     known_media_by_model (model_name media_device));
        _ ← call (new_media_source media_source_class media_device);
        _ ← with_this (set_current_media_source
               (Some {| instance_class := media_source_class;
                        instance_device := media_device |}));
        name ← on_media "name" media_name;
        logger_info ("Using media source: " +:+ dq +:+ name +:+ dq)
    end.

(** [on_streamer_websocket_update], the last parameter of the source, is
    not used by the body. *)
Definition __init__
    (streamer media : option string) (discovery_timeout : Z)
    (subscribe_callback_base : option string) : Eff (Sys O) unit :=
  _ ← logger_info "Initializing Vibin";
  _ ← with_this (set_current_streamer None);
  _ ← with_this (set_current_media_source None);
  _ ← with_this (set_on_state_vars_update_handlers []);
  _ ← with_this (set_on_websocket_update_handlers []);
  _ ← logger_info "Discovering devices...";
  let devices := upnpclient_discover w discovery_timeout in
  _ ← device_resolution.for_each devices (fun device =>
         logger_info ("Found: " +:+ model_name device +:+ " (" +:+ dq
                      +:+ friendly_name device +:+ dq +:+ ")"));
  _ ← _determine_streamer devices streamer subscribe_callback_base;
  _ ← _determine_media_source devices media;
  s ← get;
  _ ← on_streamer "register_media_source"
        (streamer_register_media_source (_current_media_source (this s)));
  _ ← with_this (set_last_played_id None);
  _ ← try_except
        (_ ← call new_Genius; with_this (set_genius (Some GeniusClient)))
        (fun e =>
           match e with
           | TypeError _ => Some (with_this (set_genius None))
           | _ => None
           end);
  with_this (set_lyrics_cache ∅).

(** [play_id]; [play_album] and [play_track] call it with the id of the
    album or track. *)
Definition play_id (id : string) : Eff (Sys O) unit :=
  s ← get;
  match _current_streamer (this s) with
  | None =>
      raise (AttributeError "'NoneType' object has no attribute 'play_metadata'")
  | Some _ =>
      metadata ← on_media "get_metadata" (media_get_metadata id);
      _ ← call (streamer_play_metadata [metadata]);
      with_this (set_last_played_id (Some id))
  end.

Definition modify_playlist (id action : string) (insert_index : option Z)
  : Eff (Sys O) unit :=
  s ← get;
  match _current_streamer (this s) with
  | None =>
      raise (AttributeError "'NoneType' object has no attribute 'play_metadata'")
  | Some _ =>
      metadata ← on_media "get_metadata" (media_get_metadata id);
      call (streamer_play_metadata
              [metadata; PStr action;
               match insert_index with Some i => PInt i | None => PNone end])
  end.

(** The [state_vars] property. *)
Definition state_vars : Eff (Sys O) pyval :=
  name1 ← on_streamer "name" streamer_name;
  media ← on_media "name" media_name;
  name2 ← on_streamer "name" streamer_name;
  vars ← on_streamer "state_vars" streamer_state_vars;
  s ← get;
  let last_played_id :=
    match _last_played_id (this s) with Some id => PStr id | None => PNone end in
  name3 ← on_streamer "name" streamer_name;
  vibin_vars ← on_streamer "vibin_vars" streamer_vibin_vars;
  mret (PDict
    (<["vibin" := PDict (<[name3 := vibin_vars]>
                           (<["last_played_id" := last_played_id]> ∅))]>
       (<[name2 := vars]>
          (<["media_source_name" := PStr media]>
             (<["streamer_name" := PStr name1]> ∅))))).

Definition on_websocket_update (handler : string → string → Eff O unit)
  : Eff (Sys O) unit :=
  s ← get;
  with_this (set_on_websocket_update_handlers
               (_on_websocket_update_handlers (this s) ++ [handler])).

Definition _websocket_message_handler (message_type data : string) : Eff (Sys O) unit :=
  s ← get;
  device_resolution.for_each (_on_websocket_update_handlers (this s))
    (fun handler => call (handler message_type data)).

End Methods.
End Object.

End orchestrator.

(* ===================================================================== *)
(** * Notions used to state the properties                                *)
(* ===================================================================== *)

Module Props.
Import Py upnpclient requests models.

(** The devices a resolution step sees when it runs discovery from the
    globals [g]: the cached list when there is one, otherwise the list the
    scan returns. *)
Definition discovered (w : World) (timeout : Z) (g : device_resolution.Globals)
  : list Device :=
  match device_resolution._upnp_devices g with
  | Some devices => devices
  | None => upnpclient_discover w timeout
  end.

(** The renderer-type devices of a discovery result, in order. *)
Definition renderers (devices : list Device) : list Device :=
  List.filter (fun device => str_in "MediaRenderer" (device_type device)) devices.

(** The error of the friendly-name step. *)
Definition no_friendly_name (input : string) : exn :=
  VibinError ("Could not find a UPnP device with friendly name '" +:+ input +:+ "'").

(** The friendly-name step as the specification words it: the first
    discovered device whose friendly name is exactly the hint, and a failure
    when there is none. *)
Definition friendly_name_match (devices : list Device) (input : string)
  : result (option Device) :=
  match List.find (fun device => String.eqb (friendly_name device) input) devices with
  | Some d => Ok (Some d)
  | None => Raise (no_friendly_name input)
  end.

(** The URL of the vendor probe for a bare host or name. *)
Definition probe_url (input : string) : string :=
  "http://" +:+ input +:+ ":80/smoip/system/upnp".

(** Two worlds give the same answers to everything resolution asks the
    network; they may differ in what a fresh discovery scan would return
    and in [json.loads]. *)
Definition same_answers (w1 w2 : World) : Prop :=
  (∀ s, urlparse_hostname w1 s = urlparse_hostname w2 s) ∧
  (∀ url timeout, requests_get w1 url timeout = requests_get w2 url timeout) ∧
  (∀ loc, upnpclient_Device w1 loc = upnpclient_Device w2 loc) ∧
  (∀ v, py_repr w1 v = py_repr w2 v).

(** The records of level [WARNING] among those logged. *)
Definition warnings (g : device_resolution.Globals) : list string :=
  (List.filter
     (fun r => match r.1 with device_resolution.WARNING => true | _ => false end)
     (device_resolution.logger g)).*2.

(** The canonical state of a pre-amp streamer that is on, unmuted, at 42%. *)
#[warnings="-inexact-float"]
Definition pre_amp_state (name : string) : AmplifierState :=
  {| name := name;
     actions := ["volume"; "mute"; "volume_up_down"];
     power := Some "on";
     mute := Some "off";
     volume := Some 0.42%float;
     sources := None |}.

(** The canonical state of a streamer that is off and drives an amplifier
    over the control bus. *)
Definition cbus_state (name : string) : AmplifierState :=
  {| name := name;
     actions := ["volume_up_down"];
     power := Some "off";
     mute := None;
     volume := None;
     sources := None |}.

(** The uniform error for a transport fault with a code and a text. *)
Definition wrapped (w : World) (what : string) (code err : pyval) : exn :=
  VibinError (what +:+ ": [" +:+ str (py_repr w) code +:+ "] " +:+ str (py_repr w) err).

(** The error of a probe answered by something other than a Cambridge
    Audio device. *)
Definition not_cambridge (input : string) : exn :=
  VibinError ("A host was found at " +:+ input +:+ ", but it does not "
              +:+ "appear to be a Cambridge Audio device.").

(** The error of a probe that timed out. *)
Definition timed_out (input : string) : exn :=
  VibinError ("Timed out attempting to connect to " +:+ input).

(** The error of a probe whose chosen device has no description URL. *)
Definition no_description_url (input : string) : exn :=
  VibinError ("Cambridge Audio device found at " +:+ input +:+ ", "
              +:+ "but it did not have a description_url").

(** [lacks_field input body e]: the JSON [body] of a probe response misses
    one of the fields resolution reads, and [e] is the error resolution
    raises for it.  The fields are [data], [data.devices], the
    [manufacturer] of a listed device, and the [description_url] of the
    first listed Cambridge Audio device. *)
Inductive lacks_field (input : string) (body : pyval) : exn → Prop :=
| lacks_data key :
    getitem body "data" = Raise (KeyError key) →
    lacks_field input body (not_cambridge input)
| lacks_devices data key :
    getitem body "data" = Ok data →
    getitem data "devices" = Raise (KeyError key) →
    lacks_field input body (not_cambridge input)
| lacks_manufacturer data listed items key :
    getitem body "data" = Ok data →
    getitem data "devices" = Ok listed →
    iter listed = Ok items →
    filterM device_resolution.made_by_cambridge items = Raise (KeyError key) →
    lacks_field input body (not_cambridge input)
| lacks_description_url data listed items streamer others key :
    getitem body "data" = Ok data →
    getitem data "devices" = Ok listed →
    iter listed = Ok items →
    filterM device_resolution.made_by_cambridge items = Ok (streamer :: others) →
    getitem streamer "description_url" = Raise (KeyError key) →
    lacks_field input body (no_description_url input).

(** The error for an explicit adapter type that names no implementation. *)
Definition no_such_type (role_label type_name : string) : exn :=
  VibinError ("Could not find Vibin implementation for requested "
              +:+ role_label +:+ " type: " +:+ type_name).

(** No member of the package is an implementation of [role] whose class
    name is [type_name]. *)
Definition unregistered (role : device_resolution.Role)
    (members : list (string * device_resolution.member)) (type_name : string) : Prop :=
  ∀ name obj,
    (name, device_resolution.AClass obj) ∈ members →
    device_resolution.issubclass obj role = true →
    device_resolution.__name__ obj ≠ type_name.

(** Two globals hold the same cached discovery result. *)
Definition same_cache (g1 g2 : device_resolution.Globals) : Prop :=
  device_resolution._upnp_devices g1 = device_resolution._upnp_devices g2
  ∧ is_Some (device_resolution._upnp_devices g1).

(** Two bodies that cannot be told apart by what they return or raise, nor
    by the cache they leave, when started from globals with the same
    cache; the logs may differ. *)
Definition alike {A} (m1 m2 : Eff device_resolution.Globals A) : Prop :=
  ∀ g1 g2, same_cache g1 g2 →
    same_cache (m1 g1).1 (m2 g2).1 ∧ (m1 g1).2 = (m2 g2).2.

Definition alike_opt {A} (o1 o2 : option (Eff device_resolution.Globals A)) : Prop :=
  match o1, o2 with
  | Some k1, Some k2 => alike k1 k2
  | None, None => True
  | _, _ => False
  end.

Definition alike_handlers {A}
    (h1 h2 : exn → option (Eff device_resolution.Globals A)) : Prop :=
  ∀ e, alike_opt (h1 e) (h2 e).

(** Two descriptors are of the same device when they carry the same unique
    device name. *)
Definition same_device (a b : Device) : bool := String.eqb (udn a) (udn b).

(** Amplifier resolution without a hint as the specification words it, over
    the renderers found: the only renderer when there is exactly one,
    otherwise the first renderer that is not the streamer's device, and no
    amplifier when there is none. *)
Definition amplifier_per_spec (streamer : Device) (found : list Device)
  : option Device :=
  match found with
  | [d] => Some d
  | _ => List.find (fun d => negb (same_device d streamer)) found
  end.

End Props.

(* ===================================================================== *)
(** * Concrete scenarios                                                  *)
(* ===================================================================== *)

Module Scenario.
Import Py upnpclient requests models.

Definition device (i : nat) (maker type name model : string) : Device :=
  {| ident := i;
     manufacturer := maker;
     device_type := type;
     friendly_name := name;
     model_name := model;
     location := "http://192.168.1." +:+ pretty i +:+ ":49152/description.xml";
     udn := "uuid:" +:+ pretty i |}.

Definition cxn : Device :=
  device 10 "Cambridge Audio" "urn:schemas-upnp-org:device:MediaRenderer:1"
         "Living Room" "CXNv2".

Definition nas : Device :=
  device 20 "Synology" "urn:schemas-upnp-org:device:MediaServer:1"
         "Attic" "DS920".

Definition hegel : Device :=
  device 30 "Hegel" "urn:schemas-upnp-org:device:MediaRenderer:1"
         "Hegel H120" "H120".

(** The host part of an [http://host...] URL, for the URLs of the
    scenarios; anything else has no hostname. *)
Fixpoint until_separator (s : string) : string :=
  match s with
  | EmptyString => EmptyString
  | String c rest =>
      (* a colon or a slash ends the host *)
      if Ascii.eqb c (Ascii.ascii_of_nat 58) || Ascii.eqb c (Ascii.ascii_of_nat 47)
      then EmptyString
      else String c (until_separator rest)
  end.

Definition hostname_of (s : string) : option string :=
  if String.prefix "http://" s
  then Some (until_separator (String.substring 7 (String.length s - 7) s))
  else None.

(** A state message [{path, type, params: {data}}], as parsed. *)
Definition state_message (path type : string) (data : gmap string pyval) : pyval :=
  PDict {[ "path" := PStr path;
           "type" := PStr type;
           "params" := PDict {[ "data" := PDict data ]} ]}.

Definition pre_amp_data : gmap string pyval :=
  {[ "pre_amp_mode" := PBool true;
     "power" := PBool true;
     "mute" := PBool false;
     "volume_percent" := PInt 42 ]}.

Definition cbus_data : gmap string pyval :=
  {[ "pre_amp_mode" := PBool false;
     "cbus" := PStr "amplifier";
     "power" := PBool false ]}.

(** The text of a state message on the wire. *)
Definition quoted (s : string) : string :=
  String (Ascii.ascii_of_nat 34) s +:+ String (Ascii.ascii_of_nat 34) EmptyString.

Definition state_text (path type data : string) : string :=
  "{" +:+ quoted "path" +:+ ": " +:+ quoted path +:+ ", "
  +:+ quoted "type" +:+ ": " +:+ quoted type +:+ ", "
  +:+ quoted "params" +:+ ": {" +:+ quoted "data" +:+ ": {" +:+ data +:+ "}}}".

Definition pre_amp_text : string :=
  quoted "pre_amp_mode" +:+ ": true, " +:+ quoted "power" +:+ ": true, "
  +:+ quoted "mute" +:+ ": false, " +:+ quoted "volume_percent" +:+ ": 42".

Definition cbus_text : string :=
  quoted "pre_amp_mode" +:+ ": false, " +:+ quoted "cbus" +:+ ": "
  +:+ quoted "amplifier" +:+ ", " +:+ quoted "power" +:+ ": false".

(** [json.loads] on the messages of the scenarios; any other text is
    taken not to be JSON. *)
Definition loads (message : string) : result pyval :=
  let known :=
    [(state_text "/zone/state" "update" pre_amp_text,
      state_message "/zone/state" "update" pre_amp_data);
     (state_text "/zone/state" "update" cbus_text,
      state_message "/zone/state" "update" cbus_data);
     (state_text "/zone/other" "update" pre_amp_text,
      state_message "/zone/other" "update" pre_amp_data);
     (state_text "/zone/state" "notify" pre_amp_text,
      state_message "/zone/state" "notify" pre_amp_data)] in
  match List.find (fun entry => String.eqb entry.1 message) known with
  | Some entry => Ok entry.2
  | None => Raise (JSONDecodeError "Expecting value")
  end.

(** A network where nothing answers: every request fails to connect, every
    description fetch fails, a scan finds nothing. *)
Definition silent : World :=
  {| urlparse_hostname := hostname_of;
     json_loads := loads;
     requests_get := fun _ _ => Raise (RequestException "connection refused");
     upnpclient_Device := fun _ => Raise (RequestException "connection refused");
     upnpclient_discover := fun _ => [];
     py_repr := fun _ => "" |}.

(** [silent], except that every request gets the answer [answer]. *)
Definition answering (answer : result Response) : World :=
  {| urlparse_hostname := urlparse_hostname silent;
     json_loads := json_loads silent;
     requests_get := fun _ _ => answer;
     upnpclient_Device := upnpclient_Device silent;
     upnpclient_discover := upnpclient_discover silent;
     py_repr := py_repr silent |}.

(** A freshly constructed adapter for [cxn] whose callback returns. *)
Definition fresh : streammagic.Sys :=
  {| streammagic.self := streammagic.__init__ silent cxn (Some (fun _ _ => Ok ()));
     streammagic.trace := [] |}.

(** A streamer without state whose every method raises [e]. *)
Definition failing (e : exn) : base.Streamer unit :=
  {| base.streamer_pause := raise e;
     base.streamer_play := raise e;
     base.streamer_next_track := raise e;
     base.streamer_previous_track := raise e;
     base.streamer_repeat := fun _ => raise e;
     base.streamer_shuffle := fun _ => raise e;
     base.streamer_seek := fun _ => raise e |}.

(** [silent], except that a scan would find [hegel] and no websocket
    message parses: the same answers to everything resolution asks. *)
Definition rescanning : World :=
  {| urlparse_hostname := urlparse_hostname silent;
     json_loads := fun _ => Raise (JSONDecodeError "Expecting value");
     requests_get := requests_get silent;
     upnpclient_Device := upnpclient_Device silent;
     upnpclient_discover := fun _ => [hegel];
     py_repr := py_repr silent |}.

(** An adapter class for one role. *)
Definition adapter (role : device_resolution.Role) (name model : string)
  : device_resolution.PyClass :=
  {| device_resolution.__name__ := name;
     device_resolution.cls_model_name := model;
     device_resolution.issubclass := fun r =>
       match role, r with
       | device_resolution.Streamer, device_resolution.Streamer
       | device_resolution.MediaServer, device_resolution.MediaServer
       | device_resolution.Amplifier, device_resolution.Amplifier => true
       | _, _ => false
       end |}.

(** Packages with one implementation per role next to the role's base
    class, and an override that maps the model "CXNv2" to the streamer. *)
Definition packages : device_resolution.Packages :=
  {| device_resolution.streamers :=
       [("CXNv2", device_resolution.AClass
                    (adapter device_resolution.Streamer "CXNv2" "CXNv2"));
        ("Streamer", device_resolution.AClass
                       (adapter device_resolution.Streamer "Streamer" "VibinStreamer"));
        ("logger", device_resolution.NotAClass)];
     device_resolution.model_to_streamer :=
       {[ "CXNv2" := adapter device_resolution.Streamer "CXNv2" "CXNv2" ]};
     device_resolution.mediaservers :=
       [("Asset", device_resolution.AClass
                    (adapter device_resolution.MediaServer "Asset" "Asset UPnP"));
        ("MediaServer", device_resolution.AClass
                          (adapter device_resolution.MediaServer "MediaServer"
                             "VibinMediaServer"))];
     device_resolution.model_to_media_server := ∅;
     device_resolution.amplifiers :=
       [("Amplifier", device_resolution.AClass
                        (adapter device_resolution.Amplifier "Amplifier"
                           "VibinAmplifier"));
        ("StreamMagic", device_resolution.AClass
                          (adapter device_resolution.Amplifier "StreamMagic"
                             "StreamMagic"))];
     device_resolution.model_to_amplifier := ∅ |}.

(** Globals holding a cached discovery result and an empty log. *)
Definition cached (devices : list Device) : device_resolution.Globals :=
  {| device_resolution._upnp_devices := Some devices;
     device_resolution.logger := [] |}.

End Scenario.

(* ===================================================================== *)
(** * Further notions                                                     *)
(* ===================================================================== *)

Module AdapterProps.
Import Py upnpclient requests models streammagic.

(** [message] parses to an object with a path, a type and
    [params.data = data]. *)
Definition carries (w : World) (message : string) (data : pyval) : Prop :=
  ∃ parsed path type params,
    json_loads w message = Ok parsed
    ∧ getitem parsed "path" = Ok path
    ∧ getitem parsed "type" = Ok type
    ∧ getitem parsed "params" = Ok params
    ∧ getitem params "data" = Ok data.

(** The canonical state is consistent with itself and with the bound
    device: it bears the device's friendly name, holds no audio sources,
    and offers a volume or a mute value exactly when the matching
    capability is in the capability set. *)
Definition coherent (a : StreamMagic) : Prop :=
  name (_device_state a) = friendly_name (_device a)
  ∧ sources (_device_state a) = None
  ∧ ("volume" ∈ actions (_device_state a) ↔ is_Some (volume (_device_state a)))
  ∧ ("mute" ∈ actions (_device_state a) ↔ is_Some (mute (_device_state a))).

(** A command that never touches the adapter and issues at most one
    request. *)
Definition fire_and_forget (command : Eff Sys unit) : Prop :=
  ∀ s,
    self (command s).1 = self s
    ∧ (trace (command s).1 = trace s
       ∨ ∃ url, trace (command s).1 = trace s ++ [HttpGet url]).

(** The URL of a state request of the adapter [a]. *)
Definition state_request (a : StreamMagic) (param value : string) : string :=
  "http://" +:+ fmt_opt (_device_hostname a) +:+ "/smoip/zone/state?"
  +:+ param +:+ "=" +:+ value.

(** The state the translation builds, by capability set. *)
Definition translated (a : StreamMagic) (capabilities : list string)
    (p : pyval) (m : option pyval) (v : option float) : AmplifierState :=
  {| name := friendly_name (_device a);
     actions := capabilities;
     power := Some (if truthy p then "on" else "off");
     mute := (fun x => if truthy x then "on" else "off") <$> m;
     volume := v;
     sources := None |}.

(** Whether the percentage [k], once reported and turned into a fraction,
    is sent back as [k]. *)
Definition percent_survives (k : Z) : bool :=
  match truediv (PInt k) 100 with
  | Ok v =>
      match round (PrimFloat.mul v 100%float) with
      | Ok n => (n =? k)%Z
      | Raise _ => false
      end
  | Raise _ => false
  end.

End AdapterProps.

Module ResolutionProps.
Import Py upnpclient requests device_resolution.

(** [x] is the first element of [l] that satisfies [f]. *)
Definition first_such {A} (f : A → bool) (l : list A) (x : A) : Prop :=
  ∃ before after,
    l = before ++ x :: after
    ∧ Forall (fun y => f y = false) before
    ∧ f x = true.

(** A Cambridge Audio renderer. *)
Definition cambridge_renderer (device : Device) : bool :=
  String.eqb (manufacturer device) "Cambridge Audio"
  && str_in "MediaRenderer" (device_type device).

(** A device of media-server type. *)
Definition media_server (device : Device) : bool :=
  str_in "MediaServer" (device_type device).

(** What a resolver returns for a hint that is a URL: the description
    fetched from it, a [VibinError] naming the URL when the fetch fails
    with a request exception, and any other exception as it is. *)
Definition location_outcome (w : World) (complaint input : string)
  : result (option Device) :=
  match upnpclient_Device w (PStr input) with
  | Ok d => Ok (Some d)
  | Raise e =>
      if is_RequestException e then Raise (VibinError (complaint +:+ input))
      else Raise e
  end.

(** The description of a device listed by a Cambridge Audio streamer can be
    fetched and is [d]. *)
Definition described (w : World) (item : pyval) (d : Device) : Prop :=
  ∃ url, getitem item "description_url" = Ok url ∧ upnpclient_Device w url = Ok d.

(** The condition of the comprehension over the devices a streamer lists:
    the description of the device is fetched, and its type looked at. *)
Definition lists_server (w : World) (cambridge_device : pyval) : result bool :=
  description_url ← getitem cambridge_device "description_url";
  d ← upnpclient_Device w description_url;
  Ok (str_in "MediaServer" (device_type d)).

(** The URL a Cambridge Audio streamer is asked at for the devices it
    knows. *)
Definition listing_url (w : World) (streamer : Device) : string :=
  "http://" +:+ fmt_opt (urlparse_hostname w (location streamer))
  +:+ ":80/smoip/system/upnp".

(** The error of media-server resolution through the streamer. *)
Definition no_media_server_from (detail : string) : exn :=
  VibinError ("Could not determine media server from Cambridge Audio device: "
              +:+ detail).

(** The error for a model without an implementation. *)
Definition no_such_model (role_label model : string) : exn :=
  VibinError ("Could not find Vibin implementation for " +:+ role_label
              +:+ " model " +:+ "'" +:+ model +:+ "'").

(** Resolution by model as a lookup: the override for the model when there
    is one, otherwise the last known implementation that declares the
    model, otherwise an error naming the model. *)
Definition by_model (overrides : gmap string PyClass) (classes : list PyClass)
    (role_label model : string) : result PyClass :=
  match overrides !! model with
  | Some c => Ok c
  | None =>
      match last (List.filter (fun c => String.eqb (cls_model_name c) model) classes) with
      | Some c => Ok c
      | None => Raise (no_such_model role_label model)
      end
  end.

(** A body that keeps a populated discovery cache as it is and only ever
    adds to the log. *)
Definition steady {A} (m : Eff Globals A) : Prop :=
  ∀ g,
    (is_Some (_upnp_devices g) → _upnp_devices (m g).1 = _upnp_devices g)
    ∧ logger g `prefix_of` logger (m g).1.

Definition steady_opt {A} (o : option (Eff Globals A)) : Prop :=
  match o with
  | Some k => steady k
  | None => True
  end.

End ResolutionProps.

Module OrchestratorProps.
Import Py upnpclient orchestrator.

(** A device the orchestrator can use for a role: its model is one an
    implementation declares and, when a name is asked for, its friendly
    name is that name. *)
Definition usable (by_model : gmap string device_resolution.PyClass)
    (wanted : option string) (device : Device) : bool :=
  bool_decide (is_Some (by_model !! model_name device))
  && (if device_resolution.is_blank wanted then true
      else String.eqb (friendly_name device) (device_resolution.input_str wanted)).

(** The models of the streamer implementations and of the media source
    implementations. *)
Definition streamer_models (repo : Repo) : gmap string device_resolution.PyClass :=
  known_by_model
    (fun obj => device_resolution.issubclass obj device_resolution.Streamer)
    (streamers_package repo).

Definition media_models (repo : Repo) : gmap string device_resolution.PyClass :=
  known_by_model (issubclass_MediaSource repo) (mediasources_package repo).

(** The object [v] beside the outside world [o], with [lines] logged since
    [s]. *)
Definition settled {O} (s : Sys O) (v : Vibin O) (o : O) (lines : list string) : Sys O :=
  {| this := v; outside := o; logger := logger s ++ lines |}.

(** Calling the handlers [handlers] in turn on a websocket message. *)
Definition deliver {O} (handlers : list (string → string → Eff O unit))
    (message_type data : string) : Eff (Sys O) unit :=
  device_resolution.for_each handlers (fun handler => call (handler message_type data)).

End OrchestratorProps.

(* ===================================================================== *)
(** * Further scenarios                                                   *)
(* ===================================================================== *)

Module Cases.
Import Py upnpclient requests models.

(** A media server of a model with an implementation. *)
Definition asset : Device :=
  Scenario.device 40 "Illustrate" "urn:schemas-upnp-org:device:MediaServer:1"
                  "Asset UPnP: NAS" "Asset UPnP".

(** The devices on the network, in the order a scan reports them. *)
Definition neighbours : list Device := [Scenario.nas; Scenario.hegel; Scenario.cxn].

(** The object built from the description of [d]: a new one at every
    fetch. *)
Definition fetched (d : Device) : Device :=
  {| ident := ident d + 100;
     manufacturer := manufacturer d;
     device_type := device_type d;
     friendly_name := friendly_name d;
     model_name := model_name d;
     location := location d;
     udn := udn d |}.

(** A state message that reports pre-amp mode and nothing else. *)
Definition bare_data : gmap string pyval := {[ "pre_amp_mode" := PBool true ]}.

Definition bare_text : string := Scenario.quoted "pre_amp_mode" +:+ ": true".

(** A state message of a streamer that is on, outside pre-amp mode and
    with the control bus off. *)
Definition idle_data : gmap string pyval :=
  {[ "pre_amp_mode" := PBool false;
     "cbus" := PStr "off";
     "power" := PBool true ]}.

Definition idle_text : string :=
  Scenario.quoted "pre_amp_mode" +:+ ": false, " +:+ Scenario.quoted "cbus" +:+ ": "
  +:+ Scenario.quoted "off" +:+ ", " +:+ Scenario.quoted "power" +:+ ": true".

(** [json.loads] on these two messages and on those of [Scenario.loads]. *)
Definition loads (message : string) : result pyval :=
  if String.eqb message (Scenario.state_text "/zone/state" "update" bare_text)
  then Ok (Scenario.state_message "/zone/state" "update" bare_data)
  else if String.eqb message (Scenario.state_text "/zone/state" "update" idle_text)
  then Ok (Scenario.state_message "/zone/state" "update" idle_data)
  else Scenario.loads message.

(** An entry of the list of devices a StreamMagic streamer knows. *)
Definition listed (d : Device) : pyval :=
  PDict {[ "manufacturer" := PStr (manufacturer d);
           "description_url" := PStr (location d) ]}.

(** The answer of a StreamMagic streamer at [/smoip/system/upnp]. *)
Definition listing (devices : list Device) : pyval :=
  PDict {[ "data" := PDict {[ "devices" := PList (listed <$> devices) ]} ]}.

(** A home network: a scan finds [neighbours], the description of each of
    them can be fetched, the streamer [Scenario.cxn] lists itself and the
    media server [Scenario.nas], and every other request is answered 404. *)
Definition home : World :=
  {| urlparse_hostname := Scenario.hostname_of;
     json_loads := loads;
     requests_get := fun url _ =>
       if String.eqb url "http://192.168.1.10:80/smoip/system/upnp"
       then Ok {| status_code := 200;
                  json := Ok (listing [Scenario.cxn; Scenario.nas]) |}
       else Ok {| status_code := 404;
                  json := Raise (JSONDecodeError "Expecting value") |};
     upnpclient_Device := fun loc =>
       match loc with
       | PStr url =>
           match List.find (fun d => String.eqb (location d) url) neighbours with
           | Some d => Ok (fetched d)
           | None => Raise (RequestException "connection refused")
           end
       | _ => Raise (RequestException "connection refused")
       end;
     upnpclient_discover := fun _ => neighbours;
     py_repr := fun _ => EmptyString |}.

(** An adapter for [Scenario.cxn] on the home network, freshly built. *)
Definition fresh : streammagic.Sys :=
  {| streammagic.self :=
       streammagic.__init__ home Scenario.cxn (Some (fun _ _ => Ok ()));
     streammagic.trace := [] |}.

(** Globals before any discovery. *)
Definition unscanned : device_resolution.Globals :=
  {| device_resolution._upnp_devices := None;
     device_resolution.logger := [] |}.

(** Collaborators of the orchestrator that keep a journal of the calls
    that change something; reads leave the journal as it is.  There is no
    Genius token. *)
Definition journal (entry : string) : Eff (list string) unit :=
  fun entries => (entries ++ [entry], Ok ()).

Definition rig : orchestrator.Collaborators (list string) :=
  {| orchestrator.new_streamer := fun c d _ =>
       journal ("streamer " +:+ device_resolution.__name__ c +:+ " for "
                +:+ friendly_name d);
     orchestrator.new_media_source := fun c d =>
       journal ("media source " +:+ device_resolution.__name__ c +:+ " for "
                +:+ friendly_name d);
     orchestrator.new_Genius :=
       raise (TypeError "__init__() missing 1 required positional argument");
     orchestrator.streamer_name := mret "Living Room";
     orchestrator.streamer_state_vars := mret (PDict ∅);
     orchestrator.streamer_vibin_vars := mret (PDict ∅);
     orchestrator.streamer_play_metadata := fun _ => journal "play_metadata";
     orchestrator.streamer_register_media_source := fun _ =>
       journal "register_media_source";
     orchestrator.media_name := mret "Asset UPnP: NAS";
     orchestrator.media_get_metadata := fun id => mret (PStr id) |}.

(** The adapter packages of [Scenario.packages], as the orchestrator reads
    them. *)
Definition repo : orchestrator.Repo :=
  {| orchestrator.streamers_package := device_resolution.streamers Scenario.packages;
     orchestrator.mediasources_package :=
       device_resolution.mediaservers Scenario.packages;
     orchestrator.issubclass_MediaSource := fun c =>
       device_resolution.issubclass c device_resolution.MediaServer |}.

(** An orchestrator before construction, and one that runs with a streamer
    and a media source. *)
Definition start : orchestrator.Sys (list string) :=
  {| orchestrator.this := orchestrator.blank;
     orchestrator.outside := [];
     orchestrator.logger := [] |}.

Definition cxn_streamer : orchestrator.Instance :=
  {| orchestrator.instance_class :=
       Scenario.adapter device_resolution.Streamer "CXNv2" "CXNv2";
     orchestrator.instance_device := Scenario.cxn |}.

Definition asset_source : orchestrator.Instance :=
  {| orchestrator.instance_class :=
       Scenario.adapter device_resolution.MediaServer "Asset" "Asset UPnP";
     orchestrator.instance_device := asset |}.

Definition running : orchestrator.Sys (list string) :=
  {| orchestrator.this :=
       orchestrator.set_current_media_source (Some asset_source)
         (orchestrator.set_current_streamer (Some cxn_streamer) orchestrator.blank);
     orchestrator.outside := [];
     orchestrator.logger := [] |}.

(** Websocket handlers: one that notes the message type in the journal,
    one that raises. *)
Definition note (tag : string) : string → string → Eff (list string) unit :=
  fun message_type _ => journal (tag +:+ ": " +:+ message_type).

Definition refuse : string → string → Eff (list string) unit :=
  fun _ _ => raise (ValueError "unexpected message").

Definition listening : orchestrator.Sys (list string) :=
  {| orchestrator.this :=
       orchestrator.set_on_websocket_update_handlers
         [note "first"; refuse; note "third"] orchestrator.blank;
     orchestrator.outside := [];
     orchestrator.logger := [] |}.

(** A second Cambridge Audio device, whose description cannot be fetched. *)
Definition edge : Device :=
  Scenario.device 50 "Cambridge Audio" "urn:schemas-upnp-org:device:MediaRenderer:1"
                  "Study" "Edge NQ".

(** The home network with a streamer that lists the media server first,
    then itself, then [edge]. *)
Definition showroom : World :=
  {| urlparse_hostname := urlparse_hostname home;
     json_loads := json_loads home;
     requests_get := fun url _ =>
       if String.eqb url "http://192.168.1.10:80/smoip/system/upnp"
       then Ok {| status_code := 200;
                  json := Ok (listing [Scenario.nas; Scenario.cxn; edge]) |}
       else Ok {| status_code := 404;
                  json := Raise (JSONDecodeError "Expecting value") |};
     upnpclient_Device := upnpclient_Device home;
     upnpclient_discover := upnpclient_discover home;
     py_repr := py_repr home |}.

(** [rig] with a streamer that refuses to play. *)
Definition stuck : orchestrator.Collaborators (list string) :=
  {| orchestrator.new_streamer := @orchestrator.new_streamer _ rig;
     orchestrator.new_media_source := @orchestrator.new_media_source _ rig;
     orchestrator.new_Genius := @orchestrator.new_Genius _ rig;
     orchestrator.streamer_name := @orchestrator.streamer_name _ rig;
     orchestrator.streamer_state_vars := @orchestrator.streamer_state_vars _ rig;
     orchestrator.streamer_vibin_vars := @orchestrator.streamer_vibin_vars _ rig;
     orchestrator.streamer_play_metadata := fun _ entries =>
       (entries ++ ["play_metadata"],
        Raise (SOAPError [PInt 701; PStr "Transition not available"]));
     orchestrator.streamer_register_media_source :=
       @orchestrator.streamer_register_media_source _ rig;
     orchestrator.media_name := @orchestrator.media_name _ rig;
     orchestrator.media_get_metadata := @orchestrator.media_get_metadata _ rig |}.

End Cases.

(* ===================================================================== *)
(** * Properties                                                          *)
(* ===================================================================== *)

(** Unfolds the plumbing of [Py.Eff] without touching the operations of
    the code under study. *)
Tactic Notation "eff_unfold" :=
  cbv beta iota delta
    [mbind mret Py.eff_bind Py.eff_ret Py.result_bind Py.result_ret
     Py.get Py.lift Py.raise Py.try_except Py.try_result
     device_resolution.logger_info device_resolution.logger_warning
     device_resolution.log].

Tactic Notation "eff_unfold" "in" hyp(H) :=
  cbv beta iota delta
    [mbind mret Py.eff_bind Py.eff_ret Py.result_bind Py.result_ret
     Py.get Py.lift Py.raise Py.try_except Py.try_result
     device_resolution.logger_info device_resolution.logger_warning
     device_resolution.log] in H.

(** Runs a body forward: unfolds the plumbing and replaces every call whose
    outcome is known from a hypothesis by that outcome. *)
Ltac eff_run :=
  repeat (eff_unfold;
          try match goal with
              | H : ?call = Py.Ok _ |- context [?call] => rewrite H
              | H : ?call = Py.Raise _ |- context [?call] => rewrite H
              | H : ?call = Some _ |- context [?call] => rewrite H
              | H : ?call = None |- context [?call] => rewrite H
              | H : ?call = true |- context [?call] => rewrite H
              | H : ?call = false |- context [?call] => rewrite H
              end).

Import Py upnpclient requests models Props.

(** ** The StreamMagic adapter: state synchronisation *)

Import streammagic.

Section StateSync.
Context (w : World).

#[warnings="-inexact-float"]
Lemma truediv_42 : truediv (PInt 42) 100 = Ok 0.42%float.
Proof. vm_compute. reflexivity. Qed.

(** Calling the update callback leaves the adapter itself as it was. *)
Lemma call_on_update_self (s : Sys) : self (call_on_update s).1 = self s.
Proof.
  unfold call_on_update. eff_unfold.
  destruct (_on_update (self s)); reflexivity.
Qed.

(** With a callback registered, the call is recorded once, with the channel
    name and the state current at that moment. *)
Lemma call_on_update_trace (s : Sys) (handler : UpdateMessageHandler) :
  _on_update (self s) = Some handler →
  trace (call_on_update s).1 = trace s ++ [OnUpdate "System" (_device_state (self s))].
Proof.
  intros Hh. unfold call_on_update. eff_unfold. rewrite Hh. reflexivity.
Qed.

(** A message that is not JSON is dropped: nothing changes, nothing is
    called, nothing is raised. *)
Lemma unparsable_message_dropped (message msg : string) (s : Sys) :
  json_loads w message = Raise (JSONDecodeError msg) →
  _handle_state_message w message s = (s, Ok ()).
Proof.
  intros Hl. unfold _handle_state_message. rewrite Hl. reflexivity.
Qed.

End StateSync.

(** C5. An accepted state message (path "/zone/state", type "update") whose
    data reports pre-amp mode with power on, mute off and a volume of 42
    percent leaves the adapter with the capabilities volume, mute and
    volume step, power "on", mute "off" and volume 0.42; one whose data
    reports no pre-amp mode, the control bus set to "amplifier" and power
    off leaves it with the capability volume step only, power "off", and
    neither mute nor volume. *)
Theorem state_message_translation
    (w : World) (message : string) (s : Sys) (parsed params data : pyval) :
  json_loads w message = Ok parsed →
  getitem parsed "path" = Ok (PStr "/zone/state") →
  getitem parsed "type" = Ok (PStr "update") →
  getitem parsed "params" = Ok params →
  getitem params "data" = Ok data →
  let after := _device_state (self (_handle_state_message w message s).1) in
  let name := friendly_name (_device (self s)) in
  (getitem data "pre_amp_mode" = Ok (PBool true) →
   getitem data "power" = Ok (PBool true) →
   getitem data "mute" = Ok (PBool false) →
   getitem data "volume_percent" = Ok (PInt 42) →
   after = pre_amp_state name)
  ∧
  (getitem data "pre_amp_mode" = Ok (PBool false) →
   getitem data "cbus" = Ok (PStr "amplifier") →
   getitem data "power" = Ok (PBool false) →
   after = cbus_state name).
Proof.
  intros Hloads Hpath Htype Hparams Hdata after name. subst after name.
  unfold _handle_state_message. rewrite Hloads.
  split.
  - intros Hpre Hpower Hmute Hvolume. eff_run.
    change (ne_str (PStr "/zone/state") "/zone/state") with false.
    change (ne_str (PStr "update") "update") with false.
    change (truthy (PBool true)) with true.
    eff_run. rewrite truediv_42.
    unfold set_device_state. eff_run. rewrite call_on_update_self. reflexivity.
  - intros Hpre Hcbus Hpower. eff_run.
    change (ne_str (PStr "/zone/state") "/zone/state") with false.
    change (ne_str (PStr "update") "update") with false.
    change (truthy (PBool false)) with false.
    eff_run.
    change (in_strs (PStr "amplifier") ["amplifier"; "receiver"]) with true.
    eff_run. unfold set_device_state. eff_run. rewrite call_on_update_self. reflexivity.
Qed.

Lemma state_message_translation_witness :
  let after text :=
    _device_state
      (self (_handle_state_message Scenario.silent
               (Scenario.state_text "/zone/state" "update" text) Scenario.fresh).1) in
  after Scenario.pre_amp_text = pre_amp_state "Living Room"
  ∧ after Scenario.cbus_text = cbus_state "Living Room".
Proof.
  intros after. subst after. cbv beta.
  split.
  - apply (state_message_translation Scenario.silent
             (Scenario.state_text "/zone/state" "update" Scenario.pre_amp_text)
             Scenario.fresh
             (Scenario.state_message "/zone/state" "update" Scenario.pre_amp_data)
             (PDict {[ "data" := PDict Scenario.pre_amp_data ]})
             (PDict Scenario.pre_amp_data));
      reflexivity.
  - apply (state_message_translation Scenario.silent
             (Scenario.state_text "/zone/state" "update" Scenario.cbus_text)
             Scenario.fresh
             (Scenario.state_message "/zone/state" "update" Scenario.cbus_data)
             (PDict {[ "data" := PDict Scenario.cbus_data ]})
             (PDict Scenario.cbus_data));
      reflexivity.
Defined.

(** C1, where the code departs from it.  The handler tests the two
    discriminators and then does nothing with the outcome: a message whose
    path is not "/zone/state", or whose type is not "update", is translated
    like an accepted one.  Here, for the pre-amp data of C5: the snapshot is
    replaced and the update callback is called with it. *)
Theorem mismatched_message_is_processed
    (w : World) (message : string) (s : Sys)
    (parsed path params data : pyval) (handler : UpdateMessageHandler) :
  json_loads w message = Ok parsed →
  getitem parsed "path" = Ok path →
  (ne_str path "/zone/state" = true
   ∨ ∃ type, getitem parsed "type" = Ok type ∧ ne_str type "update" = true) →
  getitem parsed "params" = Ok params →
  getitem params "data" = Ok data →
  getitem data "pre_amp_mode" = Ok (PBool true) →
  getitem data "power" = Ok (PBool true) →
  getitem data "mute" = Ok (PBool false) →
  getitem data "volume_percent" = Ok (PInt 42) →
  _on_update (self s) = Some handler →
  let after := (_handle_state_message w message s).1 in
  let name := friendly_name (_device (self s)) in
  _device_state (self after) = pre_amp_state name
  ∧ trace after = trace s ++ [OnUpdate "System" (pre_amp_state name)].
Proof.
  intros Hloads Hpath Hmismatch Hparams Hdata Hpre Hpower Hmute Hvolume Hhandler
         after name.
  subst after name.
  unfold _handle_state_message. rewrite Hloads.
  destruct Hmismatch as [Hp | (type & Htype & Ht)];
    [| destruct (ne_str path "/zone/state") eqn:Hp];
    eff_run;
    change (truthy (PBool true)) with true;
    eff_run; rewrite truediv_42; unfold set_device_state; eff_run.
  all: split;
    [ rewrite call_on_update_self; reflexivity
    | erewrite call_on_update_trace
        by (simpl; first [exact Hhandler | reflexivity]);
      reflexivity ].
Qed.

Lemma mismatched_message_is_processed_witness :
  let after path type :=
    (_handle_state_message Scenario.silent
       (Scenario.state_text path type Scenario.pre_amp_text) Scenario.fresh).1 in
  (_device_state (self (after "/zone/other" "update")) = pre_amp_state "Living Room"
   ∧ trace (after "/zone/other" "update")
     = [OnUpdate "System" (pre_amp_state "Living Room")])
  ∧ (_device_state (self (after "/zone/state" "notify")) = pre_amp_state "Living Room"
     ∧ trace (after "/zone/state" "notify")
       = [OnUpdate "System" (pre_amp_state "Living Room")]).
Proof.
  intros after. subst after. cbv beta.
  split.
  - apply (mismatched_message_is_processed Scenario.silent
             (Scenario.state_text "/zone/other" "update" Scenario.pre_amp_text)
             Scenario.fresh
             (Scenario.state_message "/zone/other" "update" Scenario.pre_amp_data)
             (PStr "/zone/other")
             (PDict {[ "data" := PDict Scenario.pre_amp_data ]})
             (PDict Scenario.pre_amp_data)
             (fun _ _ => Ok ()));
      try reflexivity.
    left. reflexivity.
  - apply (mismatched_message_is_processed Scenario.silent
             (Scenario.state_text "/zone/state" "notify" Scenario.pre_amp_text)
             Scenario.fresh
             (Scenario.state_message "/zone/state" "notify" Scenario.pre_amp_data)
             (PStr "/zone/state")
             (PDict {[ "data" := PDict Scenario.pre_amp_data ]})
             (PDict Scenario.pre_amp_data)
             (fun _ _ => Ok ()));
      try reflexivity.
    right. exists (PStr "notify"). split; reflexivity.
Defined.

(** ** The StreamMagic adapter: capability gating *)

(** C6. When the capability that gates a command is absent from the current
    capability set, the command returns without raising and leaves the
    adapter and the trace of its outbound calls exactly as they were: the
    volume setter without "volume", both volume steps without
    "volume_up_down", the mute setter and the mute toggle without "mute". *)
Theorem commands_gated_by_capability (w : World) (s : Sys) :
  ("volume" ∉ actions (_device_state (self s)) →
   ∀ volume, volume_setter w volume s = (s, Ok ()))
  ∧
  ("volume_up_down" ∉ actions (_device_state (self s)) →
   volume_up w s = (s, Ok ()) ∧ volume_down w s = (s, Ok ()))
  ∧
  ("mute" ∉ actions (_device_state (self s)) →
   (∀ state, mute_setter w state s = (s, Ok ())) ∧ mute_toggle w s = (s, Ok ())).
Proof.
  split; [| split].
  - intros Habsent volume. unfold volume_setter. eff_unfold.
    rewrite bool_decide_eq_false_2 by exact Habsent. reflexivity.
  - intros Habsent. split.
    + unfold volume_up. eff_unfold.
      rewrite bool_decide_eq_false_2 by exact Habsent. reflexivity.
    + unfold volume_down. eff_unfold.
      rewrite bool_decide_eq_false_2 by exact Habsent. reflexivity.
  - intros Habsent. split.
    + intros state. unfold mute_setter. eff_unfold.
      rewrite bool_decide_eq_false_2 by exact Habsent. reflexivity.
    + unfold mute_toggle. eff_unfold.
      rewrite bool_decide_eq_false_2 by exact Habsent. reflexivity.
Qed.

Lemma commands_gated_by_capability_witness :
  volume_setter Scenario.silent 0.5%float Scenario.fresh = (Scenario.fresh, Ok ())
  ∧ volume_up Scenario.silent Scenario.fresh = (Scenario.fresh, Ok ())
  ∧ volume_down Scenario.silent Scenario.fresh = (Scenario.fresh, Ok ())
  ∧ mute_setter Scenario.silent "on" Scenario.fresh = (Scenario.fresh, Ok ())
  ∧ mute_toggle Scenario.silent Scenario.fresh = (Scenario.fresh, Ok ()).
Proof.
  destruct (commands_gated_by_capability Scenario.silent Scenario.fresh)
    as (Hvolume & Hstep & Hmute).
  assert (Hnone : ∀ a : string, a ∉ actions (_device_state (self Scenario.fresh))).
  { intros a. simpl. apply not_elem_of_nil. }
  destruct (Hstep (Hnone _)) as [Hup Hdown].
  destruct (Hmute (Hnone _)) as [Hset Htoggle].
  split; [apply Hvolume, Hnone |].
  split; [exact Hup |].
  split; [exact Hdown |].
  split; [apply Hset | exact Htoggle].
Defined.

(** With the capability present the command does reach the device: one
    request, and no change to the canonical state. *)
Lemma volume_setter_sends (w : World) (s : Sys) (volume : float) (n : Z)
    (response : Response) :
  "volume" ∈ actions (_device_state (self s)) →
  round (PrimFloat.mul volume 100%float) = Ok n →
  let url := "http://" +:+ fmt_opt (_device_hostname (self s))
             +:+ "/smoip/zone/state?" +:+ "volume_percent" +:+ "=" +:+ str_int n in
  requests_get w url None = Ok response →
  volume_setter w volume s
  = ({| self := self s; trace := trace s ++ [HttpGet url] |}, Ok ()).
Proof.
  intros Hpresent Hround url Hget. unfold volume_setter. eff_unfold.
  rewrite bool_decide_eq_true_2 by exact Hpresent.
  rewrite Hround. unfold _send_state_request, emit. eff_unfold.
  fold url. rewrite Hget. reflexivity.
Qed.

(** ** The transport verbs of the orchestrator *)

(** A fault of the streamer with a code and a text reaches the caller of
    [pause], [play], [next_track], [previous_track], [repeat] and [shuffle]
    as a [VibinError] naming the operation, the code and the text. *)
Lemma verbs_wrap_SOAPError
    (w : World) {S : Type} `{base.Streamer S} (s s' : S) (code err : pyval)
    (enabled : option bool) :
  let fault : result unit := Raise (SOAPError [code; err]) in
  (base.streamer_pause s = (s', fault) →
   base.pause w s
   = (s', Raise (wrapped w "Unable to perform Pause transition" code err)))
  ∧ (base.streamer_play s = (s', fault) →
     base.play w s
     = (s', Raise (wrapped w "Unable to perform Play transition" code err)))
  ∧ (base.streamer_next_track s = (s', fault) →
     base.next_track w s
     = (s', Raise (wrapped w "Unable to perform Next transition" code err)))
  ∧ (base.streamer_previous_track s = (s', fault) →
     base.previous_track w s
     = (s', Raise (wrapped w "Unable to perform Previous transition" code err)))
  ∧ (base.streamer_repeat enabled s = (s', fault) →
     base.repeat w enabled s
     = (s', Raise (wrapped w "Unable to interact with Repeat setting" code err)))
  ∧ (base.streamer_shuffle enabled s = (s', fault) →
     base.shuffle w enabled s
     = (s', Raise (wrapped w "Unable to interact with Shuffle setting" code err))).
Proof.
  intros fault. subst fault.
  repeat split; intros Hfault;
    unfold base.pause, base.play, base.next_track, base.previous_track,
           base.repeat, base.shuffle;
    eff_unfold; rewrite Hfault; reflexivity.
Qed.

(** C2, where the code departs from it.  [seek] has no [except] clause:
    whatever the streamer raises, a [SOAPError] included, reaches the
    caller as it is, and no [VibinError] takes its place. *)
Theorem seek_lets_SOAPError_through
    {S : Type} `{base.Streamer S} (target : pyval) (s s' : S) (args : list pyval) :
  base.streamer_seek target s = (s', Raise (SOAPError args)) →
  base.seek target s = (s', Raise (SOAPError args))
  ∧ ∀ msg, base.seek target s ≠ (s', Raise (VibinError msg)).
Proof.
  intros Hfault. unfold base.seek. rewrite Hfault. split; [reflexivity |].
  intros msg Heq. discriminate Heq.
Qed.

Lemma seek_lets_SOAPError_through_witness :
  let fault := SOAPError [PInt 711; PStr "Illegal seek target"] in
  @base.seek unit (Scenario.failing fault) (PStr "0:01:30") ()
  = ((), Raise fault).
Proof.
  intros fault.
  apply (@seek_lets_SOAPError_through unit (Scenario.failing fault)
           (PStr "0:01:30") () () [PInt 711; PStr "Illegal seek target"]).
  reflexivity.
Defined.

Import device_resolution.

(** ** Role resolution: discovery *)

Section Discovery.
Context (w : World).

(** Logging at level [INFO] adds no warning and leaves the cache alone. *)
Lemma warnings_info (msg : string) (g : Globals) :
  warnings (logged INFO msg g) = warnings g.
Proof.
  unfold warnings, logged. simpl.
  rewrite List.filter_app. simpl. rewrite app_nil_r. reflexivity.
Qed.

Lemma discovered_logged (timeout : Z) (lv : level) (msg : string) (g : Globals) :
  discovered w timeout (logged lv msg g) = discovered w timeout g.
Proof. reflexivity. Qed.

(** The loop that logs each device found. *)
Lemma for_each_info (f : Device → string) (l : list Device) (g : Globals) :
  ∃ g', for_each l (fun device => logger_info (f device)) g = (g', Ok ())
        ∧ _upnp_devices g' = _upnp_devices g
        ∧ warnings g' = warnings g.
Proof.
  revert g. induction l as [| d l IH]; intros g.
  - exists g. repeat split.
  - destruct (IH (logged INFO (f d) g)) as (g' & Hrun & Hcache & Hwarn).
    exists g'. simpl. eff_unfold in Hrun. eff_unfold. rewrite Hrun.
    repeat split; [exact Hcache |]. rewrite Hwarn. apply warnings_info.
Qed.

(** Discovery returns [discovered], leaves it in the cache and logs no
    warning. *)
Lemma discover_run (timeout : Z) (g : Globals) :
  ∃ g', _discover_upnp_devices w timeout g = (g', Ok (discovered w timeout g))
        ∧ _upnp_devices g' = Some (discovered w timeout g)
        ∧ warnings g' = warnings g.
Proof.
  unfold _discover_upnp_devices, discovered. eff_unfold.
  destruct (_upnp_devices g) as [devices |] eqn:Hcache.
  - exists g. repeat split. exact Hcache.
  - destruct (for_each_info
                (fun device =>
                   "Found: " +:+ model_name device +:+ " ('"
                   +:+ friendly_name device +:+ "') from " +:+ manufacturer device)
                (upnpclient_discover w timeout)
                (logged INFO "Discovering UPnP devices..." g))
      as (g1 & Hrun & Hc & Hw).
    eff_unfold in Hrun. rewrite Hrun. unfold set_upnp_devices. eexists. repeat split.
    transitivity (warnings g1); [reflexivity |].
    rewrite Hw. apply warnings_info.
Qed.

End Discovery.

(** Comprehensions with a condition: none kept, the first kept, and the
    head of what is kept. *)
Lemma filter_none {A} (f : A → bool) (l : list A) :
  (∀ x, x ∈ l → f x = false) → List.filter f l = [].
Proof.
  induction l as [| x l IH]; intros Hnone; [reflexivity |].
  simpl. rewrite (Hnone x) by apply list_elem_of_here.
  apply IH. intros y Hy. apply Hnone. by apply list_elem_of_further.
Qed.

Lemma filter_first {A} (f : A → bool) (before after : list A) (x : A) :
  Forall (fun y => f y = false) before → f x = true →
  List.filter f (before ++ x :: after) = x :: List.filter f after.
Proof.
  intros Hbefore Hx. rewrite List.filter_app.
  rewrite (filter_none f before).
  - simpl. rewrite Hx. reflexivity.
  - intros y Hy. rewrite Forall_forall in Hbefore. by apply Hbefore.
Qed.

Lemma head_filter_find {A} (f : A → bool) (l : list A) :
  head (List.filter f l) = List.find f l.
Proof.
  induction l as [| x l IH]; [reflexivity |].
  simpl. destruct (f x); [reflexivity | exact IH].
Qed.

(** The friendly-name step of the three resolvers, run on its own. *)
Lemma friendly_name_step (w : World) (input : string) (timeout : Z) (g : Globals) :
  ∃ g',
    (devices ← _discover_upnp_devices w timeout;
     try_except
       (return_first
          (List.filter (fun device => String.eqb (friendly_name device) input) devices))
       (on_IndexError (raise (no_friendly_name input)))) g
    = (g', friendly_name_match (discovered w timeout g) input)
    ∧ _upnp_devices g' = Some (discovered w timeout g)
    ∧ warnings g' = warnings g.
Proof.
  destruct (discover_run w timeout g) as (g' & Hrun & Hcache & Hwarn).
  exists g'. eff_unfold. rewrite Hrun. unfold return_first, friendly_name_match. eff_unfold.
  rewrite <- head_filter_find.
  destruct (List.filter _ (discovered w timeout g)); simpl; repeat split; assumption.
Qed.

Lemma not_blank (input : string) : input ≠ "" → is_blank (Some input) = false.
Proof. intros Hne. simpl. by apply String.eqb_neq. Qed.

Lemma friendly_name_match_none (devices : list Device) (input : string) :
  (∀ d, d ∈ devices → friendly_name d ≠ input) →
  friendly_name_match devices input = Raise (no_friendly_name input).
Proof.
  intros Hnone. unfold friendly_name_match. rewrite <- head_filter_find.
  rewrite filter_none; [reflexivity |].
  intros d Hd. apply String.eqb_neq. by apply Hnone.
Qed.


(** ** Role resolution: the amplifier without a hint *)

(** What amplifier resolution without a hint returns. *)
Lemma amplifier_autodiscovery_result
    (w : World) (amplifier_input : option string) (timeout : Z)
    (sd : option Device) (g : Globals) :
  is_blank amplifier_input = true →
  (_determine_amplifier_device w amplifier_input timeout sd g).2
  = match renderers (discovered w timeout g) with
    | [d] => Ok (Some d)
    | found => Ok (head (List.filter (ne_streamer sd) found))
    end.
Proof.
  intros Hblank. unfold _determine_amplifier_device. rewrite Hblank. eff_unfold.
  match goal with |- context [_discover_upnp_devices w timeout ?g0] =>
    destruct (discover_run w timeout g0) as (g1 & Hrun & _ & _) end.
  rewrite Hrun. rewrite discovered_logged. fold (renderers (discovered w timeout g)).
  destruct (renderers (discovered w timeout g)) as [| d [| d' found]];
    [reflexivity | reflexivity |].
  change (length (d :: d' :: found) =? 1) with false. cbv iota.
  destruct (List.filter (ne_streamer sd) (d :: d' :: found)); reflexivity.
Qed.

(** X28. Without a hint, amplifier resolution looks at the renderer-type
    devices of the discovery result.  If there is exactly one it is
    returned, whether or not it is the streamer's device; if there is none,
    the result is "no amplifier" and nothing is raised.  If there are
    several, they are compared with the streamer's descriptor as objects,
    and the first that is another object is returned. *)
Theorem amplifier_autodiscovery
    (w : World) (amplifier_input : option string) (timeout : Z)
    (sd : option Device) (g : Globals) :
  is_blank amplifier_input = true →
  let found := renderers (discovered w timeout g) in
  let result := (_determine_amplifier_device w amplifier_input timeout sd g).2 in
  (∀ d, found = [d] → result = Ok (Some d))
  ∧ (1 < length found →
     ∀ before d after,
       found = before ++ d :: after →
       Forall (fun x => ne_streamer sd x = false) before →
       ne_streamer sd d = true →
       result = Ok (Some d))
  ∧ (found = [] → result = Ok None).
Proof.
  intros Hblank found result. subst result.
  rewrite (amplifier_autodiscovery_result _ _ _ _ _ Hblank). fold found.
  split; [| split].
  - intros d ->. reflexivity.
  - intros Hmany before d after Hsplit Hbefore Hd.
    destruct found as [| x [| y rest]]; simpl in Hmany; [lia | lia |].
    rewrite Hsplit, (filter_first _ _ _ _ Hbefore Hd). reflexivity.
  - intros ->. reflexivity.
Qed.

Lemma amplifier_autodiscovery_witness :
  let run devices :=
    (_determine_amplifier_device Scenario.silent None 5 (Some Scenario.cxn)
       (Scenario.cached devices)).2 in
  run [Scenario.cxn; Scenario.nas] = Ok (Some Scenario.cxn)
  ∧ run [Scenario.cxn; Scenario.nas; Scenario.hegel] = Ok (Some Scenario.hegel)
  ∧ run [Scenario.nas] = Ok None.
Proof.
  intros run. subst run. cbv beta.
  split; [| split].
  - destruct (amplifier_autodiscovery Scenario.silent None 5 (Some Scenario.cxn)
                (Scenario.cached [Scenario.cxn; Scenario.nas]) eq_refl)
      as (Hone & _ & _).
    apply Hone. reflexivity.
  - destruct (amplifier_autodiscovery Scenario.silent None 5 (Some Scenario.cxn)
                (Scenario.cached [Scenario.cxn; Scenario.nas; Scenario.hegel]) eq_refl)
      as (_ & Hmany & _).
    apply (Hmany ltac:(simpl; lia) [Scenario.cxn] Scenario.hegel []).
    + reflexivity.
    + constructor; [reflexivity | constructor].
    + reflexivity.
  - destruct (amplifier_autodiscovery Scenario.silent None 5 (Some Scenario.cxn)
                (Scenario.cached [Scenario.nas]) eq_refl)
      as (_ & _ & Hnone).
    apply Hnone. reflexivity.
Defined.

(** C7, where the code departs from it.  With several renderers the code
    compares each with the streamer's descriptor as an object.  A descriptor
    built from a URL or by the vendor probe is a new object, and none of the
    discovery result is that object: the first renderer is then returned
    whatever device it is.  When it is the streamer's own device, the
    result is the streamer's device, and not the first renderer that is not
    the streamer's device. *)
Theorem amplifier_autodiscovery_returns_the_streamer
    (w : World) (amplifier_input : option string) (timeout : Z)
    (sd d : Device) (rest : list Device) (g : Globals) :
  is_blank amplifier_input = true →
  renderers (discovered w timeout g) = d :: rest →
  rest ≠ [] →
  same_device d sd = true →
  ne d sd = true →
  let result :=
    (_determine_amplifier_device w amplifier_input timeout (Some sd) g).2 in
  result = Ok (Some d)
  ∧ result ≠ Ok (amplifier_per_spec sd (d :: rest)).
Proof.
  intros Hblank Hfound Hrest Hsame Hne result.
  assert (Hresult : result = Ok (Some d)).
  { subst result. rewrite (amplifier_autodiscovery_result _ _ _ _ _ Hblank), Hfound.
    destruct rest as [| d' rest]; [contradiction |].
    cbn [List.filter ne_streamer]. rewrite Hne. reflexivity. }
  split; [exact Hresult |].
  rewrite Hresult. intros [= Hspec].
  destruct rest as [| d' rest]; [contradiction |].
  rewrite Hsame in Hspec. cbn [negb] in Hspec. symmetry in Hspec.
  apply find_some in Hspec as [_ Hother]. rewrite Hsame in Hother. discriminate.
Qed.

(** The streamer is given by the URL of its description, and discovery
    has found it, first, and another renderer: the amplifier is the
    streamer's own device, where the specification names the other
    renderer. *)
Lemma amplifier_autodiscovery_returns_the_streamer_witness :
  let located := Cases.fetched Scenario.cxn in
  let g := Scenario.cached [Scenario.cxn; Scenario.hegel] in
  let result := (_determine_amplifier_device Cases.home None 5 (Some located) g).2 in
  (_determine_streamer_device Cases.home (Some (location Scenario.cxn)) 5 g).2
  = Ok (Some located)
  ∧ amplifier_per_spec located [Scenario.cxn; Scenario.hegel] = Some Scenario.hegel
  ∧ result = Ok (Some Scenario.cxn)
  ∧ result ≠ Ok (amplifier_per_spec located [Scenario.cxn; Scenario.hegel]).
Proof.
  intros located g result.
  split; [reflexivity |]. split; [reflexivity |].
  apply (amplifier_autodiscovery_returns_the_streamer Cases.home None 5 located
           Scenario.cxn [Scenario.hegel] g);
    [reflexivity | reflexivity | discriminate | reflexivity | reflexivity].
Defined.



(** ** Role resolution: a friendly name that matches nothing *)

(** C3 as stated fails: with a friendly-name hint that matches no device,
    media-server and amplifier resolution raise the same error as streamer
    resolution; they do not return "absent", and they log no warning. *)
Lemma optional_roles_fail_on_unmatched_name :
  let g := Scenario.cached [Scenario.cxn; Scenario.nas] in
  let media :=
    _determine_media_server_device Scenario.silent (Some "Kitchen") 5
      (Some Scenario.cxn) g in
  let amplifier :=
    _determine_amplifier_device Scenario.silent (Some "Kitchen") 5
      (Some Scenario.cxn) g in
  media.2 = Raise (no_friendly_name "Kitchen")
  ∧ media.2 ≠ Ok None
  ∧ warnings media.1 = []
  ∧ amplifier.2 = Raise (no_friendly_name "Kitchen")
  ∧ amplifier.2 ≠ Ok None
  ∧ warnings amplifier.1 = [].
Proof.
  vm_compute. repeat split; discriminate.
Qed.

(** C3, amended.  With a hint that is neither empty nor a URL and that is
    the friendly name of no discovered device, all three roles fail alike
    once the friendly-name step is reached: media-server and amplifier
    resolution raise the "no friendly name" error, and so does streamer
    resolution when its vendor probe could not connect.  None of them
    returns "absent", and none logs a warning. *)
Theorem unmatched_friendly_name_fails
    (w : World) (input : string) (timeout : Z) (sd : option Device) (g : Globals) :
  input ≠ "" →
  urlparse_hostname w input = None →
  (∀ d, d ∈ discovered w timeout g → friendly_name d ≠ input) →
  let failure : result (option Device) := Raise (no_friendly_name input) in
  (∀ msg,
     requests_get w (probe_url input) (Some 10%Z) = Raise (RequestException msg) →
     let run := _determine_streamer_device w (Some input) timeout g in
     run.2 = failure ∧ warnings run.1 = warnings g)
  ∧ (let run := _determine_media_server_device w (Some input) timeout sd g in
     run.2 = failure ∧ warnings run.1 = warnings g)
  ∧ (let run := _determine_amplifier_device w (Some input) timeout sd g in
     run.2 = failure ∧ warnings run.1 = warnings g).
Proof.
  intros Hinput Hbare Hnone failure. subst failure.
  pose proof (not_blank input Hinput) as Hblank.
  rewrite <- (friendly_name_match_none _ _ Hnone).
  split; [| split].
  - intros msg Hprobe run. subst run.
    unfold _determine_streamer_device. rewrite Hblank. cbv zeta.
    change (input_str (Some input)) with input. rewrite Hbare.
    fold (probe_url input). eff_unfold. rewrite Hprobe.
    change (is_Timeout (RequestException msg)) with false.
    change (is_RequestException (RequestException msg)) with true.
    eff_unfold.
    match goal with |- context [_discover_upnp_devices w timeout ?g0] =>
      destruct (friendly_name_step w input timeout g0) as (g' & Hrun & _ & Hwarn) end.
    revert Hrun. unfold no_friendly_name. eff_unfold. intros ->.
    split; [reflexivity |]. simpl. rewrite Hwarn, !warnings_info. reflexivity.
  - intros run. subst run.
    unfold _determine_media_server_device. rewrite Hblank. cbv zeta.
    change (input_str (Some input)) with input. rewrite Hbare. eff_unfold.
    match goal with |- context [_discover_upnp_devices w timeout ?g0] =>
      destruct (friendly_name_step w input timeout g0) as (g' & Hrun & _ & Hwarn) end.
    revert Hrun. unfold no_friendly_name. eff_unfold. intros ->.
    split; [reflexivity |]. simpl. rewrite Hwarn, !warnings_info. reflexivity.
  - intros run. subst run.
    unfold _determine_amplifier_device. rewrite Hblank. cbv zeta.
    change (input_str (Some input)) with input. rewrite Hbare. eff_unfold.
    match goal with |- context [_discover_upnp_devices w timeout ?g0] =>
      destruct (friendly_name_step w input timeout g0) as (g' & Hrun & _ & Hwarn) end.
    revert Hrun. unfold no_friendly_name. eff_unfold. intros ->.
    split; [reflexivity |]. simpl. rewrite Hwarn, !warnings_info. reflexivity.
Qed.

Lemma unmatched_friendly_name_fails_witness :
  let g := Scenario.cached [Scenario.cxn; Scenario.nas] in
  let failure : result (option Device) := Raise (no_friendly_name "Kitchen") in
  (_determine_streamer_device Scenario.silent (Some "Kitchen") 5 g).2 = failure
  ∧ (_determine_media_server_device Scenario.silent (Some "Kitchen") 5
       (Some Scenario.cxn) g).2 = failure
  ∧ (_determine_amplifier_device Scenario.silent (Some "Kitchen") 5
       (Some Scenario.cxn) g).2 = failure.
Proof.
  intros g failure.
  assert (Hnone : ∀ d, d ∈ discovered Scenario.silent 5 g → friendly_name d ≠ "Kitchen").
  { intros d Hd. apply list_elem_of_In in Hd. simpl in Hd.
    destruct Hd as [<- | [<- | []]]; discriminate. }
  destruct (unmatched_friendly_name_fails Scenario.silent "Kitchen" 5
              (Some Scenario.cxn) g ltac:(discriminate) eq_refl Hnone)
    as (Hstreamer & Hmedia & Hamplifier).
  split; [| split].
  - apply (Hstreamer "connection refused"). reflexivity.
  - apply Hmedia.
  - apply Hamplifier.
Defined.

(** ** Role resolution: the vendor probe of the streamer *)

(** C4 as stated fails: with a device in the discovery result whose
    friendly name is the hint, the friendly-name step would return it; yet
    after a probe that times out, answers 404, answers 200 without JSON, or
    answers 200 with JSON that lacks [data], streamer resolution returns
    something else. *)
Lemma probe_failures_do_not_fall_through :
  let devices := [Scenario.cxn] in
  let input := "Living Room" in
  let fallback := friendly_name_match devices input in
  let run answer :=
    (_determine_streamer_device (Scenario.answering answer) (Some input) 5
       (Scenario.cached devices)).2 in
  let reply status body := Ok {| status_code := status; json := body |} in
  fallback = Ok (Some Scenario.cxn)
  ∧ run (Raise (Timeout "timed out")) = Raise (timed_out input)
  ∧ run (Raise (Timeout "timed out")) ≠ fallback
  ∧ run (reply 404%Z (Raise (JSONDecodeError "Expecting value"))) = Ok None
  ∧ run (reply 404%Z (Raise (JSONDecodeError "Expecting value"))) ≠ fallback
  ∧ run (reply 200%Z (Raise (JSONDecodeError "Expecting value")))
    = Raise (not_cambridge input)
  ∧ run (reply 200%Z (Raise (JSONDecodeError "Expecting value"))) ≠ fallback
  ∧ run (reply 200%Z (Ok (PDict ∅))) = Raise (not_cambridge input)
  ∧ run (reply 200%Z (Ok (PDict ∅))) ≠ fallback.
Proof.
  vm_compute. repeat split; discriminate.
Qed.

(** C4, amended.  For a streamer hint that is neither empty nor a URL:
    when the vendor probe times out, resolution fails at once with the
    "timed out" error; when it answers 200 with a body that is not JSON, or
    with JSON that lacks an expected field, resolution fails at once with
    the error for that case; in all three the discovery cache is left as it
    was.  When the probe fails to connect (a request exception other than a
    timeout), resolution falls through to the friendly-name step and
    returns what that step returns. *)
Theorem probe_outcomes (w : World) (input : string) (timeout : Z) (g : Globals) :
  input ≠ "" →
  urlparse_hostname w input = None →
  let run := _determine_streamer_device w (Some input) timeout g in
  let probe := requests_get w (probe_url input) (Some 10%Z) in
  (∀ msg,
     probe = Raise (Timeout msg) →
     run.2 = Raise (timed_out input) ∧ _upnp_devices run.1 = _upnp_devices g)
  ∧ (∀ response msg,
       probe = Ok response →
       status_code response = 200%Z →
       json response = Raise (JSONDecodeError msg) →
       run.2 = Raise (not_cambridge input) ∧ _upnp_devices run.1 = _upnp_devices g)
  ∧ (∀ response body e,
       probe = Ok response →
       status_code response = 200%Z →
       json response = Ok body →
       lacks_field input body e →
       run.2 = Raise e ∧ _upnp_devices run.1 = _upnp_devices g)
  ∧ (∀ msg,
       probe = Raise (RequestException msg) →
       run.2 = friendly_name_match (discovered w timeout g) input).
Proof.
  intros Hinput Hbare run probe. subst run probe.
  pose proof (not_blank input Hinput) as Hblank.
  unfold _determine_streamer_device. rewrite Hblank. cbv zeta.
  change (input_str (Some input)) with input. rewrite Hbare.
  fold (probe_url input).
  split; [| split; [| split]].
  - intros msg Hprobe. eff_unfold. rewrite Hprobe. split; reflexivity.
  - intros response msg Hprobe Hstatus Hjson. eff_unfold.
    rewrite Hprobe, Hstatus. eff_unfold. rewrite Hjson. split; reflexivity.
  - intros response body e Hprobe Hstatus Hjson Hlacks. eff_unfold.
    rewrite Hprobe, Hstatus. eff_unfold. rewrite Hjson.
    destruct Hlacks; eff_run; cbn [head0]; eff_run; split; reflexivity.
  - intros msg Hprobe. eff_unfold. rewrite Hprobe.
    change (is_Timeout (RequestException msg)) with false.
    change (is_RequestException (RequestException msg)) with true.
    eff_unfold.
    match goal with |- context [_discover_upnp_devices w timeout ?g0] =>
      destruct (friendly_name_step w input timeout g0) as (g' & Hrun & _ & _) end.
    revert Hrun. unfold no_friendly_name. eff_unfold. intros ->. reflexivity.
Qed.

Lemma probe_outcomes_witness :
  let input := "Living Room" in
  let run answer :=
    (_determine_streamer_device (Scenario.answering answer) (Some input) 5
       (Scenario.cached [Scenario.cxn])).2 in
  let reply status body := Ok {| status_code := status; json := body |} in
  run (Raise (Timeout "timed out")) = Raise (timed_out input)
  ∧ run (reply 200%Z (Raise (JSONDecodeError "Expecting value")))
    = Raise (not_cambridge input)
  ∧ run (reply 200%Z (Ok (PDict ∅))) = Raise (not_cambridge input)
  ∧ run (Raise (RequestException "connection refused")) = Ok (Some Scenario.cxn).
Proof.
  intros input run reply. subst run. cbv beta.
  split; [| split; [| split]].
  - destruct (probe_outcomes (Scenario.answering (Raise (Timeout "timed out")))
                input 5 (Scenario.cached [Scenario.cxn])
                ltac:(discriminate) eq_refl)
      as (Htimeout & _).
    apply (Htimeout "timed out"). reflexivity.
  - destruct (probe_outcomes
                (Scenario.answering
                   (reply 200%Z (Raise (JSONDecodeError "Expecting value"))))
                input 5 (Scenario.cached [Scenario.cxn])
                ltac:(discriminate) eq_refl)
      as (_ & Hjson & _).
    apply (Hjson _ "Expecting value" eq_refl); reflexivity.
  - destruct (probe_outcomes (Scenario.answering (reply 200%Z (Ok (PDict ∅))))
                input 5 (Scenario.cached [Scenario.cxn])
                ltac:(discriminate) eq_refl)
      as (_ & _ & Hfield & _).
    apply (Hfield _ (PDict ∅) _ eq_refl); [reflexivity | reflexivity |].
    apply (lacks_data input (PDict ∅) "data"). reflexivity.
  - destruct (probe_outcomes
                (Scenario.answering (Raise (RequestException "connection refused")))
                input 5 (Scenario.cached [Scenario.cxn])
                ltac:(discriminate) eq_refl)
      as (_ & _ & _ & Hfallback).
    apply (Hfallback "connection refused"). reflexivity.
Defined.

(** ** Role resolution: what the outcome depends on *)

(** [alike] is kept by every way of putting a body together: returning,
    raising, an outcome that does not depend on the globals, logging,
    sequencing, and [try] with alike handlers. *)
Lemma alike_ret {A} (a : A) : alike (mret a) (mret a).
Proof. intros g1 g2 Hg. split; [exact Hg | reflexivity]. Qed.

Lemma alike_raise {A} (e : exn) : alike (@raise Globals A e) (raise e).
Proof. intros g1 g2 Hg. split; [exact Hg | reflexivity]. Qed.

Lemma alike_lift {A} (r1 r2 : result A) : r1 = r2 → alike (lift r1) (lift r2).
Proof. intros -> g1 g2 Hg. split; [exact Hg | reflexivity]. Qed.

Lemma alike_log (lv1 lv2 : level) (m1 m2 : string) : alike (log lv1 m1) (log lv2 m2).
Proof. intros g1 g2 Hg. split; [exact Hg | reflexivity]. Qed.

Lemma alike_bind {A B} (m1 m2 : Eff Globals A) (k1 k2 : A → Eff Globals B) :
  alike m1 m2 → (∀ a, alike (k1 a) (k2 a)) → alike (m1 ≫= k1) (m2 ≫= k2).
Proof.
  intros Hm Hk g1 g2 Hg. destruct (Hm g1 g2 Hg) as [Hg' Hr].
  eff_unfold. destruct (m1 g1) as [g1' r1], (m2 g2) as [g2' r2]. simpl in *. subst r2.
  destruct r1 as [a | e]; [apply Hk; exact Hg' | split; [exact Hg' | reflexivity]].
Qed.

Lemma alike_try {A} (b1 b2 : Eff Globals A) (h1 h2 : exn → option (Eff Globals A)) :
  alike b1 b2 → alike_handlers h1 h2 → alike (try_except b1 h1) (try_except b2 h2).
Proof.
  intros Hb Hh g1 g2 Hg. destruct (Hb g1 g2 Hg) as [Hg' Hr].
  eff_unfold. destruct (b1 g1) as [g1' r1], (b2 g2) as [g2' r2]. simpl in *. subst r2.
  destruct r1 as [a | e]; [split; [exact Hg' | reflexivity] |].
  specialize (Hh e). unfold alike_opt in Hh. destruct (h1 e), (h2 e); try contradiction.
  - apply Hh; exact Hg'.
  - split; [exact Hg' | reflexivity].
Qed.

(** With a cached discovery result, discovery returns it and scans
    nothing, whatever the world and the timeout. *)
Lemma alike_discover (w1 w2 : World) (t1 t2 : Z) :
  alike (_discover_upnp_devices w1 t1) (_discover_upnp_devices w2 t2).
Proof.
  intros g1 g2 [Hsame [devices Hcache]].
  unfold _discover_upnp_devices. eff_unfold.
  rewrite <- Hsame, Hcache. split; [| reflexivity].
  split; [exact Hsame | by exists devices].
Qed.

(** A comprehension depends on its condition pointwise only. *)
Lemma filterM_ext {A} (p1 p2 : A → result bool) (l : list A) :
  (∀ x, p1 x = p2 x) → filterM p1 l = filterM p2 l.
Proof.
  intros Hp. induction l as [| x l IH]; [reflexivity |].
  simpl. rewrite Hp, IH. reflexivity.
Qed.

(** So does [str] on the [repr] it is given. *)
Lemma str_ext (repr1 repr2 : pyval → string) (v : pyval) :
  (∀ x, repr1 x = repr2 x) → str repr1 v = str repr2 v.
Proof. intros Hrepr. destruct v; simpl; try reflexivity; apply Hrepr. Qed.

(** One step in showing two bodies of the same shape [alike]: descend
    into the construct at the head of both. *)
Ltac alike_step :=
  lazymatch goal with
  | |- alike (mbind _ _) (mbind _ _) => apply alike_bind; [| intros ?]
  | |- alike (mret _) (mret _) => apply alike_ret
  | |- alike (raise _) (raise _) => apply alike_raise
  | |- alike (lift _) (lift _) => apply alike_lift
  | |- alike (logger_info _) (logger_info _) => apply alike_log
  | |- alike (logger_warning _) (logger_warning _) => apply alike_log
  | |- alike (try_except _ _) (try_except _ _) => apply alike_try; [| intros ?; cbv zeta]
  | |- alike (_discover_upnp_devices _ _) (_discover_upnp_devices _ _) =>
      apply alike_discover
  | |- alike (return_first _) (return_first _) => unfold return_first
  | |- alike (return_Device _ _) (return_Device _ _) => unfold return_Device
  | |- alike (attr_of _ _) (attr_of _ _) => unfold attr_of
  | |- alike (if ?b then _ else _) (if ?b then _ else _) => destruct b
  | |- alike (match ?x with _ => _ end) (match ?x with _ => _ end) => destruct x
  | |- alike_opt (on_IndexError _ _) (on_IndexError _ _) => unfold on_IndexError
  | |- alike_opt (on_RequestException _ _) (on_RequestException _ _) =>
      unfold on_RequestException
  | |- alike_opt (if ?b then _ else _) (if ?b then _ else _) => destruct b
  | |- alike_opt (match ?x with _ => _ end) (match ?x with _ => _ end) => destruct x
  | |- alike_opt (Some _) (Some _) => unfold alike_opt
  | |- alike_opt None None => exact I
  | |- True => exact I
  | |- _ = _ => reflexivity
  end.

(** Each resolver, run in two worlds that give the same answers, with any
    two timeouts: the two runs are [alike]. *)
Lemma streamer_alike (w1 w2 : World) (streamer_input : option string) (t1 t2 : Z) :
  same_answers w1 w2 →
  alike (_determine_streamer_device w1 streamer_input t1)
        (_determine_streamer_device w2 streamer_input t2).
Proof.
  intros (Hurl & Hget & Hdev & Hrepr).
  unfold _determine_streamer_device.
  repeat (rewrite ?Hurl, ?Hget, ?Hdev, ?(str_ext (py_repr w1) (py_repr w2))
            by exact Hrepr;
          alike_step).
Qed.

Lemma amplifier_alike
    (w1 w2 : World) (input : option string) (t1 t2 : Z) (sd : option Device) :
  same_answers w1 w2 →
  alike (_determine_amplifier_device w1 input t1 sd)
        (_determine_amplifier_device w2 input t2 sd).
Proof.
  intros (Hurl & Hget & Hdev & Hrepr).
  unfold _determine_amplifier_device.
  repeat (rewrite ?Hurl, ?Hget, ?Hdev; alike_step).
Qed.

Lemma media_server_alike
    (w1 w2 : World) (input : option string) (t1 t2 : Z) (sd : option Device) :
  same_answers w1 w2 →
  alike (_determine_media_server_device w1 input t1 sd)
        (_determine_media_server_device w2 input t2 sd).
Proof.
  intros (Hurl & Hget & Hdev & Hrepr).
  unfold _determine_media_server_device.
  repeat (rewrite ?Hurl, ?Hget, ?Hdev; alike_step).
  all: apply filterM_ext; intros x.
  all: destruct (getitem x "description_url"); [| reflexivity].
  all: eff_unfold; rewrite Hdev; reflexivity.
Qed.

(** Without a hint, streamer and amplifier resolution ask the network
    nothing once the discovery result is cached. *)
Lemma streamer_alike_without_hint
    (w1 w2 : World) (streamer_input : option string) (t1 t2 : Z) :
  is_blank streamer_input = true →
  alike (_determine_streamer_device w1 streamer_input t1)
        (_determine_streamer_device w2 streamer_input t2).
Proof.
  intros Hblank. unfold _determine_streamer_device. rewrite Hblank.
  repeat alike_step.
Qed.

Lemma amplifier_alike_without_hint
    (w1 w2 : World) (input : option string) (t1 t2 : Z) (sd : option Device) :
  is_blank input = true →
  alike (_determine_amplifier_device w1 input t1 sd)
        (_determine_amplifier_device w2 input t2 sd).
Proof.
  intros Hblank. unfold _determine_amplifier_device. rewrite Hblank.
  repeat alike_step.
Qed.

(** C9 as stated fails: over the same cached discovery result and the same
    hint, streamer resolution returns the device when the vendor probe
    cannot connect and raises when the probe times out. *)
Lemma resolution_depends_on_the_network :
  let g := Scenario.cached [Scenario.cxn] in
  let hint := Some "Living Room" in
  let one := (_determine_streamer_device Scenario.silent hint 5 g).2 in
  let other :=
    (_determine_streamer_device
       (Scenario.answering (Raise (Timeout "timed out"))) hint 5 g).2 in
  one = Ok (Some Scenario.cxn)
  ∧ other = Raise (timed_out "Living Room")
  ∧ one ≠ other.
Proof.
  vm_compute. repeat split; discriminate.
Qed.

(** C9, amended.  Over the same cached discovery result and the same hint,
    two runs of a resolver return the same descriptor, or raise the same
    error, whenever the network gives both runs the same answers (URL
    parsing, the HTTP requests, the description fetches); the discovery
    timeout, the log so far and what a new scan would find play no part.
    Without a hint, streamer and amplifier resolution do not depend on the
    network either: they are functions of the cached discovery result (and,
    for the amplifier, of the streamer's device) alone. *)
Theorem resolution_is_deterministic
    (w1 w2 : World) (devices : list Device) (input : option string)
    (t1 t2 : Z) (log1 log2 : list (level * string)) (sd : option Device) :
  let g1 := {| _upnp_devices := Some devices; logger := log1 |} in
  let g2 := {| _upnp_devices := Some devices; logger := log2 |} in
  (same_answers w1 w2 →
   (_determine_streamer_device w1 input t1 g1).2
   = (_determine_streamer_device w2 input t2 g2).2
   ∧ (_determine_media_server_device w1 input t1 sd g1).2
     = (_determine_media_server_device w2 input t2 sd g2).2
   ∧ (_determine_amplifier_device w1 input t1 sd g1).2
     = (_determine_amplifier_device w2 input t2 sd g2).2)
  ∧ (is_blank input = true →
     (_determine_streamer_device w1 input t1 g1).2
     = (_determine_streamer_device w2 input t2 g2).2
     ∧ (_determine_amplifier_device w1 input t1 sd g1).2
       = (_determine_amplifier_device w2 input t2 sd g2).2).
Proof.
  intros g1 g2.
  assert (Hcache : same_cache g1 g2).
  { split; [reflexivity | by exists devices]. }
  split.
  - intros Hsame. split; [| split].
    + apply (streamer_alike w1 w2 input t1 t2 Hsame g1 g2 Hcache).
    + apply (media_server_alike w1 w2 input t1 t2 sd Hsame g1 g2 Hcache).
    + apply (amplifier_alike w1 w2 input t1 t2 sd Hsame g1 g2 Hcache).
  - intros Hblank. split.
    + apply (streamer_alike_without_hint w1 w2 input t1 t2 Hblank g1 g2 Hcache).
    + apply (amplifier_alike_without_hint w1 w2 input t1 t2 sd Hblank g1 g2 Hcache).
Qed.

Lemma resolution_is_deterministic_witness :
  let g1 := {| _upnp_devices := Some [Scenario.cxn; Scenario.hegel]; logger := [] |} in
  let g2 := {| _upnp_devices := Some [Scenario.cxn; Scenario.hegel];
               logger := [(INFO, "Discovering UPnP devices...")] |} in
  (_determine_streamer_device Scenario.silent (Some "Living Room") 5 g1).2
  = (_determine_streamer_device Scenario.rescanning (Some "Living Room") 30 g2).2
  ∧ (_determine_amplifier_device Scenario.silent None 5 (Some Scenario.cxn) g1).2
    = (_determine_amplifier_device
         (Scenario.answering (Raise (Timeout "timed out"))) None 30
         (Some Scenario.cxn) g2).2.
Proof.
  intros g1 g2. split.
  - destruct (resolution_is_deterministic Scenario.silent Scenario.rescanning
                [Scenario.cxn; Scenario.hegel] (Some "Living Room") 5 30
                [] [(INFO, "Discovering UPnP devices...")] (Some Scenario.cxn))
      as (Hsame & _).
    apply Hsame. repeat split.
  - destruct (resolution_is_deterministic Scenario.silent
                (Scenario.answering (Raise (Timeout "timed out")))
                [Scenario.cxn; Scenario.hegel] None 5 30
                [] [(INFO, "Discovering UPnP devices...")] (Some Scenario.cxn))
      as (_ & Hblank).
    apply Hblank. reflexivity.
Defined.

(** ** Adapter classes *)

(** The known implementations of a role are the members that are classes
    and subclasses of the role's base class, in the order of the listing. *)
Lemma known_classes (role : Role) (members : list (string * member)) :
  (known role members).1
  = omap (fun entry =>
            match entry.2 with
            | AClass obj => if issubclass obj role then Some obj else None
            | NotAClass => None
            end) members.
Proof.
  unfold known.
  change (omap _ members) with (([] : list PyClass, (∅ : gmap string PyClass)).1 ++ omap
    (fun entry : string * member =>
            match entry.2 with
            | AClass obj => if issubclass obj role then Some obj else None
            | NotAClass => None
            end) members).
  generalize (([] : list PyClass), (∅ : gmap string PyClass)).
  induction members as [| [name obj] members IH]; intros acc.
  - simpl. rewrite app_nil_r. reflexivity.
  - simpl. rewrite IH. destruct obj as [c |]; simpl; [| reflexivity].
    destruct (issubclass c role); simpl; [| reflexivity].
    rewrite <- app_assoc. reflexivity.
Qed.

(** [next(..., None)] finds nothing when no class bears the name. *)
Lemma next_named_none (classes : list PyClass) (type_name : string) :
  (∀ c, c ∈ classes → __name__ c ≠ type_name) →
  next_named classes type_name = None.
Proof.
  intros Hnone. unfold next_named. rewrite <- head_filter_find.
  rewrite filter_none; [reflexivity |].
  intros c Hc. apply String.eqb_neq. by apply Hnone.
Qed.

Lemma unregistered_next_named role members type_name :
  unregistered role members type_name →
  next_named (known role members).1 type_name = None.
Proof.
  intros Hun. apply next_named_none. intros c Hc.
  rewrite known_classes in Hc. apply list_elem_of_omap in Hc.
  destruct Hc as ([name obj] & Hin & Hsome). simpl in Hsome.
  destruct obj as [c' |]; [| discriminate].
  destruct (issubclass c' role) eqn:Hsub; [| discriminate].
  injection Hsome as ->. by apply (Hun name).
Qed.

(** C8. With an explicit type name, adapter resolution never looks at the
    bound device: any two devices give the same outcome.  When the type
    name is the class name of no implementation of the role, resolution
    raises the "requested type" error, whatever the device's model is and
    whether or not that model has an implementation or an override. *)
Theorem explicit_type_bypasses_model
    (pk : Packages) (type_name : string) :
  (∀ d1 d2 : Device,
     determine_streamer_class pk d1 (Some type_name)
     = determine_streamer_class pk d2 (Some type_name)
     ∧ determine_media_server_class pk d1 (Some type_name)
       = determine_media_server_class pk d2 (Some type_name)
     ∧ determine_amplifier_class pk d1 (Some type_name)
       = determine_amplifier_class pk d2 (Some type_name))
  ∧ (unregistered Streamer (streamers pk) type_name →
     ∀ d, determine_streamer_class pk d (Some type_name)
          = Raise (no_such_type "streamer" type_name))
  ∧ (unregistered MediaServer (mediaservers pk) type_name →
     ∀ d, determine_media_server_class pk d (Some type_name)
          = Raise (no_such_type "media server" type_name))
  ∧ (unregistered Amplifier (amplifiers pk) type_name →
     ∀ d, determine_amplifier_class pk d (Some type_name)
          = Raise (no_such_type "amplifier" type_name)).
Proof.
  split; [| split; [| split]].
  - intros d1 d2.
    unfold determine_streamer_class, determine_media_server_class,
           determine_amplifier_class.
    cbv zeta.
    destruct (next_named (known Streamer (streamers pk)).1 type_name),
             (next_named (known MediaServer (mediaservers pk)).1 type_name),
             (next_named (known Amplifier (amplifiers pk)).1 type_name);
      repeat split.
  - intros Hun d. unfold determine_streamer_class. cbv zeta.
    rewrite (unregistered_next_named _ _ _ Hun). reflexivity.
  - intros Hun d. unfold determine_media_server_class. cbv zeta.
    rewrite (unregistered_next_named _ _ _ Hun). reflexivity.
  - intros Hun d. unfold determine_amplifier_class. cbv zeta.
    rewrite (unregistered_next_named _ _ _ Hun). reflexivity.
Qed.

Lemma explicit_type_bypasses_model_witness :
  determine_streamer_class Scenario.packages Scenario.cxn (Some "Sonos")
  = Raise (no_such_type "streamer" "Sonos")
  ∧ determine_media_server_class Scenario.packages Scenario.nas (Some "Sonos")
    = Raise (no_such_type "media server" "Sonos")
  ∧ determine_amplifier_class Scenario.packages Scenario.hegel (Some "Sonos")
    = Raise (no_such_type "amplifier" "Sonos").
Proof.
  destruct (explicit_type_bypasses_model Scenario.packages "Sonos")
    as (_ & Hstreamer & Hmedia & Hamplifier).
  assert (Hun : ∀ role members,
            members = streamers Scenario.packages
            ∨ members = mediaservers Scenario.packages
            ∨ members = amplifiers Scenario.packages →
            unregistered role members "Sonos").
  { intros role members Hmembers name obj Hin _.
    apply list_elem_of_In in Hin.
    destruct Hmembers as [-> | [-> | ->]]; simpl in Hin;
      repeat (destruct Hin as [Hin | Hin]; [injection Hin as <- <-; discriminate |]);
      repeat (destruct Hin as [Hin | Hin]; [discriminate Hin |]);
      try contradiction. }
  split; [| split].
  - apply Hstreamer, Hun. left. reflexivity.
  - apply Hmedia, Hun. right. left. reflexivity.
  - apply Hamplifier, Hun. right. right. reflexivity.
Defined.

(** ** The StreamMagic adapter: translation, coherence and commands *)

Import AdapterProps.

(** Runs the handler through every outcome of the reads it makes. *)
Ltac handler_cases :=
  unfold _handle_state_message, call_on_update, set_device_state, emit;
  repeat (eff_unfold;
    match goal with
    | |- context [json_loads ?w ?m] => destruct (json_loads w m) eqn:?
    | |- context [getitem ?a ?k] => destruct (getitem a k) eqn:?
    | |- context [truediv ?a ?k] => destruct (truediv a k) eqn:?
    | |- context [ne_str ?a ?k] => destruct (ne_str a k) eqn:?
    | |- context [truthy ?a] => destruct (truthy a) eqn:?
    | |- context [in_strs ?a ?k] => destruct (in_strs a k) eqn:?
    | |- context [is_KeyError ?e || is_JSONDecodeError ?e] =>
        destruct (is_KeyError e || is_JSONDecodeError e) eqn:?
    | |- context [_on_update (self ?s)] => destruct (_on_update (self s)) eqn:?
    | |- context [match ?h "System" ?st with _ => _ end] => destruct (h "System" st) eqn:?
    end; cbn [self trace _device _on_update _device_hostname _device_state fst snd] in *).

(** Opens [carries] and runs the handler up to the translation. *)
Ltac handler_enter Hcarries :=
  destruct Hcarries as (parsed & path & type & params & Hloads & Hpath & Htype
                        & Hparams & Hdata);
  unfold _handle_state_message; rewrite Hloads;
  eff_unfold; rewrite Hpath; eff_unfold;
  rewrite Htype;
  destruct (ne_str path "/zone/state"), (ne_str type "update");
  eff_unfold; rewrite Hparams; eff_unfold; rewrite Hdata; eff_unfold.

(** X1. The translation of a state message, as a rule over what the message
    holds.  The power entry is read by its truth value.  In pre-amp mode the
    adapter offers volume, mute and volume step, and takes mute and volume
    from the message, the volume as the reported percentage over 100.
    Outside pre-amp mode, with the control bus set to "amplifier" or
    "receiver" it offers volume step alone; with anything else it offers
    nothing; in both it holds neither mute nor volume. *)
Theorem translation_rules
    (w : World) (message : string) (s : Sys) (data pre p : pyval) :
  carries w message data →
  getitem data "pre_amp_mode" = Ok pre →
  getitem data "power" = Ok p →
  let after := _device_state (self (_handle_state_message w message s).1) in
  (truthy pre = true →
   ∀ m percent v,
     getitem data "mute" = Ok m →
     getitem data "volume_percent" = Ok percent →
     truediv percent 100 = Ok v →
     after = translated (self s) ["volume"; "mute"; "volume_up_down"] p (Some m) (Some v))
  ∧ (truthy pre = false →
     ∀ cbus,
       getitem data "cbus" = Ok cbus →
       (eq_str cbus "amplifier" = true ∨ eq_str cbus "receiver" = true →
        after = translated (self s) ["volume_up_down"] p None None)
       ∧ (eq_str cbus "amplifier" = false → eq_str cbus "receiver" = false →
          after = translated (self s) [] p None None)).
Proof.
  intros Hcarries Hpre Hp after. subst after.
  split.
  - intros Htruthy m percent v Hm Hpercent Hv.
    handler_enter Hcarries; eff_run; unfold set_device_state; eff_unfold;
      rewrite call_on_update_self; reflexivity.
  - intros Hfalsy cbus Hcbus. split.
    + intros Hbus.
      assert (Hin : in_strs cbus ["amplifier"; "receiver"] = true).
      { unfold in_strs. simpl. destruct Hbus as [-> | ->]; [reflexivity |].
        rewrite orb_true_r. reflexivity. }
      handler_enter Hcarries; eff_run; unfold set_device_state; eff_unfold;
        rewrite call_on_update_self; reflexivity.
    + intros Ha Hr.
      assert (Hin : in_strs cbus ["amplifier"; "receiver"] = false).
      { unfold in_strs. simpl. rewrite Ha, Hr. reflexivity. }
      handler_enter Hcarries; eff_run; unfold set_device_state; eff_unfold;
        rewrite call_on_update_self; reflexivity.
Qed.

Lemma carries_idle :
  carries Cases.home (Scenario.state_text "/zone/state" "update" Cases.idle_text)
    (PDict Cases.idle_data).
Proof.
  exists (Scenario.state_message "/zone/state" "update" Cases.idle_data),
         (PStr "/zone/state"), (PStr "update"),
         (PDict {[ "data" := PDict Cases.idle_data ]}).
  repeat split; reflexivity.
Qed.

Lemma carries_bare :
  carries Cases.home (Scenario.state_text "/zone/state" "update" Cases.bare_text)
    (PDict Cases.bare_data).
Proof.
  exists (Scenario.state_message "/zone/state" "update" Cases.bare_data),
         (PStr "/zone/state"), (PStr "update"),
         (PDict {[ "data" := PDict Cases.bare_data ]}).
  repeat split; reflexivity.
Qed.

Lemma carries_pre_amp :
  carries Cases.home (Scenario.state_text "/zone/state" "update" Scenario.pre_amp_text)
    (PDict Scenario.pre_amp_data).
Proof.
  exists (Scenario.state_message "/zone/state" "update" Scenario.pre_amp_data),
         (PStr "/zone/state"), (PStr "update"),
         (PDict {[ "data" := PDict Scenario.pre_amp_data ]}).
  repeat split; reflexivity.
Qed.

Lemma translation_rules_witness :
  _device_state
    (self (_handle_state_message Cases.home
             (Scenario.state_text "/zone/state" "update" Cases.idle_text)
             Cases.fresh).1)
  = translated (self Cases.fresh) [] (PBool true) None None.
Proof.
  apply (proj2 (translation_rules Cases.home
                  (Scenario.state_text "/zone/state" "update" Cases.idle_text)
                  Cases.fresh (PDict Cases.idle_data) (PBool false) (PBool true)
                  carries_idle eq_refl eq_refl)
           eq_refl (PStr "off") eq_refl);
    reflexivity.
Defined.

(** X2. With an update callback in place, a state message either leaves
    the adapter and its trace exactly as they were, or it makes exactly one
    new trace entry: the callback called on channel "System" with the state
    the adapter now holds.  The bound device and its hostname never
    change. *)
Theorem replacement_is_notified
    (w : World) (message : string) (s : Sys) (handler : UpdateMessageHandler) :
  _on_update (self s) = Some handler →
  let after := (_handle_state_message w message s).1 in
  after = s
  ∨ (trace after = trace s ++ [OnUpdate "System" (_device_state (self after))]
     ∧ _device (self after) = _device (self s)
     ∧ _device_hostname (self after) = _device_hostname (self s)).
Proof.
  intros Hh after. subst after.
  handler_cases; try (left; reflexivity); try (right; repeat split; reflexivity);
    congruence.
Qed.

Lemma replacement_is_notified_witness :
  let after :=
    (_handle_state_message Cases.home
       (Scenario.state_text "/zone/state" "update" Cases.idle_text) Cases.fresh).1 in
  after = Cases.fresh
  ∨ (trace after = trace Cases.fresh ++ [OnUpdate "System" (_device_state (self after))]
     ∧ _device (self after) = _device (self Cases.fresh)
     ∧ _device_hostname (self after) = _device_hostname (self Cases.fresh)).
Proof.
  apply (replacement_is_notified Cases.home
           (Scenario.state_text "/zone/state" "update" Cases.idle_text)
           Cases.fresh (fun _ _ => Ok ())).
  reflexivity.
Defined.

Lemma coherent_translated (a : StreamMagic) (st : AmplifierState) :
  name st = friendly_name (_device a) →
  sources st = None →
  ("volume" ∈ actions st ↔ is_Some (volume st)) →
  ("mute" ∈ actions st ↔ is_Some (mute st)) →
  coherent {| _device := _device a;
              _on_update := _on_update a;
              _device_hostname := _device_hostname a;
              _device_state := st |}.
Proof. intros; repeat split; simpl; tauto. Qed.

Ltac caps :=
  simpl; split; intros Hx;
  [ first [ eexists; reflexivity
          | exfalso; revert Hx; clear; intros Hx;
            repeat (apply elem_of_cons in Hx as [Hx | Hx]; [discriminate |]);
            apply elem_of_nil in Hx; exact Hx ]
  | first [ set_solver | destruct Hx as [? Hx]; discriminate Hx ] ].

(** X3. The state the adapter holds is coherent from construction on and
    after every state message, whatever the message is: it bears the
    friendly name of the bound device, has no audio sources, and holds a
    volume (a mute value) exactly when "volume" ("mute") is among its
    capabilities. *)
Theorem state_stays_coherent (w : World) :
  (∀ device on_update, coherent (__init__ w device on_update))
  ∧ (∀ message s,
       coherent (self s) → coherent (self (_handle_state_message w message s).1)).
Proof.
  split.
  - intros device on_update. unfold __init__. repeat split; simpl.
    + intros Hx. apply elem_of_nil in Hx. contradiction.
    + intros [? Hx]. discriminate.
    + intros Hx. apply elem_of_nil in Hx. contradiction.
    + intros [? Hx]. discriminate.
  - intros message s Hs.
    handler_cases; try exact Hs; apply coherent_translated; try reflexivity; caps.
Qed.

Lemma state_stays_coherent_witness :
  coherent
    (self (_handle_state_message Cases.home
             (Scenario.state_text "/zone/state" "update" Scenario.pre_amp_text)
             Cases.fresh).1).
Proof.
  apply (proj2 (state_stays_coherent Cases.home)).
  apply (proj1 (state_stays_coherent Cases.home)).
Defined.

(** X4. A message in pre-amp mode that lacks power, mute or the volume
    percentage, or whose volume percentage cannot be divided, makes the
    handler raise what the failing read raises; the adapter and its trace
    are left exactly as they were, and the callback is not called. *)
Theorem incomplete_message_changes_nothing
    (w : World) (message : string) (s : Sys) (data pre : pyval) :
  carries w message data →
  getitem data "pre_amp_mode" = Ok pre →
  truthy pre = true →
  (∀ e, getitem data "power" = Raise e →
        _handle_state_message w message s = (s, Raise e))
  ∧ (∀ p e, getitem data "power" = Ok p →
            getitem data "mute" = Raise e →
            _handle_state_message w message s = (s, Raise e))
  ∧ (∀ p m e, getitem data "power" = Ok p →
              getitem data "mute" = Ok m →
              getitem data "volume_percent" = Raise e →
              _handle_state_message w message s = (s, Raise e))
  ∧ (∀ p m percent e, getitem data "power" = Ok p →
                      getitem data "mute" = Ok m →
                      getitem data "volume_percent" = Ok percent →
                      truediv percent 100 = Raise e →
                      _handle_state_message w message s = (s, Raise e)).
Proof.
  intros Hcarries Hpre Htruthy.
  repeat split; intros; handler_enter Hcarries; eff_run; reflexivity.
Qed.

Lemma incomplete_message_changes_nothing_witness :
  _handle_state_message Cases.home
    (Scenario.state_text "/zone/state" "update" Cases.bare_text) Cases.fresh
  = (Cases.fresh, Raise (KeyError "power")).
Proof.
  apply (incomplete_message_changes_nothing Cases.home
           (Scenario.state_text "/zone/state" "update" Cases.bare_text)
           Cases.fresh (PDict Cases.bare_data) (PBool true)
           carries_bare eq_refl eq_refl).
  reflexivity.
Defined.

(** X5. No command changes the adapter, and each issues at most one HTTP
    request: the power commands, the volume setter and steps, the mute
    setter and toggle.  What the adapter holds changes only through state
    messages. *)
Theorem commands_are_fire_and_forget (w : World) :
  (∀ volume, fire_and_forget (volume_setter w volume))
  ∧ fire_and_forget (volume_up w)
  ∧ fire_and_forget (volume_down w)
  ∧ (∀ state, fire_and_forget (mute_setter w state))
  ∧ fire_and_forget (mute_toggle w)
  ∧ (∀ state, fire_and_forget (power_setter state))
  ∧ fire_and_forget power_toggle.
Proof.
  repeat split; intros;
    unfold volume_setter, volume_up, volume_down, mute_setter, mute_toggle,
           power_setter, power_toggle, _send_state_request, emit;
    eff_unfold;
    repeat match goal with
           | |- context [bool_decide ?P] => destruct (bool_decide P)
           | |- context [round ?x] => destruct (round x)
           | |- context [requests_get ?w ?u ?t] => destruct (requests_get w u t)
           end;
    simpl; eauto.
Qed.

Lemma percent_survives_all :
  forallb (fun n => percent_survives (Z.of_nat n)) (seq 0 101) = true.
Proof. vm_compute. reflexivity. Qed.

Lemma percent_round_trip (k : Z) :
  (0 ≤ k ≤ 100)%Z →
  ∃ v, truediv (PInt k) 100 = Ok v ∧ round (PrimFloat.mul v 100%float) = Ok k.
Proof.
  intros Hk.
  pose proof percent_survives_all as Hall.
  rewrite forallb_forall in Hall.
  specialize (Hall (Z.to_nat k)).
  rewrite Z2Nat.id in Hall by lia.
  assert (Hin : In (Z.to_nat k) (seq 0 101)).
  { apply in_seq. lia. }
  specialize (Hall Hin). unfold percent_survives in Hall.
  destruct (truediv (PInt k) 100) as [v |]; [| discriminate].
  destruct (round (PrimFloat.mul v 100%float)) as [n |] eqn:Hround; [| discriminate].
  apply Z.eqb_eq in Hall. subst n. exists v. split; [reflexivity | exact Hround].
Qed.

(** X6. Reporting and setting the volume round-trip: when a pre-amp
    message reports a whole percentage from 0 to 100, the adapter holds a
    volume, and setting that volume again requests exactly the reported
    percentage from the device. *)
Theorem volume_round_trip
    (w : World) (message : string) (s : Sys) (data pre p m : pyval) (k : Z) :
  carries w message data →
  getitem data "pre_amp_mode" = Ok pre →
  truthy pre = true →
  getitem data "power" = Ok p →
  getitem data "mute" = Ok m →
  getitem data "volume_percent" = Ok (PInt k) →
  (0 ≤ k ≤ 100)%Z →
  let reported := (_handle_state_message w message s).1 in
  ∃ v,
    volume (_device_state (self reported)) = Some v
    ∧ trace (volume_setter w v reported).1
      = trace reported
        ++ [HttpGet (state_request (self s) "volume_percent" (str_int k))].
Proof.
  intros Hcarries Hpre Htruthy Hp Hm Hpercent Hk reported. subst reported.
  destruct (percent_round_trip k Hk) as (v & Hv & Hround).
  exists v.
  assert (Hstate :
    self (_handle_state_message w message s).1
    = {| _device := _device (self s);
         _on_update := _on_update (self s);
         _device_hostname := _device_hostname (self s);
         _device_state :=
           translated (self s) ["volume"; "mute"; "volume_up_down"] p (Some m) (Some v) |}).
  { handler_enter Hcarries; eff_run; unfold set_device_state; eff_unfold;
      rewrite call_on_update_self; reflexivity. }
  split.
  - rewrite Hstate. reflexivity.
  - unfold volume_setter. eff_unfold. rewrite Hstate.
    cbn [_device_state actions translated].
    rewrite bool_decide_eq_true_2 by (repeat constructor).
    rewrite Hround. unfold _send_state_request, emit. eff_unfold.
    rewrite Hstate. cbn [_device_hostname trace self].
    fold (state_request (self s) "volume_percent" (str_int k)).
    destruct (requests_get w _ None); reflexivity.
Qed.

Lemma volume_round_trip_witness :
  let reported :=
    (_handle_state_message Cases.home
       (Scenario.state_text "/zone/state" "update" Scenario.pre_amp_text)
       Cases.fresh).1 in
  ∃ v,
    volume (_device_state (self reported)) = Some v
    ∧ trace (volume_setter Cases.home v reported).1
      = trace reported
        ++ [HttpGet "http://192.168.1.10/smoip/zone/state?volume_percent=42"].
Proof.
  apply (volume_round_trip Cases.home
           (Scenario.state_text "/zone/state" "update" Scenario.pre_amp_text)
           Cases.fresh (PDict Scenario.pre_amp_data) (PBool true) (PBool true)
           (PBool false) 42 carries_pre_amp eq_refl eq_refl eq_refl eq_refl eq_refl).
  lia.
Defined.

(** X7. After a pre-amp message, the mute toggle requests the opposite of
    what the message reported: "false" when the message reported a true
    mute entry, "true" otherwise. *)
Theorem mute_toggle_inverts_report
    (w : World) (message : string) (s : Sys) (data pre p m percent : pyval) (v : float) :
  carries w message data →
  getitem data "pre_amp_mode" = Ok pre →
  truthy pre = true →
  getitem data "power" = Ok p →
  getitem data "mute" = Ok m →
  getitem data "volume_percent" = Ok percent →
  truediv percent 100 = Ok v →
  let reported := (_handle_state_message w message s).1 in
  trace (mute_toggle w reported).1
  = trace reported
    ++ [HttpGet (state_request (self s) "mute" (if truthy m then "false" else "true"))].
Proof.
  intros Hcarries Hpre Htruthy Hp Hm Hpercent Hv reported. subst reported.
  assert (Hstate :
    self (_handle_state_message w message s).1
    = {| _device := _device (self s);
         _on_update := _on_update (self s);
         _device_hostname := _device_hostname (self s);
         _device_state :=
           translated (self s) ["volume"; "mute"; "volume_up_down"] p (Some m) (Some v) |}).
  { handler_enter Hcarries; eff_run; unfold set_device_state; eff_unfold;
      rewrite call_on_update_self; reflexivity. }
  unfold mute_toggle. eff_unfold. rewrite Hstate.
  cbn [_device_state actions mute translated fmap option_fmap option_map].
  rewrite bool_decide_eq_true_2 by (repeat constructor).
  unfold _send_state_request, emit. eff_unfold.
  rewrite Hstate. cbn [_device_hostname trace self].
  unfold state_request.
  destruct (truthy m); simpl bool_decide;
    destruct (requests_get w _ None); reflexivity.
Qed.

Lemma mute_toggle_inverts_report_witness :
  let reported :=
    (_handle_state_message Cases.home
       (Scenario.state_text "/zone/state" "update" Scenario.pre_amp_text)
       Cases.fresh).1 in
  trace (mute_toggle Cases.home reported).1
  = trace reported ++ [HttpGet "http://192.168.1.10/smoip/zone/state?mute=true"].
Proof.
  apply (mute_toggle_inverts_report Cases.home
           (Scenario.state_text "/zone/state" "update" Scenario.pre_amp_text)
           Cases.fresh (PDict Scenario.pre_amp_data) (PBool true) (PBool true)
           (PBool false) (PInt 42) _ carries_pre_amp eq_refl eq_refl eq_refl eq_refl
           eq_refl truediv_42).
Defined.

Import ResolutionProps.

(** ** Role resolution: discovery and the hint-free streamer *)

(** X8. Discovery scans at most once: after a first call, any later call,
    whatever the network and the timeout, returns the devices of the first
    one and leaves the globals, log included, as they are. *)
Theorem discovery_is_cached (w1 w2 : World) (t1 t2 : Z) (g : Globals) :
  let first := _discover_upnp_devices w1 t1 g in
  _discover_upnp_devices w2 t2 first.1 = first.
Proof.
  intros first. subst first.
  destruct (discover_run w1 t1 g) as (g' & Hrun & Hcache & _).
  rewrite Hrun. simpl. unfold _discover_upnp_devices. eff_unfold.
  rewrite Hcache. reflexivity.
Qed.

Lemma first_such_filter {A} (f : A → bool) (l : list A) (x : A) :
  first_such f l x → ∃ rest, List.filter f l = x :: rest.
Proof.
  intros (before & after & -> & Hbefore & Hx).
  rewrite (filter_first f before after x Hbefore Hx). eauto.
Qed.

(** X9. Without a streamer hint, the streamer is the first discovered
    device that is made by Cambridge Audio and is a media renderer; with no
    such device resolution fails with a [VibinError]. *)
Theorem streamer_autodiscovery
    (w : World) (streamer_input : option string) (timeout : Z) (g : Globals) :
  is_blank streamer_input = true →
  let result := (_determine_streamer_device w streamer_input timeout g).2 in
  (∀ d, first_such cambridge_renderer (discovered w timeout g) d →
        result = Ok (Some d))
  ∧ ((∀ d, d ∈ discovered w timeout g → cambridge_renderer d = false) →
     result
     = Raise (VibinError "Could not find a Cambridge Audio MediaRenderer UPnP device")).
Proof.
  intros Hblank result. subst result.
  unfold _determine_streamer_device. rewrite Hblank. eff_unfold.
  match goal with |- context [_discover_upnp_devices w timeout ?g0] =>
    destruct (discover_run w timeout g0) as (g1 & Hrun & _ & _) end.
  rewrite Hrun. rewrite discovered_logged. eff_unfold.
  fold cambridge_renderer.
  change (fun device : Device =>
            String.eqb (manufacturer device) "Cambridge Audio"
            && str_in "MediaRenderer" (device_type device))
    with cambridge_renderer.
  split.
  - intros d Hd. destruct (first_such_filter _ _ _ Hd) as (rest & ->). reflexivity.
  - intros Hnone. rewrite (filter_none _ _ Hnone). reflexivity.
Qed.

Lemma first_such_here {A} (f : A → bool) (before after : list A) (x : A) :
  forallb (fun y => negb (f y)) before = true → f x = true →
  first_such f (before ++ x :: after) x.
Proof.
  intros Hbefore Hx. exists before, after. split; [reflexivity |].
  split; [| exact Hx].
  apply Forall_forall. intros y Hy.
  rewrite forallb_forall in Hbefore. apply list_elem_of_In in Hy.
  specialize (Hbefore y Hy). destruct (f y); [discriminate | reflexivity].
Qed.

Lemma streamer_autodiscovery_witness :
  (_determine_streamer_device Cases.home None 5 Cases.unscanned).2
  = Ok (Some Scenario.cxn).
Proof.
  apply (proj1 (streamer_autodiscovery Cases.home None 5 Cases.unscanned eq_refl)).
  apply (first_such_here cambridge_renderer [Scenario.nas; Scenario.hegel] []);
    reflexivity.
Defined.

(** ** Role resolution: a hint that is a URL *)

(** X10. A hint that is a URL is handled alike for the three roles: one
    record is logged, the description at the URL is fetched and returned, a
    failing fetch is a [VibinError] naming the role and the URL, and no
    discovery runs. *)
Theorem location_hint
    (w : World) (input host : string) (timeout : Z) (sd : option Device) (g : Globals) :
  input ≠ "" →
  urlparse_hostname w input = Some host →
  _determine_streamer_device w (Some input) timeout g
  = (logged INFO
       ("Attempting to find streamer at provided UPnP location URL: " +:+ input) g,
     location_outcome w "Could not find a UPnP device at the provided streamer URL: "
       input)
  ∧ _determine_media_server_device w (Some input) timeout sd g
    = (logged INFO ("Attempting to find media server at provided URL: " +:+ input) g,
       location_outcome w
         "Could not find a UPnP device at the provided media server URL: " input)
  ∧ _determine_amplifier_device w (Some input) timeout sd g
    = (logged INFO ("Attempting to find amplifier at provided URL: " +:+ input) g,
       location_outcome w
         "Could not find a UPnP device at the provided amplifier URL: " input).
Proof.
  intros Hinput Hurl. pose proof (not_blank input Hinput) as Hblank.
  unfold _determine_streamer_device, _determine_media_server_device,
         _determine_amplifier_device, location_outcome.
  rewrite Hblank. cbv zeta. change (input_str (Some input)) with input.
  rewrite Hurl. unfold return_Device, on_RequestException. eff_unfold.
  destruct (upnpclient_Device w (PStr input)) as [d | e]; [repeat split |].
  destruct (is_RequestException e); repeat split.
Qed.

Lemma location_hint_witness :
  (_determine_streamer_device Cases.home (Some (location Scenario.cxn)) 5
     Cases.unscanned).2
  = Ok (Some (Cases.fetched Scenario.cxn)).
Proof.
  rewrite (proj1 (location_hint Cases.home (location Scenario.cxn) "192.168.1.10" 5
                    None Cases.unscanned ltac:(discriminate) eq_refl)).
  reflexivity.
Defined.

(** ** Role resolution: the vendor probe, when it is answered *)

(** The comprehension over the devices the probe lists. *)
Lemma not_cambridge_audio (maker : pyval) :
  maker ≠ PStr "Cambridge Audio" → eq_str maker "Cambridge Audio" = false.
Proof.
  intros Hmaker. destruct maker as [| | | | s | |]; try reflexivity.
  apply String.eqb_neq. intros ->. by apply Hmaker.
Qed.

Lemma made_by_cambridge_read (item maker : pyval) :
  getitem item "manufacturer" = Ok maker →
  made_by_cambridge item = Ok (eq_str maker "Cambridge Audio").
Proof. intros Hmaker. unfold made_by_cambridge. eff_unfold. rewrite Hmaker. reflexivity. Qed.

Lemma probe_all_read (items : list pyval) :
  Forall (fun item => ∃ maker, getitem item "manufacturer" = Ok maker) items →
  ∃ kept, filterM made_by_cambridge items = Ok kept.
Proof.
  induction 1 as [| item items (maker & Hmaker) _ (kept & IH)]; [by exists [] |].
  cbn [filterM]. rewrite (made_by_cambridge_read _ _ Hmaker). eff_unfold. rewrite IH.
  destruct (eq_str maker "Cambridge Audio"); eauto.
Qed.

Lemma probe_first_cambridge (before after : list pyval) (streamer : pyval) :
  Forall (fun item => ∃ maker, getitem item "manufacturer" = Ok maker
                               ∧ maker ≠ PStr "Cambridge Audio") before →
  getitem streamer "manufacturer" = Ok (PStr "Cambridge Audio") →
  Forall (fun item => ∃ maker, getitem item "manufacturer" = Ok maker) after →
  ∃ others, filterM made_by_cambridge (before ++ streamer :: after)
            = Ok (streamer :: others).
Proof.
  intros Hbefore Hstreamer Hafter.
  induction Hbefore as [| item before (maker & Hmaker & Hother) _ (others & IH)].
  - cbn [app filterM]. rewrite (made_by_cambridge_read _ _ Hstreamer). eff_unfold.
    destruct (probe_all_read after Hafter) as (kept & ->). eauto.
  - cbn [app filterM] in *. rewrite (made_by_cambridge_read _ _ Hmaker). eff_unfold.
    rewrite IH, (not_cambridge_audio maker Hother). eauto.
Qed.

(** X11. When the vendor probe of a bare streamer hint is answered 200 with
    a list of devices each of which names its manufacturer, the first
    listed device whose manufacturer is "Cambridge Audio" is the streamer:
    its description is fetched and returned, and a fetch that fails is a
    [VibinError] naming the hint and the description URL.  The discovery
    cache is not touched. *)
Theorem probe_finds_streamer
    (w : World) (input : string) (timeout : Z) (g : Globals)
    (response : Response) (body data listed streamer url : pyval)
    (before after : list pyval) :
  input ≠ "" →
  urlparse_hostname w input = None →
  requests_get w (probe_url input) (Some 10%Z) = Ok response →
  status_code response = 200%Z →
  json response = Ok body →
  getitem body "data" = Ok data →
  getitem data "devices" = Ok listed →
  iter listed = Ok (before ++ streamer :: after) →
  Forall (fun item => ∃ maker, getitem item "manufacturer" = Ok maker
                               ∧ maker ≠ PStr "Cambridge Audio") before →
  getitem streamer "manufacturer" = Ok (PStr "Cambridge Audio") →
  Forall (fun item => ∃ maker, getitem item "manufacturer" = Ok maker) after →
  getitem streamer "description_url" = Ok url →
  let run := _determine_streamer_device w (Some input) timeout g in
  _upnp_devices run.1 = _upnp_devices g
  ∧ (∀ d, upnpclient_Device w url = Ok d → run.2 = Ok (Some d))
  ∧ (∀ e, upnpclient_Device w url = Raise e →
          is_RequestException e = true →
          run.2
          = Raise (VibinError
              ("Cambridge Audio device found at " +:+ input +:+ ", "
               +:+ "but its description_url was unsuccessful: "
               +:+ str (py_repr w) url))).
Proof.
  intros Hinput Hbare Hprobe Hstatus Hjson Hdata Hlisted Hiter Hbefore Hstreamer
         Hafter Hurl run.
  destruct (probe_first_cambridge before after streamer Hbefore Hstreamer Hafter)
    as (others & Hfilter).
  subst run. pose proof (not_blank input Hinput) as Hblank.
  unfold _determine_streamer_device. rewrite Hblank. cbv zeta.
  change (input_str (Some input)) with input. rewrite Hbare.
  fold (probe_url input). eff_unfold. rewrite Hprobe, Hstatus. eff_run.
  cbn [head0]. eff_run. unfold return_Device. eff_unfold.
  split; [| split].
  - destruct (upnpclient_Device w url) as [d | e]; [reflexivity |].
    destruct e; reflexivity.
  - intros d ->. reflexivity.
  - intros e -> He. destruct e; try discriminate He; reflexivity.
Qed.

(** The streamer lists a media server, then itself, then a second
    Cambridge Audio device. *)
Lemma probe_finds_streamer_witness :
  (_determine_streamer_device Cases.showroom (Some "192.168.1.10") 5
     Cases.unscanned).2
  = Ok (Some (Cases.fetched Scenario.cxn)).
Proof.
  apply (proj1 (proj2
           (probe_finds_streamer Cases.showroom "192.168.1.10" 5 Cases.unscanned
              {| status_code := 200;
                 json := Ok (Cases.listing [Scenario.nas; Scenario.cxn; Cases.edge]) |}
              (Cases.listing [Scenario.nas; Scenario.cxn; Cases.edge])
              (PDict {[ "devices" :=
                          PList (Cases.listed
                                   <$> [Scenario.nas; Scenario.cxn; Cases.edge]) ]})
              (PList (Cases.listed <$> [Scenario.nas; Scenario.cxn; Cases.edge]))
              (Cases.listed Scenario.cxn) (PStr (location Scenario.cxn))
              [Cases.listed Scenario.nas] [Cases.listed Cases.edge]
              ltac:(discriminate) eq_refl eq_refl eq_refl eq_refl eq_refl eq_refl
              eq_refl
              ltac:(repeat constructor; exists (PStr "Synology");
                    split; [reflexivity | discriminate])
              eq_refl
              ltac:(repeat constructor; exists (PStr "Cambridge Audio"); reflexivity)
              eq_refl))).
  reflexivity.
Defined.

(** X12. When the vendor probe of a bare streamer hint is answered with a
    status other than 200, streamer resolution returns no device and raises
    nothing: it neither fails nor tries the friendly names. *)
Theorem probe_rejected_returns_nothing
    (w : World) (input : string) (timeout : Z) (g : Globals) (response : Response) :
  input ≠ "" →
  urlparse_hostname w input = None →
  requests_get w (probe_url input) (Some 10%Z) = Ok response →
  status_code response ≠ 200%Z →
  _determine_streamer_device w (Some input) timeout g
  = (logged INFO ("Attempting to find streamer at provided hostname: " +:+ input) g,
     Ok None).
Proof.
  intros Hinput Hbare Hprobe Hstatus. pose proof (not_blank input Hinput) as Hblank.
  unfold _determine_streamer_device. rewrite Hblank. cbv zeta.
  change (input_str (Some input)) with input. rewrite Hbare.
  fold (probe_url input). eff_unfold. rewrite Hprobe.
  apply Z.eqb_neq in Hstatus. rewrite Hstatus. reflexivity.
Qed.

Lemma probe_rejected_returns_nothing_witness :
  _determine_streamer_device Cases.home (Some "192.168.1.30") 5 Cases.unscanned
  = (logged INFO "Attempting to find streamer at provided hostname: 192.168.1.30"
       Cases.unscanned,
     Ok None).
Proof.
  apply (probe_rejected_returns_nothing Cases.home "192.168.1.30" 5 Cases.unscanned
           {| status_code := 404; json := Raise (JSONDecodeError "Expecting value") |}
           ltac:(discriminate) eq_refl eq_refl ltac:(discriminate)).
Defined.

(** ** Role resolution: the media server without a hint *)

Lemma warnings_warning (msg : string) (g : Globals) :
  warnings (logged WARNING msg g) = warnings g ++ [msg].
Proof.
  unfold warnings, logged. simpl.
  rewrite List.filter_app. simpl. rewrite fmap_app. reflexivity.
Qed.

(** X13. Without a media-server hint and with a streamer of another make
    than Cambridge Audio, the media server is the first discovered device of
    media-server type; with no such device the result is no media server and
    one warning. *)
Theorem media_server_autodiscovery
    (w : World) (media_server_input : option string) (timeout : Z)
    (streamer : Device) (g : Globals) :
  is_blank media_server_input = true →
  manufacturer streamer ≠ "Cambridge Audio" →
  let run :=
    _determine_media_server_device w media_server_input timeout (Some streamer) g in
  (∀ d, first_such media_server (discovered w timeout g) d →
        run.2 = Ok (Some d) ∧ warnings run.1 = warnings g)
  ∧ ((∀ d, d ∈ discovered w timeout g → media_server d = false) →
     run.2 = Ok None
     ∧ warnings run.1 = warnings g ++ ["Could not find a MediaServer UPnP device"]).
Proof.
  intros Hblank Hmaker run. subst run.
  unfold _determine_media_server_device. rewrite Hblank.
  unfold attr_of. eff_unfold.
  apply String.eqb_neq in Hmaker. rewrite Hmaker. eff_unfold.
  match goal with |- context [_discover_upnp_devices w timeout ?g0] =>
    destruct (discover_run w timeout g0) as (g1 & Hrun & _ & Hwarn) end.
  rewrite Hrun. rewrite discovered_logged. eff_unfold.
  change (fun device : Device => str_in "MediaServer" (device_type device))
    with media_server.
  rewrite warnings_info in Hwarn.
  split.
  - intros d Hd. destruct (first_such_filter _ _ _ Hd) as (rest & ->).
    split; [reflexivity | exact Hwarn].
  - intros Hnone. rewrite (filter_none _ _ Hnone).
    split; [reflexivity |]. simpl. rewrite warnings_warning, Hwarn. reflexivity.
Qed.

Lemma media_server_autodiscovery_witness :
  let run :=
    _determine_media_server_device Cases.home None 5 (Some Scenario.hegel)
      Cases.unscanned in
  run.2 = Ok (Some Scenario.nas) ∧ warnings run.1 = warnings Cases.unscanned.
Proof.
  apply (proj1 (media_server_autodiscovery Cases.home None 5 Scenario.hegel
                  Cases.unscanned eq_refl ltac:(discriminate))).
  apply (first_such_here media_server [] [Scenario.hegel; Scenario.cxn]);
    reflexivity.
Defined.

(** The comprehension over the devices a streamer lists. *)
Lemma lists_server_described (w : World) (item : pyval) (d : Device) :
  described w item d → lists_server w item = Ok (media_server d).
Proof.
  intros (url & Hurl & Hd). unfold lists_server. eff_unfold. rewrite Hurl, Hd.
  reflexivity.
Qed.

Lemma listing_all_fetched (w : World) (items : list pyval) :
  Forall (fun item => ∃ d, described w item d) items →
  ∃ kept, filterM (lists_server w) items = Ok kept.
Proof.
  induction 1 as [| item items (d & Hd) _ (kept & IH)]; [by exists [] |].
  cbn [filterM]. rewrite (lists_server_described _ _ _ Hd). eff_unfold. rewrite IH.
  destruct (media_server d); eauto.
Qed.

Lemma listing_no_server (w : World) (items : list pyval) :
  Forall (fun item => ∃ d, described w item d ∧ media_server d = false) items →
  filterM (lists_server w) items = Ok [].
Proof.
  induction 1 as [| item items (d & Hd & Hno) _ IH]; [reflexivity |].
  cbn [filterM]. rewrite (lists_server_described _ _ _ Hd). eff_unfold.
  rewrite IH, Hno. reflexivity.
Qed.

Lemma listing_first_server
    (w : World) (before after : list pyval) (item : pyval) (d : Device) :
  Forall (fun x => ∃ d', described w x d' ∧ media_server d' = false) before →
  described w item d →
  media_server d = true →
  Forall (fun x => ∃ d', described w x d') after →
  ∃ rest, filterM (lists_server w) (before ++ item :: after) = Ok (item :: rest).
Proof.
  intros Hbefore Hitem Hyes Hafter.
  induction Hbefore as [| x before (d' & Hd' & Hno) _ IH].
  - cbn [app filterM]. rewrite (lists_server_described _ _ _ Hitem). eff_unfold.
    destruct (listing_all_fetched w after Hafter) as (kept & ->).
    rewrite Hyes. eauto.
  - destruct IH as (rest & IH). cbn [app filterM] in *.
    rewrite (lists_server_described _ _ _ Hd'). eff_unfold. rewrite IH, Hno. eauto.
Qed.

Lemma listing_fetch_fails
    (w : World) (before after : list pyval) (item url : pyval) (e : exn) :
  Forall (fun x => ∃ d', described w x d') before →
  getitem item "description_url" = Ok url →
  upnpclient_Device w url = Raise e →
  filterM (lists_server w) (before ++ item :: after) = Raise e.
Proof.
  intros Hbefore Hurl He.
  assert (Hitem : lists_server w item = Raise e).
  { unfold lists_server. eff_unfold. rewrite Hurl, He. reflexivity. }
  induction Hbefore as [| x before (d' & Hd') _ IH].
  - cbn [app filterM]. rewrite Hitem. reflexivity.
  - cbn [app filterM] in *. rewrite (lists_server_described _ _ _ Hd'). eff_unfold.
    rewrite IH. reflexivity.
Qed.

(** X14. Without a media-server hint and with a Cambridge Audio streamer,
    the streamer is asked for the devices it knows.  A failing request is a
    [VibinError].  The description of every listed device is fetched: when
    none of them is a media server the result is no media server and one
    warning; otherwise the description of the first media server listed is
    fetched again and returned; a failing fetch of a listed device is a
    [VibinError], also for a device listed after the media server. *)
Theorem media_server_from_streamer
    (w : World) (media_server_input : option string) (timeout : Z)
    (streamer : Device) (g : Globals) :
  is_blank media_server_input = true →
  manufacturer streamer = "Cambridge Audio" →
  let run :=
    _determine_media_server_device w media_server_input timeout (Some streamer) g in
  let answer := requests_get w (listing_url w streamer) None in
  (∀ msg,
     answer = Raise (RequestException msg) ∨ answer = Raise (Timeout msg) →
     run.2 = Raise (no_media_server_from msg))
  ∧ (∀ response body data listed items,
       answer = Ok response →
       json response = Ok body →
       getitem body "data" = Ok data →
       getitem data "devices" = Ok listed →
       iter listed = Ok items →
       (Forall (fun item => ∃ d, described w item d ∧ media_server d = false) items →
        run.2 = Ok None
        ∧ warnings run.1
          = warnings g
            ++ ["Cambridge Audio device '" +:+ friendly_name streamer +:+ "' "
                +:+ "did not specify a media server device"])
       ∧ (∀ before item after d,
            items = before ++ item :: after →
            Forall (fun x => ∃ d', described w x d' ∧ media_server d' = false) before →
            described w item d →
            media_server d = true →
            Forall (fun x => ∃ d', described w x d') after →
            run.2 = Ok (Some d) ∧ warnings run.1 = warnings g)
       ∧ (∀ before item after url msg,
            items = before ++ item :: after →
            Forall (fun x => ∃ d', described w x d') before →
            getitem item "description_url" = Ok url →
            upnpclient_Device w url = Raise (RequestException msg) →
            run.2 = Raise (no_media_server_from msg))).
Proof.
  intros Hblank Hmaker run answer. subst run answer.
  unfold _determine_media_server_device. rewrite Hblank.
  unfold attr_of. eff_unfold.
  apply String.eqb_eq in Hmaker. rewrite Hmaker. eff_unfold.
  fold (listing_url w streamer).
  split.
  - intros msg [-> | ->]; reflexivity.
  - intros response body data listed items -> Hjson Hdata Hlisted Hiter.
    eff_run.
    change (fun cambridge_device : pyval =>
              match getitem cambridge_device "description_url" with
              | Ok a =>
                  match upnpclient_Device w a with
                  | Ok d => Ok (str_in "MediaServer" (device_type d))
                  | Raise e => Raise e
                  end
              | Raise e => Raise e
              end)
      with (lists_server w).
    split; [| split].
    + intros Hnone. rewrite (listing_no_server w items Hnone).
      cbn [head0]. unfold on_IndexError. eff_unfold.
      split; [reflexivity |]. simpl. rewrite warnings_warning, warnings_info.
      reflexivity.
    + intros before item after d -> Hbefore Hitem Hyes Hafter.
      destruct (listing_first_server w before after item d Hbefore Hitem Hyes Hafter)
        as (rest & ->).
      cbn [head0]. destruct Hitem as (url & Hurl & Hd).
      eff_unfold. rewrite Hurl. unfold return_Device. eff_unfold. rewrite Hd.
      split; [reflexivity |]. simpl. apply warnings_info.
    + intros before item after url msg -> Hbefore Hurl Hfail.
      rewrite (listing_fetch_fails w before after item url _ Hbefore Hurl Hfail).
      reflexivity.
Qed.

Lemma described_listed (d : Device) :
  d ∈ Cases.neighbours → described Cases.home (Cases.listed d) (Cases.fetched d).
Proof.
  intros Hd. exists (PStr (location d)). split; [reflexivity |].
  apply list_elem_of_In in Hd. simpl in Hd.
  destruct Hd as [<- | [<- | [<- | []]]]; reflexivity.
Qed.

Lemma media_server_from_streamer_witness :
  let run :=
    _determine_media_server_device Cases.home None 5 (Some Scenario.cxn)
      Cases.unscanned in
  run.2 = Ok (Some (Cases.fetched Scenario.nas))
  ∧ warnings run.1 = warnings Cases.unscanned.
Proof.
  apply (proj1 (proj2 (proj2
           (media_server_from_streamer Cases.home None 5 Scenario.cxn Cases.unscanned
              eq_refl eq_refl)
           {| status_code := 200;
              json := Ok (Cases.listing [Scenario.cxn; Scenario.nas]) |}
           (Cases.listing [Scenario.cxn; Scenario.nas])
           (PDict {[ "devices" :=
                       PList (Cases.listed <$> [Scenario.cxn; Scenario.nas]) ]})
           (PList (Cases.listed <$> [Scenario.cxn; Scenario.nas]))
           (Cases.listed <$> [Scenario.cxn; Scenario.nas])
           eq_refl eq_refl eq_refl eq_refl eq_refl))
         [Cases.listed Scenario.cxn] (Cases.listed Scenario.nas) []
         (Cases.fetched Scenario.nas)).
  - reflexivity.
  - constructor; [| constructor].
    exists (Cases.fetched Scenario.cxn). split; [| reflexivity].
    apply described_listed. unfold Cases.neighbours. set_solver.
  - apply described_listed. unfold Cases.neighbours. set_solver.
  - reflexivity.
  - constructor.
Defined.

(** ** Role resolution: the friendly name, for the optional roles *)

(** X15. For the media server and the amplifier a bare hint is a friendly
    name and nothing else: discovery runs, and the result is the first
    discovered device with exactly that friendly name, of whatever type and
    make. *)
Theorem friendly_name_hint
    (w : World) (input : string) (timeout : Z) (sd : option Device) (g : Globals) :
  input ≠ "" →
  urlparse_hostname w input = None →
  let media := _determine_media_server_device w (Some input) timeout sd g in
  let amplifier := _determine_amplifier_device w (Some input) timeout sd g in
  media.2 = friendly_name_match (discovered w timeout g) input
  ∧ amplifier.2 = friendly_name_match (discovered w timeout g) input
  ∧ _upnp_devices media.1 = Some (discovered w timeout g)
  ∧ _upnp_devices amplifier.1 = Some (discovered w timeout g)
  ∧ ∀ d, first_such (fun device => String.eqb (friendly_name device) input)
           (discovered w timeout g) d →
         media.2 = Ok (Some d) ∧ amplifier.2 = Ok (Some d).
Proof.
  intros Hinput Hbare media amplifier.
  pose proof (not_blank input Hinput) as Hblank.
  assert (Hmedia :
    media.2 = friendly_name_match (discovered w timeout g) input
    ∧ _upnp_devices media.1 = Some (discovered w timeout g)).
  { subst media. unfold _determine_media_server_device. rewrite Hblank. cbv zeta.
    change (input_str (Some input)) with input. rewrite Hbare. eff_unfold.
    match goal with |- context [_discover_upnp_devices w timeout ?g0] =>
      destruct (friendly_name_step w input timeout g0) as (g' & Hrun & Hcache & _) end.
    revert Hrun. unfold no_friendly_name. eff_unfold. intros ->.
    split; [reflexivity | exact Hcache]. }
  assert (Hamplifier :
    amplifier.2 = friendly_name_match (discovered w timeout g) input
    ∧ _upnp_devices amplifier.1 = Some (discovered w timeout g)).
  { subst amplifier. unfold _determine_amplifier_device. rewrite Hblank. cbv zeta.
    change (input_str (Some input)) with input. rewrite Hbare. eff_unfold.
    match goal with |- context [_discover_upnp_devices w timeout ?g0] =>
      destruct (friendly_name_step w input timeout g0) as (g' & Hrun & Hcache & _) end.
    revert Hrun. unfold no_friendly_name. eff_unfold. intros ->.
    split; [reflexivity | exact Hcache]. }
  destruct Hmedia as [Hm1 Hm2], Hamplifier as [Ha1 Ha2].
  split; [exact Hm1 |]. split; [exact Ha1 |].
  split; [exact Hm2 |]. split; [exact Ha2 |].
  intros d Hd. destruct (first_such_filter _ _ _ Hd) as (rest & Hrest).
  split.
  - rewrite Hm1. unfold friendly_name_match.
    rewrite <- head_filter_find, Hrest. reflexivity.
  - rewrite Ha1. unfold friendly_name_match.
    rewrite <- head_filter_find, Hrest. reflexivity.
Qed.

Lemma friendly_name_hint_witness :
  (_determine_media_server_device Cases.home (Some "Attic") 5 (Some Scenario.cxn)
     Cases.unscanned).2
  = Ok (Some Scenario.nas)
  ∧ (_determine_amplifier_device Cases.home (Some "Attic") 5 (Some Scenario.cxn)
       Cases.unscanned).2
    = Ok (Some Scenario.nas).
Proof.
  apply (proj2 (proj2 (proj2 (proj2
           (friendly_name_hint Cases.home "Attic" 5 (Some Scenario.cxn) Cases.unscanned
              ltac:(discriminate) eq_refl))))).
  apply (first_such_here (fun device => String.eqb (friendly_name device) "Attic")
           [] [Scenario.hegel; Scenario.cxn]);
    reflexivity.
Defined.

(** ** Role resolution: the three roles together *)



(** ** Adapter classes: resolution by model *)

(** The map from model to implementation built by the loop: for each
    model, the last known implementation that declares it. *)
Lemma known_models (role : Role) (members : list (string * member)) (model : string) :
  (known role members).2 !! model
  = last (List.filter (fun c => String.eqb (cls_model_name c) model)
            (known role members).1).
Proof.
  unfold known.
  assert (Hinv : ∀ acc : list PyClass * gmap string PyClass,
            acc.2 !! model
            = last (List.filter (fun c => String.eqb (cls_model_name c) model) acc.1) →
            let out :=
              foldl
                (fun acc entry =>
                   match entry.2 with
                   | AClass obj =>
                       if issubclass obj role
                       then (acc.1 ++ [obj], <[cls_model_name obj := obj]> acc.2)
                       else acc
                   | NotAClass => acc
                   end) acc members in
            out.2 !! model
            = last (List.filter (fun c => String.eqb (cls_model_name c) model) out.1)).
  { induction members as [| [name obj] members IH]; intros acc Hacc; [exact Hacc |].
    simpl. apply IH. destruct obj as [c |]; simpl; [| exact Hacc].
    destruct (issubclass c role); [| exact Hacc]. simpl.
    rewrite List.filter_app. simpl.
    destruct (String.eqb (cls_model_name c) model) eqn:Hc.
    - apply String.eqb_eq in Hc. subst model.
      rewrite lookup_insert_eq, last_snoc. reflexivity.
    - apply String.eqb_neq in Hc.
      rewrite lookup_insert_ne by exact Hc. rewrite app_nil_r. exact Hacc. }
  apply Hinv. reflexivity.
Qed.

(** X17. Without a type name, the adapter class of each role is looked up
    by the model of the device: the override for the model when there is
    one, otherwise the last implementation of the role that declares the
    model, otherwise a [VibinError] naming the role and the model. *)
Theorem class_by_model (pk : Packages) (device : Device) :
  determine_streamer_class pk device None
  = by_model (model_to_streamer pk) (known Streamer (streamers pk)).1
      "streamer" (model_name device)
  ∧ determine_media_server_class pk device None
    = by_model (model_to_media_server pk) (known MediaServer (mediaservers pk)).1
        "media server" (model_name device)
  ∧ determine_amplifier_class pk device None
    = by_model (model_to_amplifier pk) (known Amplifier (amplifiers pk)).1
        "amplifier" (model_name device).
Proof.
  unfold determine_streamer_class, determine_media_server_class,
         determine_amplifier_class, by_model, lookup_model, no_such_model.
  cbv zeta.
  repeat split.
  - rewrite lookup_union. rewrite known_models.
    destruct (model_to_streamer pk !! model_name device), (last _); reflexivity.
  - rewrite lookup_union. rewrite known_models.
    destruct (model_to_media_server pk !! model_name device), (last _); reflexivity.
  - rewrite lookup_union. rewrite known_models.
    destruct (model_to_amplifier pk !! model_name device), (last _); reflexivity.
Qed.

(** X18. With a type name, the adapter class of each role is the first
    implementation of the role with that class name. *)
Theorem class_by_type_name
    (pk : Packages) (device : Device) (type_name : string) (c : PyClass) :
  let named := fun k : PyClass => String.eqb (__name__ k) type_name in
  (first_such named (known Streamer (streamers pk)).1 c →
   determine_streamer_class pk device (Some type_name) = Ok c)
  ∧ (first_such named (known MediaServer (mediaservers pk)).1 c →
     determine_media_server_class pk device (Some type_name) = Ok c)
  ∧ (first_such named (known Amplifier (amplifiers pk)).1 c →
     determine_amplifier_class pk device (Some type_name) = Ok c).
Proof.
  intros named.
  unfold determine_streamer_class, determine_media_server_class,
         determine_amplifier_class, next_named.
  cbv zeta. fold named.
  repeat split; intros Hfirst; rewrite <- head_filter_find;
    destruct (first_such_filter _ _ _ Hfirst) as (rest & ->); reflexivity.
Qed.

Lemma class_by_type_name_witness :
  determine_streamer_class Scenario.packages Scenario.hegel (Some "CXNv2")
  = Ok (Scenario.adapter Streamer "CXNv2" "CXNv2").
Proof.
  apply (proj1 (class_by_type_name Scenario.packages Scenario.hegel "CXNv2"
                  (Scenario.adapter Streamer "CXNv2" "CXNv2"))).
  apply (first_such_here (fun k => String.eqb (__name__ k) "CXNv2")
           [] [Scenario.adapter Streamer "Streamer" "VibinStreamer"]);
    reflexivity.
Defined.

(** ** Role resolution: what every run leaves in place *)

Lemma steady_ret {A} (a : A) : steady (mret a).
Proof. intros g. split; [reflexivity | reflexivity]. Qed.

Lemma steady_raise {A} (e : exn) : steady (@raise Globals A e).
Proof. intros g. split; [reflexivity | reflexivity]. Qed.

Lemma steady_lift {A} (r : result A) : steady (@lift Globals A r).
Proof. intros g. split; [reflexivity | reflexivity]. Qed.

Lemma steady_log (lv : level) (msg : string) : steady (log lv msg).
Proof. intros g. split; [reflexivity |]. simpl. by apply prefix_app_r. Qed.

Lemma steady_bind {A B} (m : Eff Globals A) (k : A → Eff Globals B) :
  steady m → (∀ a, steady (k a)) → steady (m ≫= k).
Proof.
  intros Hm Hk g. destruct (Hm g) as [Hcache Hlog]. eff_unfold.
  destruct (m g) as [g1 [a | e]]; simpl in *; [| split; assumption].
  destruct (Hk a g1) as [Hcache' Hlog']. split.
  - intros Hsome. rewrite Hcache', (Hcache Hsome); [reflexivity |].
    rewrite (Hcache Hsome). exact Hsome.
  - by etrans.
Qed.

Lemma steady_try {A} (body : Eff Globals A) (handler : exn → option (Eff Globals A)) :
  steady body → (∀ e, steady_opt (handler e)) → steady (try_except body handler).
Proof.
  intros Hb Hh g. destruct (Hb g) as [Hcache Hlog]. eff_unfold.
  destruct (body g) as [g1 [a | e]]; simpl in *; [split; assumption |].
  specialize (Hh e). destruct (handler e) as [k |]; simpl in *; [| split; assumption].
  destruct (Hh g1) as [Hcache' Hlog']. split.
  - intros Hsome. rewrite Hcache', (Hcache Hsome); [reflexivity |].
    rewrite (Hcache Hsome). exact Hsome.
  - by etrans.
Qed.

Lemma steady_for_each {A} (l : list A) (body : A → Eff Globals unit) :
  (∀ x, steady (body x)) → steady (for_each l body).
Proof.
  intros Hbody. induction l as [| x l IH]; [apply steady_ret |].
  simpl. apply steady_bind; [apply Hbody | intros _; exact IH].
Qed.

Lemma steady_discover (w : World) (timeout : Z) :
  steady (_discover_upnp_devices w timeout).
Proof.
  intros g. unfold _discover_upnp_devices. eff_unfold.
  destruct (_upnp_devices g) as [devices |] eqn:Hcache.
  - split; [intros _; exact Hcache | reflexivity].
  - split; [intros [? Hsome]; discriminate Hsome |].
    pose proof (steady_for_each (upnpclient_discover w timeout)
                  (fun device =>
                     logger_info
                       ("Found: " +:+ model_name device +:+ " ('"
                        +:+ friendly_name device +:+ "') from "
                        +:+ manufacturer device))
                  (fun _ => steady_log _ _)
                  (logged INFO "Discovering UPnP devices..." g)) as [_ Hlog].
    eff_unfold in Hlog.
    destruct (for_each _ _ _) as [g1 [[] | e]]; simpl in *.
    + etrans; [| exact Hlog]. by apply prefix_app_r.
    + etrans; [| exact Hlog]. by apply prefix_app_r.
Qed.

(** One step in showing a body [steady]: descend into the construct at its
    head. *)
Ltac steady_step :=
  lazymatch goal with
  | |- steady (mbind _ _) => apply steady_bind; [| intros ?]
  | |- steady (mret _) => apply steady_ret
  | |- steady (raise _) => apply steady_raise
  | |- steady (lift _) => apply steady_lift
  | |- steady (logger_info _) => apply steady_log
  | |- steady (logger_warning _) => apply steady_log
  | |- steady (try_except _ _) => apply steady_try; [| intros ?; cbv zeta]
  | |- steady (_discover_upnp_devices _ _) => apply steady_discover
  | |- steady (return_first _) => unfold return_first
  | |- steady (return_Device _ _) => unfold return_Device
  | |- steady (attr_of _ _) => unfold attr_of
  | |- steady (if ?b then _ else _) => destruct b
  | |- steady (match ?x with _ => _ end) => destruct x
  | |- steady_opt (on_IndexError _ _) => unfold on_IndexError
  | |- steady_opt (on_RequestException _ _) => unfold on_RequestException
  | |- steady_opt (if ?b then _ else _) => destruct b
  | |- steady_opt (match ?x with _ => _ end) => destruct x
  | |- steady_opt (Some _) => unfold steady_opt
  | |- steady_opt None => exact I
  end.

Lemma steady_streamer (w : World) (streamer_input : option string) (timeout : Z) :
  steady (_determine_streamer_device w streamer_input timeout).
Proof. unfold _determine_streamer_device. repeat steady_step. Qed.

Lemma steady_media_server
    (w : World) (input : option string) (timeout : Z) (sd : option Device) :
  steady (_determine_media_server_device w input timeout sd).
Proof. unfold _determine_media_server_device. repeat steady_step. Qed.

Lemma steady_amplifier
    (w : World) (input : option string) (timeout : Z) (sd : option Device) :
  steady (_determine_amplifier_device w input timeout sd).
Proof. unfold _determine_amplifier_device. repeat steady_step. Qed.

(** X19. Once the discovery cache is populated, no resolution call changes
    it, whatever the hints and the network and whether the call returns or
    raises; and the log only ever grows. *)
Theorem resolution_keeps_cache_and_log
    (w : World) (streamer_input : option string) (media amplifier : hint)
    (timeout : Z) (g : Globals) (devices : list Device) :
  _upnp_devices g = Some devices →
  let after := (determine_devices w streamer_input media amplifier timeout g).1 in
  _upnp_devices after = Some devices
  ∧ logger g `prefix_of` logger after.
Proof.
  intros Hcache after. subst after.
  assert (Hsteady : steady (determine_devices w streamer_input media amplifier timeout)).
  { unfold determine_devices.
    repeat first [ apply steady_streamer | apply steady_media_server
                 | apply steady_amplifier | steady_step ]. }
  destruct (Hsteady g) as [Hkeep Hlog]. split; [| exact Hlog].
  rewrite Hkeep; [exact Hcache | by exists devices].
Qed.

Lemma resolution_keeps_cache_and_log_witness :
  let after :=
    (determine_devices Cases.home (Some "192.168.1.10") HNone HNone 5
       (Scenario.cached [Scenario.hegel])).1 in
  _upnp_devices after = Some [Scenario.hegel]
  ∧ logger (Scenario.cached [Scenario.hegel]) `prefix_of` logger after.
Proof.
  apply (resolution_keeps_cache_and_log Cases.home (Some "192.168.1.10") HNone HNone 5
           (Scenario.cached [Scenario.hegel]) [Scenario.hegel]).
  reflexivity.
Defined.

(** ** The transport verbs of the orchestrator, further *)

Lemma verbs_wrap_SOAPError_witness :
  @base.pause Scenario.silent unit
    (Scenario.failing (SOAPError [PInt 701; PStr "Transition not available"])) ()
  = ((), Raise (wrapped Scenario.silent "Unable to perform Pause transition"
                  (PInt 701) (PStr "Transition not available"))).
Proof.
  apply (proj1 (@verbs_wrap_SOAPError Scenario.silent unit
                  (Scenario.failing (SOAPError [PInt 701; PStr "Transition not available"]))
                  () () (PInt 701) (PStr "Transition not available") None)).
  reflexivity.
Defined.

(** What one of the six wrapped verbs makes of the outcome of the streamer's
    method: anything but a [SOAPError] is passed on as it is. *)
Lemma wrapping_is_transparent {S} (w : World) (what : string)
    (op : Eff S unit) (s : S) :
  match (op s).2 with
  | Raise (SOAPError _) => True
  | _ => try_except op (base.on_SOAPError w what) s = op s
  end.
Proof.
  unfold try_except. destruct (op s) as [s' [[] | e]]; cbn [snd]; [reflexivity |].
  destruct e; try exact I; reflexivity.
Qed.

(** X21. The six wrapped transport verbs pass on every outcome of the
    streamer's method that is not a [SOAPError]: a normal return, and any
    other exception, with the streamer in the state the method left. *)
Theorem verbs_are_transparent
    (w : World) {S : Type} `{base.Streamer S} (enabled : option bool) (s : S) :
  Forall
    (fun '(op, verb) =>
       match (op s).2 with
       | Raise (SOAPError _) => True
       | _ => verb s = op s
       end)
    [(base.streamer_pause, base.pause w);
     (base.streamer_play, base.play w);
     (base.streamer_next_track, base.next_track w);
     (base.streamer_previous_track, base.previous_track w);
     (base.streamer_repeat enabled, base.repeat w enabled);
     (base.streamer_shuffle enabled, base.shuffle w enabled)].
Proof.
  repeat constructor; apply wrapping_is_transparent.
Qed.

Import orchestrator OrchestratorProps.

(** ** The orchestrator: construction, playback and events *)

Tactic Notation "obj_unfold" :=
  cbv beta iota delta
    [mbind mret Py.eff_bind Py.eff_ret Py.get Py.lift Py.raise Py.try_except
     orchestrator.logger_info orchestrator.with_this orchestrator.call
     orchestrator.on_streamer orchestrator.on_media].

Lemma find_filter {A} (f g : A → bool) (l : list A) :
  List.find f (List.filter g l) = List.find (fun x => g x && f x) l.
Proof.
  induction l as [| x l IH]; [reflexivity |].
  cbn. destruct (g x); cbn; [destruct (f x) |]; auto.
Qed.

Lemma choose_find (by_model : gmap string device_resolution.PyClass)
    (devices : list Device) (wanted : option string) :
  choose by_model devices wanted = List.find (usable by_model wanted) devices.
Proof.
  unfold choose, usable. destruct (device_resolution.is_blank wanted); cbn [negb].
  - transitivity (List.find
      (fun device => bool_decide (is_Some (by_model !! model_name device))) devices).
    + rewrite <- head_filter_find.
      destruct (List.filter _ devices) as [| d l]; reflexivity.
    + induction devices as [| d l IH]; [reflexivity |].
      cbn. rewrite andb_true_r. rewrite IH. reflexivity.
  - apply find_filter.
Qed.

Lemma find_first_such {A} (f : A → bool) (l : list A) (x : A) :
  first_such f l x → List.find f l = Some x.
Proof.
  intros (before & after & -> & Hbefore & Hx).
  induction Hbefore as [| y before Hy _ IH]; cbn.
  - rewrite Hx. reflexivity.
  - rewrite Hy. exact IH.
Qed.

Lemma find_nothing {A} (f : A → bool) (l : list A) :
  (∀ x, x ∈ l → f x = false) → List.find f l = None.
Proof.
  induction l as [| x l IH]; intros Hall; [reflexivity |].
  cbn. rewrite (Hall x) by constructor.
  apply IH. intros y Hy. apply Hall. constructor. exact Hy.
Qed.

Section Orchestrator.
Context {O : Type} `{Collaborators O} (repo : Repo).

(** X22. The streamer is the first discovered device of a known streamer
    model that carries the wanted name, or the first of a known model when
    no name is wanted.  The implementation declared for its model is built
    for it and kept, and its name is logged.  When there is no such device
    nothing is built and a [VibinError] is raised. *)
Theorem streamer_selection
    (devices : list Device) (wanted base : option string) (s : Sys O) :
  let pick := usable (streamer_models repo) wanted in
  ((∀ d, d ∈ devices → pick d = false) →
   _determine_streamer repo devices wanted base s
   = (s, Raise (VibinError
          (match wanted with
           | Some name =>
               if String.eqb name "" then "Could not find any known streamer devices"
               else "Could not find streamer " +:+ dq +:+ name +:+ dq
           | None => "Could not find any known streamer devices"
           end))))
  ∧ (∀ d o1 o2 name,
       first_such pick devices d →
       ∃ c, streamer_models repo !! model_name d = Some c
            ∧ (new_streamer c d base (outside s) = (o1, Ok ()) →
               streamer_name o1 = (o2, Ok name) →
               _determine_streamer repo devices wanted base s
               = (settled s
                    (set_current_streamer
                       (Some {| instance_class := c; instance_device := d |}) (this s))
                    o2 ["Using streamer: " +:+ dq +:+ name +:+ dq],
                  Ok ()))).
Proof.
  intros pick. split.
  - intros Hnone. unfold _determine_streamer.
    fold (streamer_models repo). rewrite choose_find.
    fold pick. rewrite (find_nothing _ _ Hnone).
    destruct wanted as [name |]; cbn; [destruct (String.eqb name "") |]; reflexivity.
  - intros d o1 o2 name Hfirst.
    pose proof Hfirst as (_ & _ & _ & _ & Hd).
    unfold pick, usable in Hd. apply andb_prop in Hd as [Hknown _].
    apply bool_decide_eq_true_1 in Hknown as [c Hc].
    exists c. split; [exact Hc |]. intros Hnew Hname.
    unfold _determine_streamer.
    fold (streamer_models repo). rewrite choose_find.
    fold pick. rewrite (find_first_such _ _ _ Hfirst).
    unfold device_resolution.lookup_model. rewrite Hc.
    obj_unfold. cbn [outside this logger fst snd].
    rewrite Hnew. cbn [outside this logger fst snd _current_streamer set_current_streamer].
    rewrite Hname. reflexivity.
Qed.

(** No usable device: the media source is not determined. *)
Lemma media_source_missing
    (devices : list Device) (wanted : option string) (s : Sys O) :
  (∀ d, d ∈ devices → usable (media_models repo) wanted d = false) →
  _determine_media_source repo devices wanted s
  = (s, Raise
         (if device_resolution.is_blank wanted
          then AttributeError "'NoneType' object has no attribute 'model_name'"
          else VibinError ("Could not find media source "
                           +:+ device_resolution.input_str wanted))).
Proof.
  intros Hnone. unfold _determine_media_source.
  fold (media_models repo). rewrite choose_find.
  rewrite (find_nothing _ _ Hnone).
  rewrite bool_decide_eq_true_2 by reflexivity.
  destruct (device_resolution.is_blank wanted); reflexivity.
Qed.

(** X23. The media source is chosen like the streamer.  A wanted name
    that no known device carries is a [VibinError]; with no name wanted and
    no device of a known model the method fails with an [AttributeError] on
    [None].  Nothing is built in either case. *)
Theorem media_source_selection
    (devices : list Device) (wanted : option string) (s : Sys O) :
  let pick := usable (media_models repo) wanted in
  ((∀ d, d ∈ devices → pick d = false) →
   _determine_media_source repo devices wanted s
   = (s, Raise
          (if device_resolution.is_blank wanted
           then AttributeError "'NoneType' object has no attribute 'model_name'"
           else VibinError ("Could not find media source "
                            +:+ device_resolution.input_str wanted))))
  ∧ (∀ d o1 o2 name,
       first_such pick devices d →
       ∃ c, media_models repo !! model_name d = Some c
            ∧ (new_media_source c d (outside s) = (o1, Ok ()) →
               media_name o1 = (o2, Ok name) →
               _determine_media_source repo devices wanted s
               = (settled s
                    (set_current_media_source
                       (Some {| instance_class := c; instance_device := d |}) (this s))
                    o2 ["Using media source: " +:+ dq +:+ name +:+ dq],
                  Ok ()))).
Proof.
  intros pick. split.
  - apply media_source_missing.
  - intros d o1 o2 name Hfirst.
    pose proof Hfirst as (_ & _ & _ & _ & Hd).
    unfold pick, usable in Hd. apply andb_prop in Hd as [Hknown _].
    apply bool_decide_eq_true_1 in Hknown as [c Hc].
    exists c. split; [exact Hc |]. intros Hnew Hname.
    unfold _determine_media_source.
    fold (media_models repo). rewrite choose_find.
    fold pick. rewrite (find_first_such _ _ _ Hfirst).
    rewrite bool_decide_eq_false_2 by discriminate. cbn [andb].
    unfold device_resolution.lookup_model. rewrite Hc.
    obj_unfold. cbn [outside this logger fst snd].
    rewrite Hnew.
    cbn [outside this logger fst snd _current_media_source set_current_media_source].
    rewrite Hname. reflexivity.
Qed.


Lemma found_lines (f : Device → string) (l : list Device) (s : Sys O) :
  device_resolution.for_each l
    (fun device s0 =>
       ({| this := this s0; outside := outside s0; logger := logger s0 ++ [f device] |},
        Ok ())) s
  = (settled s (this s) (outside s) (f <$> l), Ok ()).
Proof.
  revert s. induction l as [| d l IH]; intros s.
  - unfold settled. cbn. rewrite app_nil_r. destruct s; reflexivity.
  - cbn [device_resolution.for_each]. obj_unfold. rewrite IH.
    unfold settled. cbn. rewrite <- app_assoc. reflexivity.
Qed.

Lemma streamer_keeps_media_source
    (devices : list Device) (wanted base : option string) (s : Sys O) :
  _current_media_source (this (_determine_streamer repo devices wanted base s).1)
  = _current_media_source (this s).
Proof.
  unfold _determine_streamer.
  destruct (choose _ devices wanted) as [d |]; [| reflexivity].
  destruct (device_resolution.lookup_model _ (model_name d)) as [c | e];
    [| reflexivity].
  obj_unfold. cbn [outside this logger fst snd].
  destruct (new_streamer c d base (outside s)) as [o1 [[] | e]];
    cbn [outside this logger fst snd _current_streamer set_current_streamer];
    [| reflexivity].
  destruct (streamer_name o1) as [o2 [name | e]]; reflexivity.
Qed.

(** X24. A [Vibin] cannot be constructed when no discovered device is of a
    known media source model, whether or not a media source was named:
    construction ends in an exception, and no media source has been set. *)
Theorem construction_needs_a_media_source
    (w : World) (streamer media : option string) (discovery_timeout : Z)
    (base : option string) (s : Sys O) :
  (∀ d, d ∈ upnpclient_discover w discovery_timeout →
        media_models repo !! model_name d = None) →
  let after := __init__ w repo streamer media discovery_timeout base s in
  (∃ e, after.2 = Raise e) ∧ _current_media_source (this after.1) = None.
Proof.
  intros Hmodels after.
  assert (Hrun : ∃ s2 e, after = (s2, Raise e)
                         ∧ _current_media_source (this s2) = None).
  2: { destruct Hrun as (s2 & e & -> & Hunset). split; [exists e; reflexivity | exact Hunset]. }
  subst after. unfold __init__.
  set (devices := upnpclient_discover w discovery_timeout) in *.
  assert (Hnone : ∀ d, d ∈ devices → usable (media_models repo) media d = false).
  { intros d Hd. unfold usable. rewrite (Hmodels d Hd).
    rewrite bool_decide_eq_false_2 by (intros [? ?]; discriminate). reflexivity. }
  obj_unfold. cbn [outside this logger fst snd].
  rewrite (found_lines (fun device =>
             "Found: " +:+ model_name device +:+ " (" +:+ dq
             +:+ friendly_name device +:+ dq +:+ ")")).
  unfold settled at 1. obj_unfold.
  match goal with
  | |- context [_determine_streamer repo devices streamer base ?s1] =>
      pose proof (streamer_keeps_media_source devices streamer base s1) as Hkept;
      destruct (_determine_streamer repo devices streamer base s1) as [s2 [[] | e]]
  end; cbn [fst snd this _current_media_source set_current_media_source
            set_on_state_vars_update_handlers set_on_websocket_update_handlers] in Hkept.
  - rewrite (media_source_missing devices media s2 Hnone). eauto.
  - eauto.
Qed.

(** X25. With a streamer and a media source in place, [play_id] looks the
    id up at the media source and hands the metadata, and nothing else, to
    the streamer.  It records the id as the last played one exactly when
    both calls return; when the lookup raises the streamer is not called,
    and when either call raises the object is as before.
    [modify_playlist] makes the same lookup and hands the metadata, the
    action and the index to the streamer; it never changes the object. *)
Theorem last_played_id_follows_success
    (id : string) (s : Sys O) (streamer media : Instance) :
  _current_streamer (this s) = Some streamer →
  _current_media_source (this s) = Some media →
  let lookup := media_get_metadata id (outside s) in
  (∀ e, lookup.2 = Raise e →
        (play_id id s
         = ({| this := this s; outside := lookup.1; logger := logger s |}, Raise e))
        ∧ ∀ action insert_index,
            modify_playlist id action insert_index s
            = ({| this := this s; outside := lookup.1; logger := logger s |}, Raise e))
  ∧ (∀ metadata, lookup.2 = Ok metadata →
       (let played := streamer_play_metadata [metadata] lookup.1 in
        play_id id s
        = ({| this := match played.2 with
                      | Ok _ => set_last_played_id (Some id) (this s)
                      | Raise _ => this s
                      end;
              outside := played.1;
              logger := logger s |},
           played.2))
       ∧ ∀ action insert_index,
           let queued :=
             streamer_play_metadata
               [metadata; PStr action;
                match insert_index with Some i => PInt i | None => PNone end]
               lookup.1 in
           modify_playlist id action insert_index s
           = ({| this := this s; outside := queued.1; logger := logger s |},
              queued.2)).
Proof.
  intros Hstreamer Hmedia lookup. subst lookup.
  unfold play_id, modify_playlist. obj_unfold. rewrite Hstreamer, Hmedia.
  cbn [outside this logger fst snd].
  destruct (media_get_metadata id (outside s)) as [o1 [found | e']];
    cbn [outside this logger fst snd].
  - split; [intros e He; discriminate He |].
    intros metadata [= <-]. split.
    + destruct (streamer_play_metadata [found] o1) as [o2 [[] | e]]; reflexivity.
    + intros action insert_index.
      match goal with
      | |- context [streamer_play_metadata ?args o1] =>
          destruct (streamer_play_metadata args o1) as [o2 [[] | e]]
      end; reflexivity.
  - split; [| intros metadata Hm; discriminate Hm].
    intros e [= <-]. split; [reflexivity |]. intros action insert_index. reflexivity.
Qed.

Lemma deliver_app (l1 l2 : list (string → string → Eff O unit))
    (message_type data : string) (s : Sys O) :
  deliver (l1 ++ l2) message_type data s
  = (_ ← deliver l1 message_type data; deliver l2 message_type data) s.
Proof.
  revert s. induction l1 as [| h l1 IH]; intros s.
  - cbn. destruct s; reflexivity.
  - unfold deliver in *. cbn [app device_resolution.for_each].
    obj_unfold. cbn [outside this logger fst snd].
    destruct (h message_type data (outside s)) as [o [[] | e]];
      cbn [fst snd]; [| reflexivity].
    rewrite IH. obj_unfold. reflexivity.
Qed.

(** X26. A websocket message goes to the registered handlers in the order
    of their registration: a handler registered now is called after all the
    earlier ones.  A handler that raises ends the delivery: the exception
    reaches the caller and the handlers after it are not called. *)
Theorem websocket_delivery
    (handler : string → string → Eff O unit) (message_type data : string)
    (s : Sys O) :
  (let registered := (on_websocket_update handler s).1 in
   _websocket_message_handler message_type data registered
   = (_ ← deliver (_on_websocket_update_handlers (this s)) message_type data;
      call (handler message_type data)) registered)
  ∧ (∀ before after s1 o e,
       _on_websocket_update_handlers (this s) = before ++ handler :: after →
       deliver before message_type data s = (s1, Ok ()) →
       handler message_type data (outside s1) = (o, Raise e) →
       _websocket_message_handler message_type data s
       = ({| this := this s1; outside := o; logger := logger s1 |}, Raise e)).
Proof.
  split.
  - cbv zeta.
    change (on_websocket_update handler s).1
      with {| this := set_on_websocket_update_handlers
                        (_on_websocket_update_handlers (this s) ++ [handler]) (this s);
              outside := outside s; logger := logger s |}.
    unfold _websocket_message_handler.
    cbv beta iota delta [mbind Py.eff_bind Py.get].
    cbn [this _on_websocket_update_handlers set_on_websocket_update_handlers].
    change (device_resolution.for_each
              (_on_websocket_update_handlers (this s) ++ [handler])
              (fun handler0 => call (handler0 message_type data)))
      with (deliver (_on_websocket_update_handlers (this s) ++ [handler])
              message_type data).
    rewrite deliver_app. cbv beta iota delta [mbind Py.eff_bind].
    match goal with
    | |- context [deliver ?l message_type data ?s0] =>
        destruct (deliver l message_type data s0) as [s1 [[] | e]]
    end; [| reflexivity].
    unfold deliver. cbn [device_resolution.for_each]. obj_unfold.
    destruct (handler message_type data (outside s1)) as [o [[] | e]]; reflexivity.
  - intros before after s1 o e Hhandlers Hbefore Hraise.
    unfold _websocket_message_handler.
    cbv beta iota delta [mbind Py.eff_bind Py.get]. rewrite Hhandlers.
    change (device_resolution.for_each (before ++ handler :: after)
              (fun handler0 => call (handler0 message_type data)))
      with (deliver (before ++ handler :: after) message_type data).
    rewrite deliver_app. cbv beta iota delta [mbind Py.eff_bind]. rewrite Hbefore.
    unfold deliver. cbn [device_resolution.for_each]. obj_unfold.
    rewrite Hraise. reflexivity.
Qed.

(** X27. The state variables, when the reads of the adapters leave them
    as they are.  The streamer's variables are filed under the streamer's name
    beside the fixed keys, so a streamer called like a fixed key takes its
    place: called [vibin], its variables are hidden by Vibin's own; called
    [streamer_name], they replace the name. *)
Theorem state_vars_layout
    (s : Sys O) (streamer media : Instance) (name source : string)
    (vars vibin_vars : pyval) :
  _current_streamer (this s) = Some streamer →
  _current_media_source (this s) = Some media →
  streamer_name (outside s) = (outside s, Ok name) →
  media_name (outside s) = (outside s, Ok source) →
  streamer_state_vars (outside s) = (outside s, Ok vars) →
  streamer_vibin_vars (outside s) = (outside s, Ok vibin_vars) →
  let last :=
    match _last_played_id (this s) with Some id => PStr id | None => PNone end in
  ∃ top own,
    state_vars s = (s, Ok (PDict top))
    ∧ top !! "vibin" = Some (PDict own)
    ∧ own !! name = Some vibin_vars
    ∧ (name ≠ "last_played_id" → own !! "last_played_id" = Some last)
    ∧ top !! name = Some (if String.eqb name "vibin" then PDict own else vars)
    ∧ top !! "streamer_name"
      = Some (if String.eqb name "streamer_name" then vars else PStr name)
    ∧ top !! "media_source_name"
      = Some (if String.eqb name "media_source_name" then vars else PStr source).
Proof.
  intros Hstreamer Hmedia Hname Hsource Hvars Hvibin last.
  eexists _, _. split.
  - unfold state_vars. obj_unfold.
    repeat (cbn [outside this logger fst snd];
            first [rewrite Hstreamer | rewrite Hmedia | rewrite Hname
                  | rewrite Hsource | rewrite Hvars | rewrite Hvibin]).
    destruct s; reflexivity.
  - split; [apply lookup_insert_eq |].
    split; [apply lookup_insert_eq |].
    split.
    { intros Hne. rewrite lookup_insert_ne by congruence. apply lookup_insert_eq. }
    split.
    { destruct (String.eqb_spec name "vibin") as [-> | Hne].
      - apply lookup_insert_eq.
      - rewrite lookup_insert_ne by congruence. apply lookup_insert_eq. }
    split.
    { rewrite lookup_insert_ne by discriminate.
      destruct (String.eqb_spec name "streamer_name") as [-> | Hne].
      - apply lookup_insert_eq.
      - rewrite lookup_insert_ne by congruence.
        rewrite lookup_insert_ne by discriminate. apply lookup_insert_eq. }
    { rewrite lookup_insert_ne by discriminate.
      destruct (String.eqb_spec name "media_source_name") as [-> | Hne].
      - apply lookup_insert_eq.
      - rewrite lookup_insert_ne by congruence. apply lookup_insert_eq. }
Qed.

End Orchestrator.

(** The orchestrator on the home network. *)

Lemma streamer_selection_witness :
  @_determine_streamer _ Cases.repo Cases.rig [Scenario.nas; Scenario.hegel]
    (Some "Kitchen") None Cases.start
  = (Cases.start,
     Raise (VibinError ("Could not find streamer " +:+ dq +:+ "Kitchen" +:+ dq)))
  ∧ @_determine_streamer _ Cases.repo Cases.rig Cases.neighbours None None Cases.start
    = (settled Cases.start
         (set_current_streamer (Some Cases.cxn_streamer) (this Cases.start))
         ["streamer CXNv2 for Living Room"]
         ["Using streamer: " +:+ dq +:+ "Living Room" +:+ dq],
       Ok ()).
Proof.
  split.
  - apply (proj1 (@streamer_selection _ Cases.rig Cases.repo
                    [Scenario.nas; Scenario.hegel] (Some "Kitchen") None Cases.start)).
    intros d Hd. apply list_elem_of_In in Hd. simpl in Hd.
    destruct Hd as [<- | [<- | []]]; reflexivity.
  - destruct (proj2 (@streamer_selection _ Cases.rig Cases.repo
                       Cases.neighbours None None Cases.start)
                Scenario.cxn ["streamer CXNv2 for Living Room"]
                ["streamer CXNv2 for Living Room"] "Living Room")
      as (c & Hc & Hrun).
    + apply (first_such_here (usable (streamer_models Cases.repo) None)
               [Scenario.nas; Scenario.hegel] []);
        reflexivity.
    + vm_compute in Hc. injection Hc as <-. apply Hrun; reflexivity.
Defined.

Lemma media_source_selection_witness :
  @_determine_media_source _ Cases.repo Cases.rig Cases.neighbours None Cases.start
  = (Cases.start,
     Raise (AttributeError "'NoneType' object has no attribute 'model_name'"))
  ∧ @_determine_media_source _ Cases.repo Cases.rig Cases.neighbours (Some "Attic")
      Cases.start
    = (Cases.start, Raise (VibinError "Could not find media source Attic"))
  ∧ @_determine_media_source _ Cases.repo Cases.rig [Scenario.nas; Cases.asset] None
      Cases.start
    = (settled Cases.start
         (set_current_media_source (Some Cases.asset_source) (this Cases.start))
         ["media source Asset for Asset UPnP: NAS"]
         ["Using media source: " +:+ dq +:+ "Asset UPnP: NAS" +:+ dq],
       Ok ()).
Proof.
  split; [| split].
  - apply (proj1 (@media_source_selection _ Cases.rig Cases.repo
                    Cases.neighbours None Cases.start)).
    intros d Hd. apply list_elem_of_In in Hd. simpl in Hd.
    destruct Hd as [<- | [<- | [<- | []]]]; reflexivity.
  - apply (proj1 (@media_source_selection _ Cases.rig Cases.repo
                    Cases.neighbours (Some "Attic") Cases.start)).
    intros d Hd. apply list_elem_of_In in Hd. simpl in Hd.
    destruct Hd as [<- | [<- | [<- | []]]]; reflexivity.
  - destruct (proj2 (@media_source_selection _ Cases.rig Cases.repo
                       [Scenario.nas; Cases.asset] None Cases.start)
                Cases.asset ["media source Asset for Asset UPnP: NAS"]
                ["media source Asset for Asset UPnP: NAS"] "Asset UPnP: NAS")
      as (c & Hc & Hrun).
    + apply (first_such_here (usable (media_models Cases.repo) None)
               [Scenario.nas] []);
        reflexivity.
    + vm_compute in Hc. injection Hc as <-. apply Hrun; reflexivity.
Defined.

Lemma construction_needs_a_media_source_witness :
  let after :=
    @__init__ _ Cases.home Cases.repo Cases.rig None None 5 None Cases.start in
  (∃ e, after.2 = Raise e) ∧ _current_media_source (this after.1) = None.
Proof.
  apply (@construction_needs_a_media_source _ Cases.rig Cases.repo Cases.home
           None None 5 None Cases.start).
  intros d Hd. apply list_elem_of_In in Hd. simpl in Hd.
  destruct Hd as [<- | [<- | [<- | []]]]; reflexivity.
Defined.

Lemma last_played_id_follows_success_witness :
  @play_id _ Cases.rig "0$=Album$42" Cases.running
  = ({| this := set_last_played_id (Some "0$=Album$42") (this Cases.running);
        outside := ["play_metadata"];
        logger := [] |},
     Ok ())
  ∧ @play_id _ Cases.stuck "0$=Album$42" Cases.running
    = ({| this := this Cases.running;
          outside := ["play_metadata"];
          logger := [] |},
       Raise (SOAPError [PInt 701; PStr "Transition not available"]))
  ∧ @modify_playlist _ Cases.rig "0$=Album$42" "APPEND" None Cases.running
    = ({| this := this Cases.running;
          outside := ["play_metadata"];
          logger := [] |},
       Ok ()).
Proof.
  split; [| split].
  - apply (proj1 (proj2 (@last_played_id_follows_success _ Cases.rig "0$=Album$42"
                           Cases.running Cases.cxn_streamer Cases.asset_source
                           eq_refl eq_refl)
                   (PStr "0$=Album$42") eq_refl)).
  - apply (proj1 (proj2 (@last_played_id_follows_success _ Cases.stuck "0$=Album$42"
                           Cases.running Cases.cxn_streamer Cases.asset_source
                           eq_refl eq_refl)
                   (PStr "0$=Album$42") eq_refl)).
  - apply (proj2 (proj2 (@last_played_id_follows_success _ Cases.rig "0$=Album$42"
                           Cases.running Cases.cxn_streamer Cases.asset_source
                           eq_refl eq_refl)
                   (PStr "0$=Album$42") eq_refl)
             "APPEND" None).
Defined.

Lemma websocket_delivery_witness :
  @_websocket_message_handler _ "System" "{}" Cases.listening
  = ({| this := this Cases.listening;
        outside := ["first: System"];
        logger := [] |},
     Raise (ValueError "unexpected message")).
Proof.
  apply (proj2 (websocket_delivery Cases.refuse "System" "{}" Cases.listening)
           [Cases.note "first"] [Cases.note "third"]
           {| this := this Cases.listening;
              outside := ["first: System"];
              logger := [] |});
    reflexivity.
Defined.

Lemma state_vars_layout_witness :
  ∃ top own,
    @state_vars _ Cases.rig Cases.running = (Cases.running, Ok (PDict top))
    ∧ top !! "vibin" = Some (PDict own)
    ∧ own !! "Living Room" = Some (PDict ∅)
    ∧ ("Living Room" ≠ "last_played_id" → own !! "last_played_id" = Some PNone)
    ∧ top !! "Living Room" = Some (PDict ∅)
    ∧ top !! "streamer_name" = Some (PStr "Living Room")
    ∧ top !! "media_source_name" = Some (PStr "Asset UPnP: NAS").
Proof.
  apply (@state_vars_layout _ Cases.rig Cases.running Cases.cxn_streamer
           Cases.asset_source "Living Room" "Asset UPnP: NAS" (PDict ∅) (PDict ∅));
    reflexivity.
Defined.
